(** * TotalDepth RP66V1: the XML index codec

    A shallow embedding of [TotalDepth/RP66V1/IndexXML.py] and
    [TotalDepth/RP66V1/core/LogPassXML.py].

    Conventions of the embedding:
    - a Python function that may raise returns a [result]; every exception
      class the code can meet is a constructor of [exn];
    - a Python [str] is a [string], a Python [bytes] is a [list byte];
    - a Python [int] is a [Z]; a Python [float] is an element of the carrier
      of a [PyFloat] structure, whose arithmetic is left abstract;
    - an [xml.etree.Element] is a record of tag, attribute dictionary
      ([gmap string string]) and child list; the event stream written
      through [XmlWrite] is represented by the tree it describes. *)

From Stdlib Require Import ZArith String Ascii List Lia Bool.
From Stdlib.Strings Require Import Byte.
From Stdlib Require Import Decimal Hexadecimal DecimalString HexadecimalString.
From Stdlib Require Import DecimalPos HexadecimalPos DecimalZ HexadecimalZ.
From stdpp Require Import base option list gmap strings.

Local Open Scope string_scope.
Local Open Scope Z_scope.

(** ** Exceptions and results *)

(** Each constructor of the two reader exceptions stands for one [raise]
    statement; the arguments are the values the message is formatted from. *)
Inductive xml_read_error :=
| Expected_single_element (xpath : string) (found : nat)
| Expected_RLE_count (count : Z)
| Expected_RLE_len (rle_len : Z) (got : nat)
| Found_DLIS_version (found : list byte)
| Sequence_number_not_positive (sequence_number : Z)
| Found_storage_unit_structure (found : list byte).

Inductive index_read_error :=
| Not_enough_EFLRs
| First_EFLR_not_FILE_HEADER
| Second_EFLR_not_ORIGIN
| Duplicate_frame_array
| Bad_root_tag (found : string)
| Bad_schema_version (found : string)
| Not_a_file (path : string)
| Not_a_RP66V1_file (path : string) (bin_file_type : string)
| Bad_logical_file_count (found : nat) (expected : Z).

Inductive exn :=
| KeyError (key : string)
| ValueError
| TypeError
| IndexError
| AttributeError
| AssertionError
| UnicodeError
| OSError
| ExceptionIndexXMLRead (why : xml_read_error)
| ExceptionRP66V1IndexXMLRead (why : index_read_error)
| ExceptionFrameArrayInit
| ExceptionLogPassXML
| ExceptionTotalDepthRP66V1
| KeyboardInterrupt.

(** [except Exception] catches everything but the direct children of
    [BaseException]. *)
Definition is_Exception (e : exn) : bool :=
  match e with
  | KeyboardInterrupt => false
  | _ => true
  end.

(** [except ExceptionTotalDepthRP66V1]: the classes of this package.
    [ExceptionIndex], [ExceptionLogPass] derive from it. *)
Definition is_ExceptionTotalDepthRP66V1 (e : exn) : bool :=
  match e with
  | ExceptionIndexXMLRead _ | ExceptionRP66V1IndexXMLRead _
  | ExceptionFrameArrayInit | ExceptionLogPassXML
  | ExceptionTotalDepthRP66V1 => true
  | _ => false
  end.

Inductive result (A : Type) :=
| Ok (a : A)
| Raise (e : exn).
Arguments Ok {A} a.
Arguments Raise {A} e.

#[global] Instance result_ret : MRet result := fun A a => Ok a.
#[global] Instance result_bind : MBind result :=
  fun A B f m => match m with Ok a => f a | Raise e => Raise e end.
#[global] Instance result_fmap : FMap result :=
  fun A B f m => match m with Ok a => Ok (f a) | Raise e => Raise e end.

Definition is_Ok {A} (r : result A) : bool :=
  match r with Ok _ => true | Raise _ => false end.

Definition raises {A} (r : result A) : Prop := exists e, r = Raise e.

(** [[f(x) for x in l]]: the first exception stops the loop. *)
Fixpoint mapR {A B} (f : A -> result B) (l : list A) : result (list B) :=
  match l with
  | [] => Ok []
  | x :: l' => y ← f x; ys ← mapR f l'; mret (y :: ys)
  end.

(** ** Python primitives *)

Module Py.

(** *** Whitespace, as [int()] strips it *)

(** Tab to carriage return and the space, and of the characters above 127
    the next line and the no-break space; the separators 28 to 31 are not
    stripped. *)
Definition is_space (c : ascii) : bool :=
  let n := nat_of_ascii c in
  ((9 <=? n) && (n <=? 13) || (n =? 32) || (n =? 133) || (n =? 160))%nat.

Fixpoint lstrip (s : string) : string :=
  match s with
  | String c s' => if is_space c then lstrip s' else s
  | EmptyString => EmptyString
  end.

Fixpoint rstrip (s : string) : string :=
  match s with
  | EmptyString => EmptyString
  | String c s' =>
      match rstrip s' with
      | EmptyString => if is_space c then EmptyString else String c EmptyString
      | r => String c r
      end
  end.

Definition strip (s : string) : string := rstrip (lstrip s).

(** *** Digits with single underscores between them *)

Fixpoint group_digits (after_digit : bool) (s : string) : option string :=
  match s with
  | EmptyString => if after_digit then Some EmptyString else None
  | String c s' =>
      if Ascii.eqb c "_" then
        if after_digit then group_digits false s' else None
      else String c <$> group_digits true s'
  end.

Definition split_sign (s : string) : bool * string :=
  match s with
  | String c s' =>
      if Ascii.eqb c "-" then (true, s')
      else if Ascii.eqb c "+" then (false, s')
      else (false, s)
  | EmptyString => (false, s)
  end.

(** *** [int(s)] *)

Definition int (s : string) : result Z :=
  let '(neg, body) := split_sign (strip s) in
  match group_digits false body ≫= DecimalString.NilEmpty.uint_of_string with
  | Some d => Ok (Z.of_int (if neg then Decimal.Neg d else Decimal.Pos d))
  | None => Raise ValueError
  end.

(** *** [int(s, 16)] *)

Definition lower_hex (c : ascii) : ascii :=
  let n := nat_of_ascii c in
  if ((65 <=? n) && (n <=? 70))%nat then ascii_of_nat (n + 32) else c.

Fixpoint map_string (f : ascii -> ascii) (s : string) : string :=
  match s with
  | EmptyString => EmptyString
  | String c s' => String (f c) (map_string f s')
  end.

(** After the sign an optional [0x] or [0X], which may be followed by one
    underscore. *)
Definition drop_hex_prefix (s : string) : string :=
  match s with
  | String c0 (String c1 s') =>
      if Ascii.eqb c0 "0" && (Ascii.eqb c1 "x" || Ascii.eqb c1 "X") then
        match s' with
        | String c2 s'' => if Ascii.eqb c2 "_" then s'' else s'
        | EmptyString => s'
        end
      else s
  | _ => s
  end.

Definition int16 (s : string) : result Z :=
  let '(neg, body) := split_sign (strip s) in
  match group_digits false (drop_hex_prefix body)
          ≫= (fun t => HexadecimalString.NilEmpty.uint_of_string
                          (map_string lower_hex t)) with
  | Some d =>
      Ok (Z.of_hex_int (if neg then Hexadecimal.Neg d else Hexadecimal.Pos d))
  | None => Raise ValueError
  end.

(** *** Formatting: [f'{z:d}'], [str(z)] and [f'{z:x}'] *)

Definition str_of_int (z : Z) : string :=
  DecimalString.NilZero.string_of_int (Z.to_int z).

Definition hex_of_int (z : Z) : string :=
  HexadecimalString.NilZero.string_of_int (Z.to_hex_int z).

(** *** [s.startswith(p)], [c in s], [s.split(c)], [c.join(l)] *)

Definition startswith (s p : string) : bool := String.prefix p s.

Fixpoint contains_char (c : ascii) (s : string) : bool :=
  match s with
  | EmptyString => false
  | String c' s' => Ascii.eqb c c' || contains_char c s'
  end.

Fixpoint split (sep : ascii) (s : string) : list string :=
  match s with
  | EmptyString => [EmptyString]
  | String c s' =>
      if Ascii.eqb c sep then EmptyString :: split sep s'
      else match split sep s' with
           | w :: ws => String c w :: ws
           | [] => [String c EmptyString]
           end
  end.

Fixpoint join (sep : string) (l : list string) : string :=
  match l with
  | [] => EmptyString
  | [w] => w
  | w :: l' => w +:+ sep +:+ join sep l'
  end.

(** *** [b.decode('ascii')] and [s.encode('ascii')] *)

Definition is_ascii_byte (b : byte) : bool := (Byte.to_N b <? 128)%N.

Definition decode_ascii (b : list byte) : result string :=
  if forallb is_ascii_byte b then Ok (string_of_list_byte b)
  else Raise UnicodeError.

Definition encode_ascii (s : string) : result (list byte) :=
  let b := list_byte_of_string s in
  if forallb is_ascii_byte b then Ok b else Raise UnicodeError.

End Py.

(** ** Numbers: [typing.Union[int, float]] *)

(** The arithmetic of Python's [float] is not fixed here: the codec only
    adds, subtracts, compares, formats and parses floats, and every result
    below holds for whatever these operations do. *)
Class PyFloat := {
  float : Type;
  (** [float(s)]; [None] stands for [ValueError] *)
  float_of_str : string -> option float;
  (** [f'{x}'] *)
  str_of_float : float -> string;
  (** the conversion of the integer operand in mixed arithmetic *)
  float_of_int : Z -> float;
  float_add : float -> float -> float;
  float_sub : float -> float -> float;
  (** [x == y] on two floats, and on a float and an integer *)
  float_eqb : float -> float -> bool;
  float_eqb_int : float -> Z -> bool;
}.

Section Number.
Context `{PyFloat}.

Inductive number :=
| Int (z : Z)
| Float (x : float).

Definition py_add (a b : number) : number :=
  match a, b with
  | Int x, Int y => Int (x + y)
  | Int x, Float y => Float (float_add (float_of_int x) y)
  | Float x, Int y => Float (float_add x (float_of_int y))
  | Float x, Float y => Float (float_add x y)
  end.

Definition py_sub (a b : number) : number :=
  match a, b with
  | Int x, Int y => Int (x - y)
  | Int x, Float y => Float (float_sub (float_of_int x) y)
  | Float x, Int y => Float (float_sub x (float_of_int y))
  | Float x, Float y => Float (float_sub x y)
  end.

(** [a == b] *)
Definition py_eqb (a b : number) : bool :=
  match a, b with
  | Int x, Int y => Z.eqb x y
  | Int x, Float y => float_eqb_int y x
  | Float x, Int y => float_eqb_int x y
  | Float x, Float y => float_eqb x y
  end.

Definition is_Int (a : number) : bool :=
  match a with Int _ => true | Float _ => false end.

(** [f'{a}'] *)
Definition format_number (a : number) : string :=
  match a with
  | Int z => Py.str_of_int z
  | Float x => str_of_float x
  end.

(** [f'{a:d}']: the format code [d] is refused for a float. *)
Definition format_d (a : number) : result string :=
  match a with
  | Int z => Ok (Py.str_of_int z)
  | Float _ => Raise ValueError
  end.

(** [f'0x{a:x}']: the format code [x] is refused for a float. *)
Definition format_0x (a : number) : result string :=
  match a with
  | Int z => Ok ("0x" +:+ Py.hex_of_int z)
  | Float _ => Raise ValueError
  end.

(** [len({a, b, ...})]: an element is added unless the set already holds an
    equal one. *)
Definition set_add (acc : list number) (a : number) : list number :=
  if existsb (py_eqb a) acc then acc else acc ++ [a].

Definition len_set (l : list number) : nat := length (fold_left set_add l []).

End Number.

(** ** Run-length encoding: [TotalDepth.common.Rle] *)

Module Rle.
Section Rle.
Context `{PyFloat}.

(** Modelled from the spec: the module [TotalDepth.common.Rle] is not among
    the sources.  An item [{ datum, stride, repeat }] represents [repeat + 1]
    values starting at [datum], incrementing by [stride] each step.  The
    reader of the index assigns whatever number it parsed to the three
    attributes, so all three are [number]s. *)
Record RLEItem := {
  datum : number;
  stride : number;
  repeat : number;
}.

Record RLE := { rle_items : list RLEItem }.

(** Modelled from the spec: [RLEItem(v)] is the run of the single value [v];
    the spec's example gives such an item stride 0 and repeat 0. *)
Definition new_item (v : number) : RLEItem :=
  {| datum := v; stride := Int 0; repeat := Int 0 |}.

(** Modelled from the spec: [len()] is the number of items. *)
Definition len (rle : RLE) : nat := length (rle_items rle).

(** Modelled from the spec: [num_values()] is the sum of [repeat + 1] over
    the items. *)
Definition item_num_values (it : RLEItem) : number := py_add (repeat it) (Int 1).

Definition num_values (rle : RLE) : number :=
  fold_left py_add (map item_num_values (rle_items rle)) (Int 0).

(** Modelled from the spec: [values()] expands every item in order; an item
    yields [datum], then goes on adding [stride], [repeat + 1] values in all.
    The number of steps has to be an integer, as for [range]. *)
Fixpoint run (v step : number) (n : nat) : list number :=
  match n with
  | O => []
  | S n' => v :: run (py_add v step) step n'
  end.

Definition item_values (it : RLEItem) : result (list number) :=
  match repeat it with
  | Int r => Ok (run (datum it) (stride it) (Z.to_nat (r + 1)))
  | Float _ => Raise TypeError
  end.

Definition values (rle : RLE) : result (list number) :=
  vs ← mapR item_values (rle_items rle); mret (List.concat vs).

(** Modelled from the spec: the construction policy of [create_rle].  The
    first value opens an item; the second value of an item fixes its stride;
    after that a value is absorbed while its step from the previous value
    equals the stride, and opens a new item otherwise. *)
Fixpoint build (cur : RLEItem) (prev : number) (vs : list number)
  : list RLEItem :=
  match vs with
  | [] => [cur]
  | v :: vs' =>
      let step := py_sub v prev in
      if py_eqb (repeat cur) (Int 0) then
        build {| datum := datum cur; stride := step; repeat := Int 1 |} v vs'
      else if py_eqb step (stride cur) then
        build {| datum := datum cur; stride := stride cur;
                 repeat := py_add (repeat cur) (Int 1) |} v vs'
      else cur :: build (new_item v) v vs'
  end.

Definition create_rle (vs : list number) : RLE :=
  match vs with
  | [] => {| rle_items := [] |}
  | v :: vs' => {| rle_items := build (new_item v) v vs' |}
  end.

End Rle.
End Rle.

(** ** XML elements: [xml.etree.Element] *)

Module xml.

#[warnings="-register-all"]
Inductive Element := mkElement {
  tag : string;
  attrib : gmap string string;
  children : list Element;
}.

(** [element.attrib[key]] *)
Definition get (element : Element) (key : string) : result string :=
  match attrib element !! key with
  | Some v => Ok v
  | None => Raise (KeyError key)
  end.

(** [element.iterfind('./t1/t2')], the path given by its steps
    [["t1"; "t2"]]: the matching descendants in document order. *)
Fixpoint iterfind (xpath : list string) (element : Element) : list Element :=
  match xpath with
  | [] => [element]
  | t :: xpath' =>
      List.concat (map (iterfind xpath')
                  (filter (fun c => tag c = t) (children element)))
  end.

End xml.

(** ** [RepCode.ObjectName] *)

Module RepCode.

(** The fields of the named tuple are not typed at run time: the scanner
    puts integers into [O] and [C], the XML reader puts the attribute
    strings there. *)
Inductive atom :=
| AInt (z : Z)
| AStr (s : string).

Record ObjectName := {
  O : atom;
  C : atom;
  I : list byte;
}.

(** [f'{a}'] *)
Definition format_atom (a : atom) : string :=
  match a with
  | AInt z => Py.str_of_int z
  | AStr s => s
  end.

#[global] Instance atom_eq_dec : EqDecision atom.
Proof. solve_decision. Defined.

#[global] Instance byte_eq_dec : EqDecision byte.
Proof. intros x y. destruct (Byte.byte_eq_dec x y); [left|right]; done. Defined.

#[global] Instance ObjectName_eq_dec : EqDecision ObjectName.
Proof. solve_decision. Defined.

End RepCode.

(** ** [LogPass.FrameChannel] and [LogPass.FrameArray] *)

Module LogPass.

(** The identity a channel carries: an [ObjectName] when the channel comes
    from the scanner, whatever the caller passed otherwise. *)
Inductive ident_value :=
| ident_name (name : RepCode.ObjectName)
| ident_bytes (b : list byte).

(** Modelled from the spec: the module [LogPass] is not among the sources.
    A frame channel has an identifier, a long name, a representation code,
    units, a dimensionality vector and a derived element count per frame. *)
Record FrameChannel := {
  ident : ident_value;
  long_name : list byte;
  rep_code : Z;
  units : list byte;
  dimensions : list Z;
}.

(** Modelled from the spec: the derived total element count per frame. *)
Definition count (channel : FrameChannel) : Z :=
  fold_right Z.mul 1 (dimensions channel).

(** Modelled from the spec: a frame array is identified by an [ObjectName],
    has a description and an ordered list of channels. *)
Record FrameArray := {
  fa_ident : RepCode.ObjectName;
  description : list byte;
  channels : list FrameChannel;
}.

(** [FrameArray(ident=..., description=...)] *)
Definition new (ident : RepCode.ObjectName) (description : list byte)
  : FrameArray :=
  {| fa_ident := ident; description := description; channels := [] |}.

(** [frame_array.append(channel)] *)
Definition append (frame_array : FrameArray) (channel : FrameChannel)
  : FrameArray :=
  {| fa_ident := fa_ident frame_array;
     description := description frame_array;
     channels := channels frame_array ++ [channel] |}.

(** [channel.ident.O], [.C], [.I]: only an [ObjectName] has these. *)
Definition ident_O (channel : FrameChannel) : result RepCode.atom :=
  match ident channel with
  | ident_name n => Ok (RepCode.O n)
  | ident_bytes _ => Raise AttributeError
  end.

Definition ident_C (channel : FrameChannel) : result RepCode.atom :=
  match ident channel with
  | ident_name n => Ok (RepCode.C n)
  | ident_bytes _ => Raise AttributeError
  end.

Definition ident_I (channel : FrameChannel) : result (list byte) :=
  match ident channel with
  | ident_name n => Ok (RepCode.I n)
  | ident_bytes _ => Raise AttributeError
  end.

End LogPass.

(** A generator is represented by the outcome of consuming it. *)
Abbreviation generator A := (result (list A)) (only parsing).

(** [zip(a, b, c)] mapped through a three-argument constructor. *)
Fixpoint zip3 {A B} (f : A -> A -> A -> B) (a b c : list A) : list B :=
  match a, b, c with
  | x :: a', y :: b', z :: c' => f x y z :: zip3 f a' b' c'
  | _, _, _ => []
  end.

(** ** Calls into the file system and the binary file *)

(** What the code asks of its environment, in the order it asks. *)
Inductive event :=
| get_file_logical_data_called (vr_position lrsh_position : Z)
| binary_file_type_from_path_called (path : string)
| isfile_called (path : string)
| exists_called (path : string)
| makedirs_called (path : string)
| getsize_called (path : string)
| open_called (path : string) (mode : string)
| parse_called (path : string)
| FileRead_called (path : string)
| LogicalIndex_called (path : string)
| write_called (path : string)
| print_called
| perf_counter_called
| stat_called (path : string)
| utcnow_called
| isdir_called (path : string)
| dirWalk_called (path_in path_out : string) (recursive : bool).

(** A computation that may raise and that calls the environment: it maps
    the calls made so far to its outcome and the calls made after it. *)
Record io (A : Type) := IO {
  run : list event -> result A * list event;
}.
Arguments IO {A} run.
Arguments run {A} i trace.

#[global] Instance io_ret : MRet io := fun A a => IO (fun t => (Ok a, t)).
#[global] Instance io_bind : MBind io :=
  fun A B f m =>
    IO (fun t =>
          match run m t with
          | (Ok a, t') => run (f a) t'
          | (Raise e, t') => (Raise e, t')
          end).

(** A pure computation, inside [io]. *)
Definition lift {A} (r : result A) : io A := IO (fun t => (r, t)).

(** One call of the environment: its outcome may depend on the calls made
    before it. *)
Definition call {A} (ev : event) (outcome : list event -> result A) : io A :=
  IO (fun t => (outcome t, (t ++ [ev])%list)).

(** [try: body except <caught>: handler(e)] *)
Definition try_except {A} (body : io A) (caught : exn -> bool)
    (handler : exn -> io A) : io A :=
  IO (fun t =>
        match run body t with
        | (Ok a, t') => (Ok a, t')
        | (Raise e, t') =>
            if caught e then run (handler e) t' else (Raise e, t')
        end).

(** [for x in l: acc = f(acc, x)] *)
Fixpoint for_each {A B} (f : B -> A -> io B) (l : list A) (acc : B) : io B :=
  match l with
  | [] => mret acc
  | x :: l' => acc' ← f acc x; for_each f l' acc'
  end.

(** ** [TotalDepth/RP66V1/IndexXML.py] *)

Module IndexXML.
Import xml.

Section Codec.
Context `{PyFloat}.

Definition xml_single_element (element : Element) (xpath : list string)
  : result Element :=
  let elems := iterfind xpath element in
  match elems with
  | [e] => Ok e
  | _ =>
      Raise (ExceptionIndexXMLRead
               (Expected_single_element (Py.join "/" xpath) (length elems)))
  end.

Definition rle_item_to_XML (hex_output : bool) (rle_item : Rle.RLEItem)
  : result Element :=
  datum ← (if hex_output then format_0x (Rle.datum rle_item)
            else Ok (format_number (Rle.datum rle_item)));
  stride ← (if hex_output then format_0x (Rle.stride rle_item)
             else Ok (format_number (Rle.stride rle_item)));
  repeat ← format_d (Rle.repeat rle_item);
  mret (mkElement "RLE"
          {[ "datum" := datum; "stride" := stride; "repeat" := repeat ]} []).

Definition xml_rle_write (rle : Rle.RLE) (element_name : string)
    (hex_output : bool) : result Element :=
  count ← format_d (Rle.num_values rle);
  let rle_len := Py.str_of_int (Z.of_nat (Rle.len rle)) in
  items ← mapR (rle_item_to_XML hex_output) (Rle.rle_items rle);
  mret (mkElement element_name
          {[ "count" := count; "rle_len" := rle_len ]} items).

Definition xml_integer_attribute_read (element : Element) (attr : string)
  : result Z :=
  attribute ← get element attr;
  if Py.startswith attribute "0x" then Py.int16 attribute
  else Py.int attribute.

Definition _rle_convert_datum_or_stride (attr : string) : result number :=
  if Py.startswith attr "0x" then Int <$> Py.int16 attr
  else if Py.contains_char "." attr then
    match float_of_str attr with
    | Some x => Ok (Float x)
    | None => Raise ValueError
    end
  else Int <$> Py.int attr.

Definition rle_item_from_XML (element_rle : Element) : result Rle.RLEItem :=
  datum ← get element_rle "datum" ≫= _rle_convert_datum_or_stride;
  repeat ← get element_rle "repeat" ≫= _rle_convert_datum_or_stride;
  stride ← get element_rle "stride" ≫= _rle_convert_datum_or_stride;
  mret {| Rle.datum := datum; Rle.stride := stride; Rle.repeat := repeat |}.

Definition xml_rle_read (element : Element) : result Rle.RLE :=
  rle_items ← mapR rle_item_from_XML (iterfind ["RLE"] element);
  let ret := {| Rle.rle_items := rle_items |} in
  count ← get element "count" ≫= Py.int;
  if negb (py_eqb (Int count) (Rle.num_values ret)) then
    Raise (ExceptionIndexXMLRead (Expected_RLE_count count))
  else
    rle_len ← get element "rle_len" ≫= Py.int;
    if negb (Z.eqb rle_len (Z.of_nat (Rle.len ret))) then
      Raise (ExceptionIndexXMLRead (Expected_RLE_len rle_len (Rle.len ret)))
    else Ok ret.

Definition xml_object_name_attributes (object_name : RepCode.ObjectName)
  : result (gmap string string) :=
  I ← Py.decode_ascii (RepCode.I object_name);
  mret {[ "O" := RepCode.format_atom (RepCode.O object_name);
          "C" := RepCode.format_atom (RepCode.C object_name);
          "I" := I ]}.

(** The attribute strings go into [O] and [C] as they are. *)
Definition xml_object_name (node : Element) : result RepCode.ObjectName :=
  O ← get node "O";
  C ← get node "C";
  I ← get node "I" ≫= Py.encode_ascii;
  mret {| RepCode.O := RepCode.AStr O; RepCode.C := RepCode.AStr C;
          RepCode.I := I |}.

Definition frame_channel_to_XML (channel : LogPass.FrameChannel)
  : result Element :=
  O ← LogPass.ident_O channel;
  C ← LogPass.ident_C channel;
  I ← LogPass.ident_I channel ≫= Py.decode_ascii;
  long_name ← Py.decode_ascii (LogPass.long_name channel);
  units ← Py.decode_ascii (LogPass.units channel);
  mret (mkElement "Channel"
          {[ "O" := RepCode.format_atom O;
             "C" := RepCode.format_atom C;
             "I" := I;
             "long_name" := long_name;
             "rep_code" := Py.str_of_int (LogPass.rep_code channel);
             "units" := units;
             "dimensions" :=
               Py.join "," (map Py.str_of_int (LogPass.dimensions channel));
             "count" := Py.str_of_int (LogPass.count channel) ]} []).

(** The identity of the channel read back is the [I] attribute alone, as a
    byte string. *)
Definition frame_channel_from_XML (channel_node : Element)
  : result LogPass.FrameChannel :=
  if negb (String.eqb (tag channel_node) "Channel") then Raise ValueError
  else
    ident ← get channel_node "I" ≫= Py.encode_ascii;
    long_name ← get channel_node "long_name" ≫= Py.encode_ascii;
    rep_code ← get channel_node "rep_code" ≫= Py.int;
    units ← get channel_node "units" ≫= Py.encode_ascii;
    dimensions ← get channel_node "dimensions"
                   ≫= (fun a => mapR Py.int (Py.split "," a));
    mret {| LogPass.ident := LogPass.ident_bytes ident;
            LogPass.long_name := long_name;
            LogPass.rep_code := rep_code;
            LogPass.units := units;
            LogPass.dimensions := dimensions |}.

(** [XAxis.IFLRReference] is not among the sources.  The codec builds one
    from three positional arguments and reads three attributes of it. *)
Variable IFLRReference : Type.
(** [IFLRReference(a, b, c)] *)
Variable new_IFLRReference : number -> number -> number -> IFLRReference.
(** [v.frame_number] *)
Variable ref_frame_number : IFLRReference -> number.
(** [v.logical_record_position.lrsh_position] *)
Variable ref_lrsh_position : IFLRReference -> result number.
(** [v.x_axis] *)
Variable ref_x_axis : IFLRReference -> number.

(** [frame_array.channels[0]] *)
Definition first_channel (frame_array : LogPass.FrameArray)
  : result LogPass.FrameChannel :=
  match LogPass.channels frame_array !! 0%nat with
  | Some channel => Ok channel
  | None => Raise IndexError
  end.

Definition frame_array_to_XML (frame_array : LogPass.FrameArray)
    (iflr_data : list IFLRReference) : result Element :=
  I ← Py.decode_ascii (RepCode.I (LogPass.fa_ident frame_array));
  description ← Py.decode_ascii (LogPass.description frame_array);
  channel0_I ← first_channel frame_array ≫= LogPass.ident_I;
  x_axis ← Py.decode_ascii channel0_I;
  x_units ← first_channel frame_array
              ≫= (fun c => Py.decode_ascii (LogPass.units c));
  channel_nodes ← mapR frame_channel_to_XML (LogPass.channels frame_array);
  frame_numbers ←
    xml_rle_write (Rle.create_rle (map ref_frame_number iflr_data))
      "FrameNumbers" false;
  positions ← mapR ref_lrsh_position iflr_data;
  lrsh ← xml_rle_write (Rle.create_rle positions) "LRSH" true;
  xaxis ←
    xml_rle_write (Rle.create_rle (map ref_x_axis iflr_data)) "Xaxis" false;
  Ok (mkElement "FrameArray"
        {[ "O" := RepCode.format_atom (RepCode.O (LogPass.fa_ident frame_array));
           "C" := RepCode.format_atom (RepCode.C (LogPass.fa_ident frame_array));
           "I" := I;
           "description" := description;
           "x_axis" := x_axis;
           "x_units" := x_units ]}
        [ mkElement "Channels"
            {[ "count" :=
                 Py.str_of_int
                   (Z.of_nat (length (LogPass.channels frame_array))) ]}
            channel_nodes;
          mkElement "IFLR"
            {[ "count" := Py.str_of_int (Z.of_nat (length iflr_data)) ]}
            [frame_numbers; lrsh; xaxis] ]).

Definition iflr_data_from_xml (frame_array_node : Element)
  : result (generator IFLRReference) :=
  iflr_node ← xml_single_element frame_array_node ["IFLR"];
  rle_lrsh ← xml_single_element iflr_node ["LRSH"] ≫= xml_rle_read;
  rle_frames ← xml_single_element iflr_node ["FrameNumbers"] ≫= xml_rle_read;
  rle_xaxis ← xml_single_element iflr_node ["Xaxis"] ≫= xml_rle_read;
  count ← get iflr_node "count" ≫= Py.int;
  if negb (Nat.eqb (len_set [Int count; Rle.num_values rle_lrsh;
                             Rle.num_values rle_frames;
                             Rle.num_values rle_xaxis]) 1) then
    Raise ExceptionFrameArrayInit
  else
    Ok (lrsh ← Rle.values rle_lrsh;
        frames ← Rle.values rle_frames;
        xaxis ← Rle.values rle_xaxis;
        mret (zip3 new_IFLRReference lrsh frames xaxis)).

Definition frame_array_from_XML (frame_array_node : Element)
  : result (LogPass.FrameArray * generator IFLRReference) :=
  if negb (String.eqb (tag frame_array_node) "FrameArray") then
    Raise ValueError
  else
    ident ← xml_object_name frame_array_node;
    description ← get frame_array_node "description" ≫= Py.encode_ascii;
    channels ← mapR frame_channel_from_XML
                 (iterfind ["Channels"; "Channel"] frame_array_node);
    let ret := fold_left LogPass.append channels (LogPass.new ident description) in
    iflr_data ← iflr_data_from_xml frame_array_node;
    mret (ret, iflr_data).

(** *** Reading the storage unit label *)

(** [StorageUnitLabel.create_storage_unit_label] is not among the sources:
    it is taken as it comes, and may raise. *)
Variable StorageUnitLabel : Type.
Variable create_storage_unit_label :
  Z -> list byte -> Z -> list byte -> result StorageUnitLabel.

Definition read_storage_unit_label_from_xml (root : Element)
  : result StorageUnitLabel :=
  sul_element ← xml_single_element root ["StorageUnitLabel"];
  dlis_version ← get sul_element "dlis_version" ≫= Py.encode_ascii;
  if negb (bool_decide (dlis_version = list_byte_of_string "V1.00")) then
    Raise (ExceptionIndexXMLRead (Found_DLIS_version dlis_version))
  else
    sequence_number ← get sul_element "sequence_number" ≫= Py.int;
    if sequence_number <=? 0 then
      Raise (ExceptionIndexXMLRead
               (Sequence_number_not_positive sequence_number))
    else
      maximum_record_length ←
        get sul_element "maximum_record_length" ≫= Py.int;
      storage_unit_structure ←
        get sul_element "storage_unit_structure" ≫= Py.encode_ascii;
      if negb (bool_decide
                 (storage_unit_structure = list_byte_of_string "RECORD")) then
        Raise (ExceptionIndexXMLRead
                 (Found_storage_unit_structure storage_unit_structure))
      else
        storage_set_identifier ←
          get sul_element "storage_set_identifier" ≫= Py.encode_ascii;
        create_storage_unit_label sequence_number dlis_version
          maximum_record_length storage_set_identifier.

(** *** Reading a logical file *)

(** The binary file and the record classes are not among the sources.
    [file_logical_data] is what [rp66v1_file.get_file_logical_data] returns
    at a position, given the calls made before; the three constructors are
    taken as they come, and may raise. *)
Variable FileLogicalData : Type.
Variable file_logical_data : list event -> Z -> Z -> result FileLogicalData.
Variable EFLR : Type.
(** [ExplicitlyFormattedLogicalRecord(fld.lr_type, fld.logical_data)] *)
Variable ExplicitlyFormattedLogicalRecord : FileLogicalData -> result EFLR.

(** A [LogicalFile] object: the dictionary [iflr_position_map], in insertion
    order, and whatever else the class holds. *)
Variable LogicalFileState : Type.

Record LogicalFile := {
  lf_state : LogicalFileState;
  iflr_position_map : list (RepCode.ObjectName * list IFLRReference);
}.

(** [LogicalFile.LogicalFile(fld, eflr)] and [logical_file.add_eflr(fld, eflr)] *)
Variable new_LogicalFile : FileLogicalData -> EFLR -> result LogicalFile.
Variable add_eflr :
  LogicalFile -> FileLogicalData -> EFLR -> result LogicalFile.

(** [key in d] *)
Definition dict_in {V} (key : RepCode.ObjectName)
    (d : list (RepCode.ObjectName * V)) : bool :=
  existsb (fun kv => bool_decide (kv.1 = key)) d.

(** [d[key] = value] *)
Fixpoint dict_set {V} (key : RepCode.ObjectName) (value : V)
    (d : list (RepCode.ObjectName * V)) : list (RepCode.ObjectName * V) :=
  match d with
  | [] => [(key, value)]
  | (k, v) :: d' =>
      if bool_decide (k = key) then (k, value) :: d'
      else (k, v) :: dict_set key value d'
  end.

(** [rp66v1_file.get_file_logical_data(vr_position, lrsh_position)], the two
    positions read from the attributes of an [EFLR] element. *)
Definition get_file_logical_data (eflr_node : Element) : io FileLogicalData :=
  vr_position ← lift (xml_integer_attribute_read eflr_node "vr_position");
  lrsh_position ← lift (xml_integer_attribute_read eflr_node "lrsh_position");
  call (get_file_logical_data_called vr_position lrsh_position)
    (fun t => file_logical_data t vr_position lrsh_position).

(** The body of the loop over [eflr_nodes[1:]]. *)
Definition read_eflr (logical_file : LogicalFile) (eflr_node : Element)
  : io LogicalFile :=
  fld ← get_file_logical_data eflr_node;
  eflr ← lift (ExplicitlyFormattedLogicalRecord fld);
  lift (add_eflr logical_file fld eflr).

(** The body of the loop over the [FrameArray] elements. *)
Definition read_frame_array (logical_file : LogicalFile)
    (frame_array_node : Element) : io LogicalFile :=
  frame_array_object_name ← lift (xml_object_name frame_array_node);
  iflr_data ← lift (iflr_data_from_xml frame_array_node);
  if dict_in frame_array_object_name (iflr_position_map logical_file) then
    lift (Raise (ExceptionRP66V1IndexXMLRead Duplicate_frame_array))
  else
    iflr_list ← lift iflr_data;
    mret {| lf_state := lf_state logical_file;
            iflr_position_map :=
              dict_set frame_array_object_name iflr_list
                (iflr_position_map logical_file) |}.

Definition read_logical_file_from_xml (logical_file_node : Element)
  : io LogicalFile :=
  if negb (String.eqb (tag logical_file_node) "LogicalFile") then
    lift (Raise AssertionError)
  else
    match iterfind ["EFLR"] logical_file_node with
    | eflr_node0 :: eflr_node1 :: eflr_nodes =>
        set_type0 ← lift (get eflr_node0 "set_type");
        if negb (String.eqb set_type0 "FILE-HEADER") then
          lift (Raise (ExceptionRP66V1IndexXMLRead First_EFLR_not_FILE_HEADER))
        else
          set_type1 ← lift (get eflr_node1 "set_type");
          if negb (String.eqb set_type1 "ORIGIN") then
            lift (Raise (ExceptionRP66V1IndexXMLRead Second_EFLR_not_ORIGIN))
          else
            fld ← get_file_logical_data eflr_node0;
            eflr ← lift (ExplicitlyFormattedLogicalRecord fld);
            logical_file ← lift (new_LogicalFile fld eflr);
            logical_file ←
              for_each read_eflr (eflr_node1 :: eflr_nodes) logical_file;
            for_each read_frame_array
              (iterfind ["LogPass"; "FrameArray"] logical_file_node)
              logical_file
    | _ => lift (Raise (ExceptionRP66V1IndexXMLRead Not_enough_EFLRs))
    end.

(** *** Reading the index of a file *)

Definition XML_SCHEMA_VERSION : string := "0.1.0".

(** The file system, [LogicalFile.LogicalIndex] and
    [LogicalFile.VisibleRecordPositions] are not among the sources. *)
(** [os.path.join(a, b)] *)
Variable path_join : string -> string -> string.
(** the document at [index_path], as [xml.etree.parse] returns its root *)
Variable parsed_index : list event -> string -> result Element.
(** [os.path.isfile(path)] *)
Variable isfile : list event -> string -> bool.
(** [binary_file_type_from_path(path)] *)
Variable binary_file_type : list event -> string -> result string.
(** [open(path, mode)] and [File.FileRead(fobj)] *)
Variable opened : list event -> string -> result unit.
Variable file_read : list event -> string -> result unit.
Variable VisibleRecordPositions : Type.
(** [LogicalFile.VisibleRecordPositions(values)] *)
Variable new_VisibleRecordPositions :
  list number -> result VisibleRecordPositions.

(** Modelled from the spec: the logical index of a file holds the path of
    the file, its storage unit label, its logical files in order and the
    visible record positions; [LogicalIndex(None, path)] holds the path
    only. *)
Record LogicalIndex := {
  id : string;
  storage_unit_label : option StorageUnitLabel;
  logical_files : list LogicalFile;
  visible_record_positions : option VisibleRecordPositions;
}.

Definition read_logical_index_from_xml (index_path : string)
    (archive_root : string) : io LogicalIndex :=
  root ← call (parse_called index_path) (fun t => parsed_index t index_path);
  if negb (String.eqb (tag root) "RP66V1FileIndex") then
    lift (Raise (ExceptionRP66V1IndexXMLRead (Bad_root_tag (tag root))))
  else
    schema_version ← lift (get root "schema_version");
    if negb (String.eqb schema_version XML_SCHEMA_VERSION) then
      lift (Raise (ExceptionRP66V1IndexXMLRead
                     (Bad_schema_version schema_version)))
    else
      path ← lift (get root "path");
      let original_file_path := path_join archive_root path in
      is_file ← call (isfile_called original_file_path)
                  (fun t => Ok (isfile t original_file_path));
      if negb is_file then
        lift (Raise (ExceptionRP66V1IndexXMLRead
                       (Not_a_file original_file_path)))
      else
        bin_file_type ←
          call (binary_file_type_from_path_called original_file_path)
            (fun t => binary_file_type t original_file_path);
        if negb (String.eqb bin_file_type "RP66V1") then
          lift (Raise (ExceptionRP66V1IndexXMLRead
                         (Not_a_RP66V1_file original_file_path
                            bin_file_type)))
        else
          sul ← lift (read_storage_unit_label_from_xml root);
          logical_files_node ←
            lift (xml_single_element root ["LogicalFiles"]);
          logical_file_count ←
            lift (get logical_files_node "count" ≫= Py.int);
          _ ← call (open_called original_file_path "rb")
                (fun t => opened t original_file_path);
          _ ← call (FileRead_called original_file_path)
                (fun t => file_read t original_file_path);
          logical_files ←
            for_each
              (fun acc logical_file_node =>
                 logical_file ← read_logical_file_from_xml logical_file_node;
                 mret ((acc ++ [logical_file])%list))
              (iterfind ["LogicalFile"] logical_files_node) [];
          if negb (Z.eqb (Z.of_nat (length logical_files))
                     logical_file_count) then
            lift (Raise (ExceptionRP66V1IndexXMLRead
                           (Bad_logical_file_count (length logical_files)
                              logical_file_count)))
          else
            rle_vr ← lift (xml_single_element root ["VisibleRecords"]
                             ≫= xml_rle_read);
            positions ← lift (Rle.values rle_vr
                                ≫= new_VisibleRecordPositions);
            mret {| id := original_file_path;
                    storage_unit_label := Some sul;
                    logical_files := logical_files;
                    visible_record_positions := Some positions |}.

(** *** Indexing a file *)

Record IndexResult := {
  path_input : string;
  size_input : Z;
  size_index : Z;
  time : float;
  exception : bool;
  ignored : bool;
}.

(** The file system, the clock and the classes that build an index from a
    binary file and write it are taken as they come: each call may raise,
    and its outcome may depend on the calls made before it.  The calls of
    the logger are left out. *)
(** [os.path.dirname(path)] *)
Variable dirname : string -> string.
(** [os.path.exists(path)] *)
Variable path_exists : list event -> string -> result bool.
(** [os.makedirs(path, exist_ok=True)] *)
Variable makedirs : list event -> string -> result unit.
(** [os.path.getsize(path)] *)
Variable getsize : list event -> string -> result Z.
(** [time.perf_counter()] *)
Variable perf_counter : list event -> float.
(** [open(path, 'w')] *)
Variable opened_to_write : list event -> string -> result unit.
(** [LogicalFile.LogicalIndex(rp66v1_file, path_in)] *)
Variable logical_index_of_file : list event -> string -> result unit.
(** [write_logical_file_sequence_to_xml(logical_file_sequence, f_out,
    private)] on the index built from the binary file, to the file at a
    path or, for the empty path, to a [StringIO] whose text has the length
    returned. *)
Variable index_written : list event -> string -> bool -> result Z.
(** [print(index_output)] *)
Variable printed : list event -> result unit.

(** [0.0] *)
Definition float_zero : float := float_of_int 0.

(** The body of the [try] statement. *)
Definition index_a_single_file_body (path_in path_out : string)
    (private : bool) : io IndexResult :=
  _ ← call (open_called path_in "rb") (fun t => opened t path_in);
  t_start ← call perf_counter_called (fun t => Ok (perf_counter t));
  _ ← call (FileRead_called path_in) (fun t => file_read t path_in);
  _ ← call (LogicalIndex_called path_in)
        (fun t => logical_index_of_file t path_in);
  index_size ←
    (if negb (String.eqb path_out "") then
       _ ← call (open_called (path_out +:+ ".xml") "w")
             (fun t => opened_to_write t (path_out +:+ ".xml"));
       _ ← call (write_called (path_out +:+ ".xml"))
             (fun t => index_written t (path_out +:+ ".xml") private);
       call (getsize_called (path_out +:+ ".xml"))
         (fun t => getsize t (path_out +:+ ".xml"))
     else
       index_size ← call (write_called "")
                      (fun t => index_written t "" private);
       _ ← call print_called printed;
       mret index_size);
  size ← call (getsize_called path_in) (fun t => getsize t path_in);
  t_end ← call perf_counter_called (fun t => Ok (perf_counter t));
  mret {| path_input := path_in; size_input := size;
          size_index := index_size; time := float_sub t_end t_start;
          exception := false; ignored := false |}.

(** The body of either [except] clause. *)
Definition index_a_single_file_failed (path_in : string) : io IndexResult :=
  size ← call (getsize_called path_in) (fun t => getsize t path_in);
  mret {| path_input := path_in; size_input := size; size_index := 0;
          time := float_zero; exception := true; ignored := false |}.

Definition index_a_single_file (path_in path_out : string) (private : bool)
  : io IndexResult :=
  bin_file_type ← call (binary_file_type_from_path_called path_in)
                    (fun t => binary_file_type t path_in);
  if String.eqb bin_file_type "RP66V1" then
    _ ← (if negb (String.eqb path_out "") then
           let out_dir := dirname path_out in
           found ← call (exists_called out_dir)
                     (fun t => path_exists t out_dir);
           if negb found then
             call (makedirs_called out_dir) (fun t => makedirs t out_dir)
           else mret tt
         else mret tt);
    try_except (index_a_single_file_body path_in path_out private)
      (fun e => is_ExceptionTotalDepthRP66V1 e || is_Exception e)
      (fun e =>
         if is_ExceptionTotalDepthRP66V1 e then
           index_a_single_file_failed path_in
         else index_a_single_file_failed path_in)
  else
    mret {| path_input := path_in; size_input := 0; size_index := 0;
            time := float_zero; exception := false; ignored := true |}.

(** *** Indexing a directory *)

(** [os.path.isdir(path)] *)
Variable isdir : list event -> string -> bool.
(** [DirWalk.dirWalk(path_in, path_out, theFnMatch='', recursive=recurse,
    bigFirst=False)] is not among the sources: a generator of the files
    under a directory, each with its [filePathIn] and [filePathOut].  It is
    taken as the pairs it yields, in order, and the exception, if any, that
    ends it. *)
Variable dir_walk :
  list event -> string -> string -> bool
  -> list (string * string) * option exn.

(** The dictionary [ret] has the result of a file under its [filePathIn]. *)
Definition index_dir_or_file (path_in path_out : string)
    (recurse private : bool) : io (gmap string IndexResult) :=
  is_dir ← call (isdir_called path_in) (fun t => Ok (isdir t path_in));
  if is_dir : bool then
    '(files, ending) ← call (dirWalk_called path_in path_out recurse)
                         (fun t => Ok (dir_walk t path_in path_out recurse));
    ret ← for_each
            (fun ret (file_in_out : string * string) =>
               result ← index_a_single_file file_in_out.1 file_in_out.2
                          private;
               mret (<[file_in_out.1 := result]> ret))
            files ∅;
    match ending with
    | Some e => lift (Raise e)
    | None => mret ret
    end
  else
    result ← index_a_single_file path_in path_out private;
    mret (<[path_in := result]> ∅).

(** *** Writing the index of a file *)

(** The value of an attribute of an object, by its class.  [bool] is a
    subclass of [int]; a [DateTime] and a value of any other class are held
    as their [str()]. *)
Inductive value :=
| VObjectName (object_name : RepCode.ObjectName)
| VBytes (b : list byte)
| VFloat (x : float)
| VInt (z : Z)
| VBool (b : bool)
| VDateTime (text : string)
| VStr (s : string)
| VOther (text : string).

(** [value.decode('latin-1')]: every byte is the character of its code. *)
Definition decode_latin_1 (b : list byte) : string := string_of_list_byte b.

Definition xml_write_value (v : value) : result Element :=
  match v with
  | VObjectName object_name =>
      attrs ← xml_object_name_attributes object_name;
      Ok (mkElement "ObjectName" attrs [])
  | VBytes b =>
      Ok (mkElement "Value"
            {[ "type" := "bytes"; "value" := decode_latin_1 b ]} [])
  | VFloat x =>
      Ok (mkElement "Value"
            {[ "type" := "float"; "value" := str_of_float x ]} [])
  | VInt z =>
      Ok (mkElement "Value"
            {[ "type" := "int"; "value" := Py.str_of_int z ]} [])
  | VBool b =>
      Ok (mkElement "Value"
            {[ "type" := "int";
               "value" := if b then "True" else "False" ]} [])
  | VDateTime text =>
      Ok (mkElement "Value"
            {[ "type" := "TotalDepth.RP66V1.core.RepCode.DateTime";
               "value" := text ]} [])
  | VStr s =>
      Ok (mkElement "Value" {[ "type" := "str"; "value" := s ]} [])
  | VOther text =>
      Ok (mkElement "Value" {[ "type" := "unknown"; "value" := text ]} [])
  end.

(** Modelled from the spec: the classes of [LogicalRecord.EFLR] are not
    among the sources.  An object has a name and attributes; an attribute
    has a label, a count, a representation code, units and values, which
    may be absent. *)
Record Attribute := {
  label : list byte;
  attr_count : Z;
  attr_rep_code : Z;
  attr_units : list byte;
  attr_value : option (list value);
}.

Record Object := {
  name : RepCode.ObjectName;
  attrs : list Attribute;
}.

(** [RepCode.REP_CODE_INT_TO_STR], a dictionary that is not among the
    sources. *)
Variable REP_CODE_INT_TO_STR : Z -> option string.

Definition _write_xml_eflr_attribute (attr : Attribute) : result Element :=
  label ← Py.decode_ascii (label attr);
  rc_ascii ← match REP_CODE_INT_TO_STR (attr_rep_code attr) with
             | Some s => Ok s
             | None => Raise (KeyError (Py.str_of_int (attr_rep_code attr)))
             end;
  units ← Py.decode_ascii (attr_units attr);
  values ← match attr_value attr with
            | Some vs => mapR xml_write_value vs
            | None => Ok []
            end;
  Ok (mkElement "Attribute"
        {[ "label" := label;
           "count" := Py.str_of_int (attr_count attr);
           "rc" := Py.str_of_int (attr_rep_code attr);
           "rc_ascii" := rc_ascii;
           "units" := units ]} values).

Definition _write_xml_eflr_object (obj : Object) : result Element :=
  name_attrs ← xml_object_name_attributes (name obj);
  attribute_nodes ← mapR _write_xml_eflr_attribute (attrs obj);
  Ok (mkElement "Object" name_attrs attribute_nodes).

(** [d[key]] *)
Definition dict_get {V} (key : RepCode.ObjectName)
    (d : list (RepCode.ObjectName * V)) : result V :=
  match List.find (fun kv => bool_decide (kv.1 = key)) d with
  | Some kv => Ok kv.2
  | None => Raise (KeyError "")
  end.

(** Modelled from the spec: a log pass is the ordered collection of its
    frame arrays, [log_pass.frame_arrays], and [len(log_pass)] is their
    number. *)
Definition log_pass_to_XML (log_pass : list LogPass.FrameArray)
    (iflr_data_map : list (RepCode.ObjectName * list IFLRReference))
  : result Element :=
  frame_array_nodes ←
    mapR (fun frame_array =>
            if negb (dict_in (LogPass.fa_ident frame_array) iflr_data_map)
            then Raise ExceptionLogPassXML
            else
              iflr_data ← dict_get (LogPass.fa_ident frame_array)
                            iflr_data_map;
              frame_array_to_XML frame_array iflr_data)
      log_pass;
  Ok (mkElement "LogPass"
        {[ "count" := Py.str_of_int (Z.of_nat (length log_pass)) ]}
        frame_array_nodes).

(** What the writers read of a logical file and of the records it holds:
    [eflr.lr_type], [eflr.set.type], [eflr.set.name], [eflr.objects],
    [logical_file.eflrs] as pairs of a position and a record,
    [logical_file.log_pass], which may be [None], and
    [LogicalRecord.Types.is_public]. *)
Record LogicalRecordPosition := {
  vr_position : Z;
  lrsh_position : Z;
}.
Variable lr_type : EFLR -> Z.
Variable set_type : EFLR -> list byte.
Variable set_name : EFLR -> list byte.
Variable objects : EFLR -> list Object.
Variable eflrs : LogicalFileState -> list (LogicalRecordPosition * EFLR).
Variable log_pass : LogicalFileState -> option (list LogPass.FrameArray).
Variable is_public : Z -> bool.

(** The [EFLR] element of one pair of [logical_file.eflrs]. *)
Definition write_eflr_to_xml (private : bool)
    (position_eflr : LogicalRecordPosition * EFLR) : result Element :=
  let '(position, eflr) := position_eflr in
  set_type ← Py.decode_ascii (set_type eflr);
  set_name ← Py.decode_ascii (set_name eflr);
  object_nodes ←
    (if private || is_public (lr_type eflr) then
       mapR _write_xml_eflr_object (objects eflr)
     else Ok []);
  Ok (mkElement "EFLR"
        {[ "vr_position" := "0x" +:+ Py.hex_of_int (vr_position position);
           "lrsh_position" :=
             "0x" +:+ Py.hex_of_int (lrsh_position position);
           "lr_type" := Py.str_of_int (lr_type eflr);
           "set_type" := set_type;
           "set_name" := set_name;
           "object_count" :=
             Py.str_of_int (Z.of_nat (length (objects eflr))) ]}
        object_nodes).

Definition write_logical_file_to_xml (logical_file_index : Z)
    (logical_file : LogicalFile) (private : bool) : result Element :=
  eflr_nodes ← mapR (write_eflr_to_xml private)
                 (eflrs (lf_state logical_file));
  log_pass_nodes ←
    match log_pass (lf_state logical_file) with
    | Some log_pass =>
        node ← log_pass_to_XML log_pass (iflr_position_map logical_file);
        Ok [node]
    | None => Ok []
    end;
  Ok (mkElement "LogicalFile"
        {[ "has_log_pass" :=
             match log_pass (lf_state logical_file) with
             | Some _ => "True"
             | None => "False"
             end;
           "index" := Py.str_of_int logical_file_index ]}
        (eflr_nodes ++ log_pass_nodes)%list).

(** What the writer reads of a storage unit label and of the visible
    record positions, and what it asks of the file system and the
    clock. *)
Variable storage_unit_sequence_number : StorageUnitLabel -> Z.
Variable dlis_version : StorageUnitLabel -> list byte.
Variable storage_unit_structure : StorageUnitLabel -> list byte.
Variable maximum_record_length : StorageUnitLabel -> Z.
Variable storage_set_identifier : StorageUnitLabel -> list byte.
(** the values that iterating over the visible record positions yields;
    iterating over [None] is a [TypeError] *)
Variable positions_of : VisibleRecordPositions -> list number.
(** [str(datetime.datetime.utcfromtimestamp(os.stat(path).st_mtime))] *)
Variable utc_file_mtime : list event -> string -> result string.
(** [str(datetime.datetime.utcnow())] *)
Variable utc_now : list event -> string.
(** [__name__] *)
Variable module_name : string.

(** [for lf, logical_file in enumerate(logical_files)] *)
Definition enumerate {A} (l : list A) : list (Z * A) :=
  imap (fun i x => (Z.of_nat i, x)) l.

(** An attribute of [None] is an [AttributeError]. *)
Definition not_None {A} (a : option A) : result A :=
  match a with
  | Some x => Ok x
  | None => Raise AttributeError
  end.

Definition write_storage_unit_label_to_xml (logical_file_sequence : LogicalIndex)
  : result Element :=
  sul ← not_None (storage_unit_label logical_file_sequence);
  dlis_version ← Py.decode_ascii (dlis_version sul);
  storage_unit_structure ← Py.decode_ascii (storage_unit_structure sul);
  storage_set_identifier ← Py.decode_ascii (storage_set_identifier sul);
  Ok (mkElement "StorageUnitLabel"
        {[ "sequence_number" :=
             Py.str_of_int (storage_unit_sequence_number sul);
           "dlis_version" := dlis_version;
           "storage_unit_structure" := storage_unit_structure;
           "maximum_record_length" :=
             Py.str_of_int (maximum_record_length sul);
           "storage_set_identifier" := storage_set_identifier ]} []).

Definition write_logical_file_sequence_to_xml
    (logical_file_sequence : LogicalIndex) (private : bool) : io Element :=
  size ← call (getsize_called (id logical_file_sequence))
           (fun t => getsize t (id logical_file_sequence));
  mtime ← call (stat_called (id logical_file_sequence))
            (fun t => utc_file_mtime t (id logical_file_sequence));
  now ← call utcnow_called (fun t => Ok (utc_now t));
  sul_node ← lift (write_storage_unit_label_to_xml logical_file_sequence);
  logical_file_nodes ←
    lift (mapR (fun '(lf, logical_file) =>
                  write_logical_file_to_xml lf logical_file private)
            (enumerate (logical_files logical_file_sequence)));
  visible_records ←
    lift (match visible_record_positions logical_file_sequence with
          | Some positions =>
              xml_rle_write (Rle.create_rle (positions_of positions))
                "VisibleRecords" true
          | None => Raise TypeError
          end);
  mret (mkElement "RP66V1FileIndex"
          {[ "path" := id logical_file_sequence;
             "size" := Py.str_of_int size;
             "schema_version" := XML_SCHEMA_VERSION;
             "utc_file_mtime" := mtime;
             "utc_now" := now;
             "creator" := module_name ]}
          [ sul_node;
            mkElement "LogicalFiles"
              {[ "count" :=
                   Py.str_of_int
                     (Z.of_nat
                        (length (logical_files logical_file_sequence))) ]}
              logical_file_nodes;
            visible_records ]).

End Codec.
End IndexXML.

(** ** [TotalDepth/RP66V1/core/LogPassXML.py] *)

Module LogPassXML.
Import xml.

Section Codec.
Context `{PyFloat}.

(** These six functions have the same text in the two files. *)
Definition xml_single_element := IndexXML.xml_single_element.
Definition xml_rle_write := IndexXML.xml_rle_write.
Definition xml_rle_read := IndexXML.xml_rle_read.
Definition xml_object_name := IndexXML.xml_object_name.
Definition frame_channel_to_XML := IndexXML.frame_channel_to_XML.
Definition frame_channel_from_XML := IndexXML.frame_channel_from_XML.

(** [class IFLRData(typing.NamedTuple)]: the positional constructor takes
    the fields in this order. *)
Record IFLRData := {
  frame_number : number;
  lrsh_position : number;
  x_axis : number;
}.

Definition frame_array_to_XML (frame_array : LogPass.FrameArray)
    (iflr_data : list IFLRData) : result Element :=
  I ← Py.decode_ascii (RepCode.I (LogPass.fa_ident frame_array));
  description ← Py.decode_ascii (LogPass.description frame_array);
  channel_nodes ← mapR frame_channel_to_XML (LogPass.channels frame_array);
  frame_numbers ←
    xml_rle_write (Rle.create_rle (map frame_number iflr_data))
      "FrameNumbers" false;
  lrsh ←
    xml_rle_write (Rle.create_rle (map lrsh_position iflr_data)) "LRSH" true;
  xaxis ←
    xml_rle_write (Rle.create_rle (map x_axis iflr_data)) "Xaxis" false;
  Ok (mkElement "FrameArray"
        {[ "O" := RepCode.format_atom (RepCode.O (LogPass.fa_ident frame_array));
           "C" := RepCode.format_atom (RepCode.C (LogPass.fa_ident frame_array));
           "I" := I;
           "description" := description ]}
        [ mkElement "Channels"
            {[ "count" :=
                 Py.str_of_int
                   (Z.of_nat (length (LogPass.channels frame_array))) ]}
            channel_nodes;
          mkElement "IFLR"
            {[ "count" := Py.str_of_int (Z.of_nat (length iflr_data)) ]}
            [frame_numbers; lrsh; xaxis] ]).

(** The generator builds an [IFLRData] from each tuple of
    [zip(rle_lrsh.values(), rle_frames.values(), rle_xaxis.values())],
    unpacked into the positional arguments: the first argument is the LRSH
    value, the second the frame number. *)
Definition frame_array_from_XML (frame_array_node : Element)
  : result (LogPass.FrameArray * generator IFLRData) :=
  if negb (String.eqb (tag frame_array_node) "FrameArray") then
    Raise ValueError
  else
    ident ← xml_object_name frame_array_node;
    description ← get frame_array_node "description" ≫= Py.encode_ascii;
    channels ← mapR frame_channel_from_XML
                 (iterfind ["Channels"; "Channel"] frame_array_node);
    iflr_node ← xml_single_element frame_array_node ["IFLR"];
    rle_lrsh ← xml_single_element iflr_node ["LRSH"] ≫= xml_rle_read;
    rle_frames ← xml_single_element iflr_node ["FrameNumbers"] ≫= xml_rle_read;
    rle_xaxis ← xml_single_element iflr_node ["Xaxis"] ≫= xml_rle_read;
    count ← get iflr_node "count" ≫= Py.int;
    if negb (Nat.eqb (len_set [Int count; Rle.num_values rle_lrsh;
                               Rle.num_values rle_frames;
                               Rle.num_values rle_xaxis]) 1) then
      Raise ExceptionFrameArrayInit
    else
      Ok (fold_left LogPass.append channels (LogPass.new ident description),
          (lrsh ← Rle.values rle_lrsh;
           frames ← Rle.values rle_frames;
           xaxis ← Rle.values rle_xaxis;
           mret (zip3 Build_IFLRData lrsh frames xaxis))).

(** *** Dumping positions *)

(** What goes to the stream: an element, or a comment. *)
Inductive written :=
| WElement (element : Element)
| WComment (text : string).

(** [positions[i]], for an index that is not negative. *)
Definition position_at (positions : list Z) (i : nat) : result Z :=
  match positions !! i with
  | Some position => Ok position
  | None => Raise IndexError
  end.

(** The attributes of the element for [positions[i]], which is
    [position]. *)
Definition position_attributes (positions : list Z) (i : nat) (position : Z)
  : result (gmap string string) :=
  let attrs : gmap string string :=
    {[ "pos" := Py.str_of_int position;
       "posx" := "0x" +:+ Py.hex_of_int position ]} in
  if (0 <? i)%nat then
    position_i ← position_at positions i;
    position_before ← position_at positions (i - 1);
    let d_pos := position_i - position_before in
    Ok (<["dposx" := "0x" +:+ Py.hex_of_int d_pos]>
          (<["dpos" := Py.str_of_int d_pos]> attrs))
  else Ok attrs.

(** The loop [for i, position in enumerate(positions)], from index [i] on
    with [rest] still to come. *)
Fixpoint xml_dump_positions_from (positions : list Z) (limit : Z)
    (element_name : string) (i : nat) (rest : list Z)
  : result (list written) :=
  match rest with
  | [] => Ok []
  | position :: rest' =>
      attrs ← position_attributes positions i position;
      let element := WElement (mkElement element_name attrs []) in
      if limit <=? Z.of_nat i then
        Ok [element; WComment " TRACE: break "]
      else
        more ← xml_dump_positions_from positions limit element_name (S i)
                 rest';
        Ok (element :: more)
  end.

Definition xml_dump_positions (positions : list Z) (limit : Z)
    (element_name : string) : result (list written) :=
  xml_dump_positions_from positions limit element_name 0 positions.

End Codec.
End LogPassXML.

(** ** A float structure to run the definitions with *)

(** Exact decimal fractions [mantissa / 10 ^ places].  The properties below
    are proved for every [PyFloat]; this one serves to evaluate the codec
    on concrete documents. *)
Record decimal := {
  mantissa : Z;
  places : nat;
}.

Definition decimal_align (a b : decimal) : Z * Z * nat :=
  let p := Nat.max (places a) (places b) in
  (mantissa a * 10 ^ Z.of_nat (p - places a),
   mantissa b * 10 ^ Z.of_nat (p - places b), p).

Definition decimal_add (a b : decimal) : decimal :=
  let '(x, y, p) := decimal_align a b in {| mantissa := x + y; places := p |}.

Definition decimal_sub (a b : decimal) : decimal :=
  let '(x, y, p) := decimal_align a b in {| mantissa := x - y; places := p |}.

Definition decimal_eqb (a b : decimal) : bool :=
  let '(x, y, _) := decimal_align a b in Z.eqb x y.

Definition decimal_of_int (z : Z) : decimal := {| mantissa := z; places := 0 |}.

Definition decimal_of_str (s : string) : option decimal :=
  match Py.split "." s with
  | [a; b] =>
      match Py.int (a +:+ b) with
      | Ok m => Some {| mantissa := m; places := String.length (Py.rstrip b) |}
      | Raise _ => None
      end
  | _ => None
  end.

Fixpoint zeros (n : nat) : string :=
  match n with
  | O => EmptyString
  | S n' => String "0" (zeros n')
  end.

Definition str_of_decimal (a : decimal) : string :=
  let p := Nat.max 1 (places a) in
  let m := Z.abs (mantissa a) * 10 ^ Z.of_nat (p - places a) in
  let frac := Py.str_of_int (m mod 10 ^ Z.of_nat p) in
  (if mantissa a <? 0 then "-" else "")%Z
  +:+ Py.str_of_int (m / 10 ^ Z.of_nat p) +:+ "."
  +:+ zeros (p - String.length frac) +:+ frac.

#[global] Instance decimal_float : PyFloat := {|
  float := decimal;
  float_of_str := decimal_of_str;
  str_of_float := str_of_decimal;
  float_of_int := decimal_of_int;
  float_add := decimal_add;
  float_sub := decimal_sub;
  float_eqb := decimal_eqb;
  float_eqb_int := fun x z => decimal_eqb x (decimal_of_int z);
|}.

(** ** Example documents *)

Module Examples.
Import xml.

(** [<RLE datum="0x50" repeat="6" stride="0x2000"/>] *)
Definition visible_records_rle : Rle.RLE :=
  {| Rle.rle_items :=
       [ {| Rle.datum := Int 80; Rle.stride := Int 8192;
            Rle.repeat := Int 6 |} ] |}.

Definition visible_records_node : Element :=
  mkElement "VisibleRecords" {[ "count" := "7"; "rle_len" := "1" ]}
    [ mkElement "RLE"
        {[ "datum" := "0x50"; "repeat" := "6"; "stride" := "0x2000" ]} [] ].

(** The same block with its [count] written in hexadecimal. *)
Definition visible_records_hex_count : Element :=
  mkElement "VisibleRecords" {[ "count" := "0x7"; "rle_len" := "1" ]}
    [ mkElement "RLE"
        {[ "datum" := "0x50"; "repeat" := "6"; "stride" := "0x2000" ]} [] ].

(** The same block with its [rle_len] written in hexadecimal. *)
Definition visible_records_hex_len : Element :=
  mkElement "VisibleRecords" {[ "count" := "7"; "rle_len" := "0x1" ]}
    [ mkElement "RLE"
        {[ "datum" := "0x50"; "repeat" := "6"; "stride" := "0x2000" ]} [] ].

(** A run that starts below zero. *)
Definition negative_rle : Rle.RLE :=
  {| Rle.rle_items :=
       [ {| Rle.datum := Int (-5); Rle.stride := Int 0;
            Rle.repeat := Int 0 |} ] |}.

End Examples.

Module ExampleNodes.
Import xml.

(** An [IFLR] element for two frames. *)
Definition iflr_node : Element :=
  mkElement "IFLR" {[ "count" := "2" ]}
    [ mkElement "FrameNumbers" {[ "count" := "2"; "rle_len" := "1" ]}
        [ mkElement "RLE"
            {[ "datum" := "1"; "repeat" := "1"; "stride" := "1" ]} [] ];
      mkElement "LRSH" {[ "count" := "2"; "rle_len" := "1" ]}
        [ mkElement "RLE"
            {[ "datum" := "0x14ac"; "repeat" := "1"; "stride" := "0x30" ]} [] ];
      mkElement "Xaxis" {[ "count" := "2"; "rle_len" := "1" ]}
        [ mkElement "RLE"
            {[ "datum" := "100"; "repeat" := "1"; "stride" := "5" ]} [] ] ].

(** A [FrameArray] element without any [Channel]. *)
Definition frame_array_node : Element :=
  mkElement "FrameArray"
    {[ "O" := "11"; "C" := "0"; "I" := "0B"; "description" := "" ]}
    [ mkElement "Channels" {[ "count" := "0" ]} []; iflr_node ].

(** An [RLE] block whose only item has [repeat="-2"]: it declares, and
    sums to, minus one value. *)
Definition negative_block (name : string) : Element :=
  mkElement name {[ "count" := "-1"; "rle_len" := "1" ]}
    [ mkElement "RLE"
        {[ "datum" := "0"; "repeat" := "-2"; "stride" := "0" ]} [] ].

Definition negative_frame_array_node : Element :=
  mkElement "FrameArray"
    {[ "O" := "11"; "C" := "0"; "I" := "0B"; "description" := "" ]}
    [ mkElement "Channels" {[ "count" := "0" ]} [];
      mkElement "IFLR" {[ "count" := "-1" ]}
        [ negative_block "FrameNumbers"; negative_block "LRSH";
          negative_block "Xaxis" ] ].

End ExampleNodes.

Module ExampleArrays.

Definition name (O : Z) (C : Z) (I : string) : RepCode.ObjectName :=
  {| RepCode.O := RepCode.AInt O; RepCode.C := RepCode.AInt C;
     RepCode.I := list_byte_of_string I |}.

(** A frame array with the single channel [DEPT]. *)
Definition frame_array : LogPass.FrameArray :=
  {| LogPass.fa_ident := name 11 0 "0B";
     LogPass.description := [];
     LogPass.channels :=
       [ {| LogPass.ident := LogPass.ident_name (name 11 0 "DEPT");
            LogPass.long_name := list_byte_of_string "MWD Tool Measurement Depth";
            LogPass.rep_code := 2;
            LogPass.units := list_byte_of_string "0.1 in";
            LogPass.dimensions := [1] |} ] |}.

(** The same array without its channel. *)
Definition empty_frame_array : LogPass.FrameArray :=
  {| LogPass.fa_ident := name 11 0 "0B";
     LogPass.description := [];
     LogPass.channels := [] |}.

(** A side table of one entry: frame 1 at LRSH position [0x14ac]. *)
Definition iflr_data : list LogPassXML.IFLRData :=
  [ {| LogPassXML.frame_number := Int 1;
       LogPassXML.lrsh_position := Int 5292;
       LogPassXML.x_axis := Int 0 |} ].

End ExampleArrays.

Module WrittenNodes.
Import xml.

Definition channel_node : Element :=
  mkElement "Channel"
    {[ "O" := "11"; "C" := "0"; "I" := "DEPT";
       "long_name" := "MWD Tool Measurement Depth"; "rep_code" := "2";
       "units" := "0.1 in"; "dimensions" := "1"; "count" := "1" ]} [].

Definition iflr_node : Element :=
  mkElement "IFLR" {[ "count" := "1" ]}
    [ mkElement "FrameNumbers" {[ "count" := "1"; "rle_len" := "1" ]}
        [ mkElement "RLE"
            {[ "datum" := "1"; "stride" := "0"; "repeat" := "0" ]} [] ];
      mkElement "LRSH" {[ "count" := "1"; "rle_len" := "1" ]}
        [ mkElement "RLE"
            {[ "datum" := "0x14ac"; "stride" := "0x0"; "repeat" := "0" ]} [] ];
      mkElement "Xaxis" {[ "count" := "1"; "rle_len" := "1" ]}
        [ mkElement "RLE"
            {[ "datum" := "0"; "stride" := "0"; "repeat" := "0" ]} [] ] ].

(** What [LogPassXML.frame_array_to_XML] writes for
    [ExampleArrays.frame_array] and [ExampleArrays.iflr_data]. *)
Definition logpass_frame_array_node : Element :=
  mkElement "FrameArray"
    {[ "O" := "11"; "C" := "0"; "I" := "0B"; "description" := "" ]}
    [ mkElement "Channels" {[ "count" := "1" ]} [channel_node]; iflr_node ].

(** What [IndexXML.frame_array_to_XML] writes for the same. *)
Definition index_frame_array_node : Element :=
  mkElement "FrameArray"
    {[ "O" := "11"; "C" := "0"; "I" := "0B"; "description" := "";
       "x_axis" := "DEPT"; "x_units" := "0.1 in" ]}
    [ mkElement "Channels" {[ "count" := "1" ]} [channel_node]; iflr_node ].

(** The frame array read back from either element. *)
Definition frame_array_read_back : LogPass.FrameArray :=
  {| LogPass.fa_ident :=
       {| RepCode.O := RepCode.AStr "11"; RepCode.C := RepCode.AStr "0";
          RepCode.I := list_byte_of_string "0B" |};
     LogPass.description := [];
     LogPass.channels :=
       [ {| LogPass.ident :=
              LogPass.ident_bytes (list_byte_of_string "DEPT");
            LogPass.long_name :=
              list_byte_of_string "MWD Tool Measurement Depth";
            LogPass.rep_code := 2;
            LogPass.units := list_byte_of_string "0.1 in";
            LogPass.dimensions := [1] |} ] |}.

End WrittenNodes.

(** ** What reading the index asks of the binary file *)

(** The two positions an [EFLR] element records. *)
Definition eflr_position (eflr_node : xml.Element) : result (Z * Z) :=
  vr_position ← IndexXML.xml_integer_attribute_read eflr_node "vr_position";
  lrsh_position ←
    IndexXML.xml_integer_attribute_read eflr_node "lrsh_position";
  mret (vr_position, lrsh_position).

Definition called_at (p : Z * Z) : event :=
  get_file_logical_data_called p.1 p.2.

Definition is_get_file_logical_data_called (ev : event) : bool :=
  match ev with
  | get_file_logical_data_called _ _ => true
  | _ => false
  end.

(** ** An index and a binary file to read it against *)

Module ExampleIndex.
Import xml.

(** A binary file that answers each call with the positions asked for, and
    a logical file that keeps what it is given. *)
Definition FileLogicalData : Type := Z * Z.
Definition file_logical_data (_ : list event) (vr_position lrsh_position : Z)
  : result FileLogicalData := Ok (vr_position, lrsh_position).
Definition EFLR : Type := Z * Z.
Definition ExplicitlyFormattedLogicalRecord (fld : FileLogicalData)
  : result EFLR := Ok fld.
Definition LogicalFileState : Type := list FileLogicalData.
Definition LogicalFile : Type :=
  IndexXML.LogicalFile LogPassXML.IFLRData LogicalFileState.
Definition new_LogicalFile (fld : FileLogicalData) (eflr : EFLR)
  : result LogicalFile :=
  Ok {| IndexXML.lf_state := [fld]; IndexXML.iflr_position_map := [] |}.
Definition add_eflr (logical_file : LogicalFile) (fld : FileLogicalData)
    (eflr : EFLR) : result LogicalFile :=
  Ok {| IndexXML.lf_state := (IndexXML.lf_state _ _ logical_file ++ [fld])%list;
        IndexXML.iflr_position_map :=
          IndexXML.iflr_position_map _ _ logical_file |}.

Definition read_logical_file_from_xml : Element -> io LogicalFile :=
  IndexXML.read_logical_file_from_xml LogPassXML.IFLRData
    LogPassXML.Build_IFLRData FileLogicalData file_logical_data EFLR
    ExplicitlyFormattedLogicalRecord LogicalFileState new_LogicalFile
    add_eflr.

Definition eflr_node (set_type vr_position lrsh_position : string)
  : Element :=
  mkElement "EFLR"
    {[ "lr_type" := "0"; "lrsh_position" := lrsh_position;
       "object_count" := "1"; "set_name" := ""; "set_type" := set_type;
       "vr_position" := vr_position ]} [].

Definition logical_file_node : Element :=
  mkElement "LogicalFile" {[ "has_log_pass" := "True"; "index" := "0" ]}
    [ eflr_node "FILE-HEADER" "0x50" "0x54";
      eflr_node "ORIGIN" "0x50" "0xd0";
      mkElement "LogPass" ∅ [WrittenNodes.index_frame_array_node] ].

(** The same with the first two records the other way round. *)
Definition origin_first_node : Element :=
  mkElement "LogicalFile" {[ "has_log_pass" := "False"; "index" := "0" ]}
    [ eflr_node "ORIGIN" "0x50" "0xd0";
      eflr_node "FILE-HEADER" "0x50" "0x54" ].

(** What is read from [logical_file_node], and the calls made for it. *)
Definition logical_file : LogicalFile :=
  {| IndexXML.lf_state := [(80, 84); (80, 208)];
     IndexXML.iflr_position_map :=
       [ ({| RepCode.O := RepCode.AStr "11"; RepCode.C := RepCode.AStr "0";
             RepCode.I := list_byte_of_string "0B" |},
          [ LogPassXML.Build_IFLRData (Int 5292) (Int 1) (Int 0) ]) ] |}.

Definition calls : list event :=
  [ get_file_logical_data_called 80 84;
    get_file_logical_data_called 80 208 ].

(** The index of the file [data/a.dlis], kept under the archive root
    [archive]. *)
Definition StorageUnitLabel : Type := Z * list byte * Z * list byte.
Definition create_storage_unit_label (sequence_number : Z)
    (dlis_version : list byte) (maximum_record_length : Z)
    (storage_set_identifier : list byte) : result StorageUnitLabel :=
  Ok (sequence_number, dlis_version, maximum_record_length,
      storage_set_identifier).

Definition storage_unit_label_node : Element :=
  mkElement "StorageUnitLabel"
    {[ "dlis_version" := "V1.00"; "maximum_record_length" := "8192";
       "sequence_number" := "1";
       "storage_set_identifier" := "Default Storage Set";
       "storage_unit_structure" := "RECORD" ]} [].

Definition root : Element :=
  mkElement "RP66V1FileIndex"
    {[ "path" := "data/a.dlis"; "schema_version" := "0.1.0";
       "size" := "57432" ]}
    [ storage_unit_label_node;
      mkElement "LogicalFiles" {[ "count" := "1" ]} [logical_file_node];
      Examples.visible_records_node ].

Definition path_join (a b : string) : string := a +:+ "/" +:+ b.
Definition parsed_index (_ : list event) (_ : string) : result Element :=
  Ok root.
Definition isfile (_ : list event) (_ : string) : bool := true.
Definition binary_file_type (_ : list event) (_ : string) : result string :=
  Ok "RP66V1".
Definition opened (_ : list event) (_ : string) : result unit := Ok tt.
Definition file_read (_ : list event) (_ : string) : result unit := Ok tt.
Definition VisibleRecordPositions : Type := list number.
Definition new_VisibleRecordPositions (positions : list number)
  : result VisibleRecordPositions := Ok positions.

Definition LogicalIndex : Type :=
  IndexXML.LogicalIndex LogPassXML.IFLRData StorageUnitLabel LogicalFileState
    VisibleRecordPositions.

Definition read_logical_index_from_xml : string -> string -> io LogicalIndex :=
  IndexXML.read_logical_index_from_xml LogPassXML.IFLRData
    LogPassXML.Build_IFLRData StorageUnitLabel create_storage_unit_label
    FileLogicalData file_logical_data EFLR ExplicitlyFormattedLogicalRecord
    LogicalFileState new_LogicalFile add_eflr path_join parsed_index isfile
    binary_file_type opened file_read VisibleRecordPositions
    new_VisibleRecordPositions.

(** What is read from [root], and the calls made for it. *)
Definition storage_unit_label : StorageUnitLabel :=
  (1, list_byte_of_string "V1.00", 8192,
   list_byte_of_string "Default Storage Set").

Definition logical_index : LogicalIndex :=
  {| IndexXML.id := "archive/data/a.dlis";
     IndexXML.storage_unit_label := Some storage_unit_label;
     IndexXML.logical_files := [logical_file];
     IndexXML.visible_record_positions :=
       Some [Int 80; Int 8272; Int 16464; Int 24656; Int 32848; Int 41040;
             Int 49232] |}.

Definition index_calls : list event :=
  [ parse_called "index/a.dlis.xml";
    isfile_called "archive/data/a.dlis";
    binary_file_type_from_path_called "archive/data/a.dlis";
    open_called "archive/data/a.dlis" "rb";
    FileRead_called "archive/data/a.dlis";
    get_file_logical_data_called 80 84;
    get_file_logical_data_called 80 208 ].

End ExampleIndex.

(** ** A directory to index *)

Module ExampleIndexing.

(** [data/a.dlis] is an RP66V1 file whose logical index cannot be built,
    [data/notes.txt] is some other file and nothing else is there. *)
Definition binary_file_type (_ : list event) (path : string)
  : result string :=
  if String.eqb path "data/a.dlis" then Ok "RP66V1"
  else if String.eqb path "data/notes.txt" then Ok "ASCII"
  else Raise OSError.
Definition opened (_ : list event) (_ : string) : result unit := Ok tt.
Definition file_read (_ : list event) (_ : string) : result unit := Ok tt.
Definition dirname (_ : string) : string := "index".
Definition path_exists (_ : list event) (_ : string) : result bool :=
  Ok true.
Definition makedirs (_ : list event) (_ : string) : result unit := Ok tt.
Definition getsize (_ : list event) (_ : string) : result Z := Ok 57432.
Definition perf_counter (_ : list event) : float := float_of_int 0.
Definition logical_index_of_file (_ : list event) (_ : string)
  : result unit := Raise ExceptionTotalDepthRP66V1.
Definition index_written (_ : list event) (_ : string) (_ : bool)
  : result Z := Ok 0.
Definition printed (_ : list event) : result unit := Ok tt.

Definition index_a_single_file
  : string -> string -> bool -> io IndexXML.IndexResult :=
  IndexXML.index_a_single_file binary_file_type opened file_read dirname
    path_exists makedirs getsize perf_counter opened logical_index_of_file
    index_written printed.


(** The directory [data] is walked to three files, of which the first is
    gone when its turn comes. *)
Definition isdir (_ : list event) (path : string) : bool :=
  String.eqb path "data".
Definition dir_walk (_ : list event) (path_in path_out : string)
    (_ : bool) : list (string * string) * option exn :=
  ([ (path_in +:+ "/b.dlis", path_out +:+ "/b.dlis");
     (path_in +:+ "/a.dlis", path_out +:+ "/a.dlis");
     (path_in +:+ "/notes.txt", path_out +:+ "/notes.txt") ], None).

Definition index_dir_or_file
  : string -> string -> bool -> bool
    -> io (gmap string IndexXML.IndexResult) :=
  IndexXML.index_dir_or_file binary_file_type opened file_read dirname
    path_exists makedirs getsize perf_counter opened logical_index_of_file
    index_written printed isdir dir_walk.

End ExampleIndexing.

(** ** What a dump of positions says *)

(** What the element written for [positions[k]] says. *)
Definition says_position (positions : list Z) (k : nat) (position : Z)
    (attrs : gmap string string) : Prop :=
  attrs !! "pos" = Some (Py.str_of_int position)
  /\ attrs !! "posx" = Some ("0x" +:+ Py.hex_of_int position)
  /\ match k with
     | O => attrs !! "dpos" = None /\ attrs !! "dposx" = None
     | S k' =>
         exists before,
           positions !! k' = Some before
           /\ attrs !! "dpos" = Some (Py.str_of_int (position - before))
           /\ attrs !! "dposx"
              = Some ("0x" +:+ Py.hex_of_int (position - before))
     end.

(** ** Positions in the order of the file *)

(** No value is below [prev], nor below the value before it. *)
Fixpoint nondecreasing_from (prev : Z) (l : list Z) : bool :=
  match l with
  | [] => true
  | v :: l' => (prev <=? v) && nondecreasing_from v l'
  end.

(** ** A channel as it is read back *)

(** The channel read has the long name, the representation code, the units
    and the dimensions of the channel written, and the [I] of its name for
    identity. *)
Definition channel_read_back (channel channel_read : LogPass.FrameChannel)
  : Prop :=
  exists object_name,
    LogPass.ident channel = LogPass.ident_name object_name
    /\ channel_read
       = {| LogPass.ident := LogPass.ident_bytes (RepCode.I object_name);
            LogPass.long_name := LogPass.long_name channel;
            LogPass.rep_code := LogPass.rep_code channel;
            LogPass.units := LogPass.units channel;
            LogPass.dimensions := LogPass.dimensions channel |}.

(** ** An [EFLR] element as the reader of the index sees it *)

(** The element carries the set type, and the two positions are read from
    it when neither is negative; [int(_, 16)] refuses the text of a
    negative one. *)
Definition eflr_written_as (position : IndexXML.LogicalRecordPosition)
    (set_type : list byte) (eflr_node : xml.Element) : Prop :=
  (xml.get eflr_node "set_type" ≫= Py.encode_ascii) = Ok set_type
  /\ eflr_position eflr_node
     = if (0 <=? IndexXML.vr_position position)
          && (0 <=? IndexXML.lrsh_position position)
       then Ok (IndexXML.vr_position position,
                IndexXML.lrsh_position position)
       else Raise ValueError.

(** The two positions of a record, as [eflr_position] reads them. *)
Definition position_pair (position : IndexXML.LogicalRecordPosition)
  : Z * Z :=
  (IndexXML.vr_position position, IndexXML.lrsh_position position).

(** ** An index to write *)

Module ExampleWriting.
Import xml.

(** The records of [ExampleIndex]: the one at LRSH position 84 is the file
    header, any other an origin; none has objects. *)
Definition lr_type (_ : ExampleIndex.EFLR) : Z := 0.
Definition set_type (eflr : ExampleIndex.EFLR) : list byte :=
  if eflr.2 =? 84 then list_byte_of_string "FILE-HEADER"
  else list_byte_of_string "ORIGIN".
Definition set_name (_ : ExampleIndex.EFLR) : list byte := [].
Definition objects (_ : ExampleIndex.EFLR) : list IndexXML.Object := [].
Definition eflrs (state : ExampleIndex.LogicalFileState)
  : list (IndexXML.LogicalRecordPosition * ExampleIndex.EFLR) :=
  map (fun fld =>
         ({| IndexXML.vr_position := fld.1;
             IndexXML.lrsh_position := fld.2 |}, fld)) state.
Definition log_pass (_ : ExampleIndex.LogicalFileState)
  : option (list LogPass.FrameArray) := Some [ExampleArrays.frame_array].
Definition is_public (_ : Z) : bool := true.
Definition REP_CODE_INT_TO_STR (_ : Z) : option string := None.

Definition logical_file : ExampleIndex.LogicalFile :=
  {| IndexXML.lf_state := [(80, 84); (80, 208)];
     IndexXML.iflr_position_map :=
       [ (ExampleArrays.name 11 0 "0B", ExampleArrays.iflr_data) ] |}.

(** The same with the two records the other way round. *)
Definition origin_first : ExampleIndex.LogicalFile :=
  {| IndexXML.lf_state := [(80, 208); (80, 84)];
     IndexXML.iflr_position_map :=
       [ (ExampleArrays.name 11 0 "0B", ExampleArrays.iflr_data) ] |}.

Definition write_logical_file_to_xml
  : Z -> ExampleIndex.LogicalFile -> bool -> result Element :=
  IndexXML.write_logical_file_to_xml LogPassXML.IFLRData
    LogPassXML.frame_number (fun v => Ok (LogPassXML.lrsh_position v))
    LogPassXML.x_axis ExampleIndex.EFLR ExampleIndex.LogicalFileState
    REP_CODE_INT_TO_STR lr_type set_type set_name objects eflrs log_pass
    is_public.

Definition eflr_node (set_type vr_position lrsh_position : string)
  : Element :=
  mkElement "EFLR"
    {[ "vr_position" := vr_position; "lrsh_position" := lrsh_position;
       "lr_type" := "0"; "set_type" := set_type; "set_name" := "";
       "object_count" := "0" ]} [].

Definition log_pass_node : Element :=
  mkElement "LogPass" {[ "count" := "1" ]}
    [WrittenNodes.index_frame_array_node].

(** What is written for [logical_file] and for [origin_first]. *)
Definition logical_file_node : Element :=
  mkElement "LogicalFile" {[ "has_log_pass" := "True"; "index" := "0" ]}
    [ eflr_node "FILE-HEADER" "0x50" "0x54";
      eflr_node "ORIGIN" "0x50" "0xd0"; log_pass_node ].

Definition origin_first_node : Element :=
  mkElement "LogicalFile" {[ "has_log_pass" := "True"; "index" := "0" ]}
    [ eflr_node "ORIGIN" "0x50" "0xd0";
      eflr_node "FILE-HEADER" "0x50" "0x54"; log_pass_node ].

(** A storage unit label is the four values of [ExampleIndex], its
    structure is [RECORD]. *)
Definition storage_unit_sequence_number (sul : ExampleIndex.StorageUnitLabel)
  : Z := sul.1.1.1.
Definition dlis_version (sul : ExampleIndex.StorageUnitLabel) : list byte :=
  sul.1.1.2.
Definition storage_unit_structure (_ : ExampleIndex.StorageUnitLabel)
  : list byte := list_byte_of_string "RECORD".
Definition maximum_record_length (sul : ExampleIndex.StorageUnitLabel) : Z :=
  sul.1.2.
Definition storage_set_identifier (sul : ExampleIndex.StorageUnitLabel)
  : list byte := sul.2.
Definition positions_of (positions : ExampleIndex.VisibleRecordPositions)
  : list number := positions.
Definition getsize (_ : list event) (_ : string) : result Z := Ok 57432.
Definition utc_file_mtime (_ : list event) (_ : string) : result string :=
  Ok "2019-03-18 16:07:28".
Definition utc_now (_ : list event) : string := "2019-04-27 10:24:13.982071".
Definition module_name : string := "TotalDepth.RP66V1.IndexXML".

Definition logical_index : ExampleIndex.LogicalIndex :=
  {| IndexXML.id := "data/a.dlis";
     IndexXML.storage_unit_label := Some ExampleIndex.storage_unit_label;
     IndexXML.logical_files := [logical_file];
     IndexXML.visible_record_positions :=
       Some [Int 80; Int 8272; Int 16464; Int 24656; Int 32848; Int 41040;
             Int 49232] |}.

Definition write_logical_file_sequence_to_xml
  : ExampleIndex.LogicalIndex -> bool -> io Element :=
  IndexXML.write_logical_file_sequence_to_xml LogPassXML.IFLRData
    LogPassXML.frame_number (fun v => Ok (LogPassXML.lrsh_position v))
    LogPassXML.x_axis ExampleIndex.StorageUnitLabel ExampleIndex.EFLR
    ExampleIndex.LogicalFileState ExampleIndex.VisibleRecordPositions
    getsize REP_CODE_INT_TO_STR lr_type set_type set_name objects eflrs
    log_pass is_public storage_unit_sequence_number dlis_version
    storage_unit_structure maximum_record_length storage_set_identifier
    positions_of utc_file_mtime utc_now module_name.

(** What is written for [logical_index]. *)
Definition root : Element :=
  mkElement "RP66V1FileIndex"
    {[ "path" := "data/a.dlis"; "size" := "57432";
       "schema_version" := "0.1.0";
       "utc_file_mtime" := "2019-03-18 16:07:28";
       "utc_now" := "2019-04-27 10:24:13.982071";
       "creator" := "TotalDepth.RP66V1.IndexXML" ]}
    [ mkElement "StorageUnitLabel"
        {[ "sequence_number" := "1"; "dlis_version" := "V1.00";
           "storage_unit_structure" := "RECORD";
           "maximum_record_length" := "8192";
           "storage_set_identifier" := "Default Storage Set" ]} [];
      mkElement "LogicalFiles" {[ "count" := "1" ]} [logical_file_node];
      Examples.visible_records_node ].

End ExampleWriting.

(** ** Indexes that are not read *)

Module ExampleUnread.
Import xml.

(** A storage unit label whose maximum record length is not a number. *)
Definition storage_unit_label_node : Element :=
  mkElement "StorageUnitLabel"
    {[ "dlis_version" := "V1.00"; "maximum_record_length" := "8K";
       "sequence_number" := "1";
       "storage_set_identifier" := "Default Storage Set";
       "storage_unit_structure" := "RECORD" ]} [].

Definition labelled_root : Element :=
  mkElement "RP66V1FileIndex"
    {[ "path" := "data/a.dlis"; "schema_version" := "0.1.0";
       "size" := "57432" ]}
    [ storage_unit_label_node ].

(** A storage unit label whose storage set identifier starts with a
    capital E with an acute accent. *)
Definition storage_unit_label_latin_1 : Element :=
  mkElement "StorageUnitLabel"
    {[ "dlis_version" := "V1.00"; "maximum_record_length" := "8192";
       "sequence_number" := "1";
       "storage_set_identifier" := String "201"%char "tude";
       "storage_unit_structure" := "RECORD" ]} [].

Definition latin_1_root : Element :=
  mkElement "RP66V1FileIndex"
    {[ "path" := "data/a.dlis"; "schema_version" := "0.1.0";
       "size" := "57432" ]}
    [ storage_unit_label_latin_1 ].

(** The index of [ExampleIndex] without its visible records. *)
Definition logical_files_node : Element :=
  mkElement "LogicalFiles" {[ "count" := "1" ]}
    [ExampleIndex.logical_file_node].

Definition root : Element :=
  mkElement "RP66V1FileIndex"
    {[ "path" := "data/a.dlis"; "schema_version" := "0.1.0";
       "size" := "57432" ]}
    [ ExampleIndex.storage_unit_label_node; logical_files_node ].



(** Reading an index file that holds the document [root], against the
    binary file of [ExampleIndex]. *)
Definition read_logical_index_from_xml (root : Element)
  : string -> string -> io ExampleIndex.LogicalIndex :=
  IndexXML.read_logical_index_from_xml LogPassXML.IFLRData
    LogPassXML.Build_IFLRData ExampleIndex.StorageUnitLabel
    ExampleIndex.create_storage_unit_label ExampleIndex.FileLogicalData
    ExampleIndex.file_logical_data ExampleIndex.EFLR
    ExampleIndex.ExplicitlyFormattedLogicalRecord
    ExampleIndex.LogicalFileState ExampleIndex.new_LogicalFile
    ExampleIndex.add_eflr ExampleIndex.path_join (fun _ _ => Ok root)
    ExampleIndex.isfile ExampleIndex.binary_file_type ExampleIndex.opened
    ExampleIndex.file_read ExampleIndex.VisibleRecordPositions
    ExampleIndex.new_VisibleRecordPositions.

End ExampleUnread.

(** ** What a block of runs declares *)

(** The item that the attributes of an [RLE] element convert to. *)
Definition child_reads_as `{PyFloat} (element_rle : xml.Element)
    (it : Rle.RLEItem) : Prop :=
  (xml.get element_rle "datum" ≫= IndexXML._rle_convert_datum_or_stride)
  = Ok (Rle.datum it)
  /\ (xml.get element_rle "repeat" ≫= IndexXML._rle_convert_datum_or_stride)
     = Ok (Rle.repeat it)
  /\ (xml.get element_rle "stride" ≫= IndexXML._rle_convert_datum_or_stride)
     = Ok (Rle.stride it).

(** The sum of [repeat + 1] over integer repeat counts. *)
Definition sum_repeats (repeats : list Z) : Z :=
  fold_right (fun r acc => r + 1 + acc) 0 repeats.

(* ===================================================================== *)
(** * Properties *)
(* ===================================================================== *)

Example int_examples :
  Py.int "83" = Ok 83 /\ Py.int " -7 " = Ok (-7) /\ Py.int "+1_000" = Ok 1000
  /\ Py.int "0x10" = Raise ValueError /\ Py.int "" = Raise ValueError
  /\ Py.int16 "0x14ac" = Ok 5292 /\ Py.int16 "0X_Ff" = Ok 255
  /\ Py.int16 "0x-5" = Raise ValueError /\ Py.int16 "-0x5" = Ok (-5)
  /\ Py.str_of_int (-12) = "-12" /\ Py.hex_of_int 5292 = "14ac"
  /\ Py.hex_of_int (-5) = "-5" /\ Py.str_of_int 0 = "0".
Proof. repeat split; reflexivity. Qed.

Example split_examples :
  Py.split "," "" = [""] /\ Py.split "," "1,20" = ["1"; "20"]
  /\ Py.join "," ["1"; "20"] = "1,20" /\ Py.join "," [] = "".
Proof. repeat split; reflexivity. Qed.

(** ** Formatting an integer and reading it back *)

Section IntText.

Fixpoint string_forall (P : ascii -> bool) (s : string) : bool :=
  match s with
  | EmptyString => true
  | String c s' => P c && string_forall P s'
  end.

(** Characters that [int] neither strips, groups, takes for a sign nor
    folds to lower case. *)
Definition is_plain (c : ascii) : bool :=
  negb (Py.is_space c) && negb (Ascii.eqb c "_") && negb (Ascii.eqb c "-")
  && negb (Ascii.eqb c "+") && Ascii.eqb (Py.lower_hex c) c.

Lemma rstrip_no_space s :
  string_forall (fun c => negb (Py.is_space c)) s = true -> Py.rstrip s = s.
Proof.
  induction s as [|c s IH]; simpl; [done|].
  intros [Hc Hs]%andb_true_iff. rewrite (IH Hs).
  destruct s; [|done]. by destruct (Py.is_space c).
Qed.

Lemma lstrip_no_space s :
  string_forall (fun c => negb (Py.is_space c)) s = true -> Py.lstrip s = s.
Proof.
  destruct s as [|c s]; simpl; [done|].
  intros [Hc _]%andb_true_iff. by destruct (Py.is_space c).
Qed.

Lemma strip_no_space s :
  string_forall (fun c => negb (Py.is_space c)) s = true -> Py.strip s = s.
Proof.
  intros H. unfold Py.strip. rewrite (lstrip_no_space _ H).
  by apply rstrip_no_space.
Qed.

Lemma plain_no_space s :
  string_forall is_plain s = true ->
  string_forall (fun c => negb (Py.is_space c)) s = true.
Proof.
  induction s as [|c s IH]; simpl; [done|].
  intros [Hc Hs]%andb_true_iff. rewrite (IH Hs), andb_true_r.
  unfold is_plain in Hc. by destruct (Py.is_space c).
Qed.

Lemma group_digits_plain s :
  string_forall is_plain s = true -> Py.group_digits true s = Some s.
Proof.
  induction s as [|c s IH]; simpl; [done|].
  intros [Hc Hs]%andb_true_iff. rewrite (IH Hs).
  unfold is_plain in Hc. by destruct (Ascii.eqb c "_"), (Py.is_space c).
Qed.

Lemma group_digits_plain_nonempty s :
  string_forall is_plain s = true -> s <> EmptyString ->
  Py.group_digits false s = Some s.
Proof.
  destruct s as [|c s]; [done|]. simpl.
  intros [Hc Hs]%andb_true_iff _. rewrite (group_digits_plain _ Hs).
  unfold is_plain in Hc. by destruct (Ascii.eqb c "_"), (Py.is_space c).
Qed.

Lemma split_sign_plain s :
  string_forall is_plain s = true -> Py.split_sign s = (false, s).
Proof.
  destruct s as [|c s]; [done|]. simpl.
  intros [Hc _]%andb_true_iff. unfold is_plain in Hc.
  by destruct (Py.is_space c), (Ascii.eqb c "_"), (Ascii.eqb c "-"),
       (Ascii.eqb c "+").
Qed.

Lemma lower_hex_plain s :
  string_forall is_plain s = true -> Py.map_string Py.lower_hex s = s.
Proof.
  induction s as [|c s IH]; simpl; [done|].
  intros [Hc Hs]%andb_true_iff. rewrite (IH Hs). f_equal.
  unfold is_plain in Hc.
  apply andb_true_iff in Hc as [_ Hc]. by apply Ascii.eqb_eq.
Qed.

Lemma drop_hex_prefix_plain s :
  string_forall is_plain s = true ->
  Py.drop_hex_prefix (String "0" (String "x" s)) = s.
Proof.
  destruct s as [|c s]; [done|]. simpl.
  intros [Hc _]%andb_true_iff. unfold is_plain in Hc.
  by destruct (Py.is_space c), (Ascii.eqb c "_").
Qed.

Lemma dec_digits_plain d :
  string_forall is_plain (DecimalString.NilEmpty.string_of_uint d) = true.
Proof. induction d; simpl; try done; by rewrite IHd. Qed.

Lemma hex_digits_plain d :
  string_forall is_plain (HexadecimalString.NilEmpty.string_of_uint d) = true.
Proof. induction d; simpl; try done; by rewrite IHd. Qed.

Lemma dec_digits_nonempty d :
  d <> Decimal.Nil -> DecimalString.NilEmpty.string_of_uint d <> EmptyString.
Proof. by destruct d. Qed.

Lemma hex_digits_nonempty d :
  d <> Hexadecimal.Nil ->
  HexadecimalString.NilEmpty.string_of_uint d <> EmptyString.
Proof. by destruct d. Qed.

(** [int] reads a run of decimal digits, with or without a minus sign. *)
Lemma int_of_digits (neg : bool) d :
  d <> Decimal.Nil ->
  Py.int ((if neg then "-" else "") +:+ DecimalString.NilEmpty.string_of_uint d)
  = Ok (Z.of_int (if neg then Decimal.Neg d else Decimal.Pos d)).
Proof.
  intros Hd. pose proof (dec_digits_plain d) as Hp.
  pose proof (dec_digits_nonempty d Hd) as Hn.
  set (t := DecimalString.NilEmpty.string_of_uint d) in *.
  assert (Ht : DecimalString.NilEmpty.uint_of_string t = Some d)
    by apply DecimalString.NilEmpty.usu.
  unfold Py.int. destruct neg.
  - change ("-" +:+ t) with (String "-" t).
    rewrite (strip_no_space (String "-" t)).
    2:{ simpl. by apply plain_no_space. }
    simpl. rewrite (group_digits_plain_nonempty _ Hp Hn). simpl.
    by rewrite Ht.
  - change ("" +:+ t) with t.
    rewrite (strip_no_space t) by by apply plain_no_space.
    rewrite (split_sign_plain _ Hp).
    rewrite (group_digits_plain_nonempty _ Hp Hn). simpl. by rewrite Ht.
Qed.

(** [int(f'{z:d}') == z]. *)
Lemma int_str_of_int z : Py.int (Py.str_of_int z) = Ok z.
Proof.
  rewrite <- (DecimalZ.of_to z) at 2.
  unfold Py.str_of_int. destruct z as [|p|p]; [done| |].
  - simpl Z.to_int. pose proof (DecimalPos.Unsigned.to_uint_nonnil p) as Hp.
    unfold DecimalString.NilZero.string_of_int,
      DecimalString.NilZero.string_of_uint.
    destruct (Pos.to_uint p) eqn:E; try done;
      rewrite <- E in *; apply (int_of_digits false _ Hp).
  - simpl Z.to_int. pose proof (DecimalPos.Unsigned.to_uint_nonnil p) as Hp.
    unfold DecimalString.NilZero.string_of_int,
      DecimalString.NilZero.string_of_uint.
    destruct (Pos.to_uint p) eqn:E; try done;
      rewrite <- E in *; apply (int_of_digits true _ Hp).
Qed.

(** [int('0x' + digits, 16)] for a run of lower-case hexadecimal digits. *)
Lemma int16_of_digits d :
  d <> Hexadecimal.Nil ->
  Py.int16 ("0x" +:+ HexadecimalString.NilEmpty.string_of_uint d)
  = Ok (Z.of_hex_int (Hexadecimal.Pos d)).
Proof.
  intros Hd. pose proof (hex_digits_plain d) as Hp.
  pose proof (hex_digits_nonempty d Hd) as Hn.
  set (t := HexadecimalString.NilEmpty.string_of_uint d) in *.
  assert (Ht : HexadecimalString.NilEmpty.uint_of_string t = Some d)
    by apply HexadecimalString.NilEmpty.usu.
  unfold Py.int16. change ("0x" +:+ t) with (String "0" (String "x" t)).
  rewrite (strip_no_space (String "0" (String "x" t))).
  2:{ simpl. by apply plain_no_space. }
  cbn [Py.split_sign Ascii.eqb Bool.eqb].
  rewrite (drop_hex_prefix_plain _ Hp).
  rewrite (group_digits_plain_nonempty _ Hp Hn). simpl.
  by rewrite (lower_hex_plain _ Hp), Ht.
Qed.

(** [int(f'0x{z:x}', 16) == z] for a non-negative [z]. *)
Lemma int16_hex_of_int z :
  0 <= z -> Py.int16 ("0x" +:+ Py.hex_of_int z) = Ok z.
Proof.
  intros Hz. rewrite <- (HexadecimalZ.of_to z) at 2.
  unfold Py.hex_of_int. destruct z as [|p|p]; [done| |lia].
  simpl Z.to_hex_int.
  pose proof (HexadecimalPos.Unsigned.to_uint_nonnil p) as Hp.
  unfold HexadecimalString.NilZero.string_of_int,
    HexadecimalString.NilZero.string_of_uint.
  destruct (Pos.to_hex_uint p) eqn:E; try done;
    rewrite <- E in *; apply (int16_of_digits _ Hp).
Qed.

(** [f'0x{z:x}'] of a negative [z] is [0x-...], which [int(_, 16)]
    refuses: the sign has to come before the prefix. *)
Lemma int16_hex_of_negative z :
  z < 0 -> Py.int16 ("0x" +:+ Py.hex_of_int z) = Raise ValueError.
Proof.
  intros Hz. destruct z as [|p|p]; [lia|lia|].
  unfold Py.hex_of_int. simpl Z.to_hex_int.
  unfold HexadecimalString.NilZero.string_of_int, Py.int16.
  set (t := HexadecimalString.NilZero.string_of_uint (Pos.to_hex_uint p)).
  assert (Hsp : string_forall (fun c => negb (Py.is_space c)) t = true).
  { unfold t, HexadecimalString.NilZero.string_of_uint.
    destruct (Pos.to_hex_uint p) eqn:E; try done;
      rewrite <- E; apply plain_no_space, hex_digits_plain. }
  change ("0x" +:+ String "-" t) with (String "0" (String "x" (String "-" t))).
  rewrite (strip_no_space (String "0" (String "x" (String "-" t)))).
  2:{ simpl. done. }
  cbn. destruct (Py.group_digits true t) as [u|]; [|done]. cbn.
  by destruct (HexadecimalString.NilEmpty.uint_of_string _).
Qed.

End IntText.

Example decimal_examples :
  decimal_of_str "75197.0" = Some {| mantissa := 751970; places := 1 |}
  /\ str_of_decimal {| mantissa := 751970; places := 1 |} = "75197.0"
  /\ str_of_decimal {| mantissa := -5; places := 2 |} = "-0.05"
  /\ str_of_decimal (decimal_of_int 3) = "3.0".
Proof. repeat split; vm_compute; reflexivity. Qed.

(** ** What the reader makes of a formatted integer *)

Section ConvertText.
Context `{PyFloat}.

Definition is_dec_char (c : ascii) : bool :=
  Ascii.eqb c "-" || ((48 <=? nat_of_ascii c) && (nat_of_ascii c <=? 57))%nat.

Lemma dec_digits_dec_chars d :
  string_forall is_dec_char (DecimalString.NilEmpty.string_of_uint d) = true.
Proof. induction d; simpl; try done; by rewrite IHd. Qed.

Lemma str_of_int_dec_chars z :
  string_forall is_dec_char (Py.str_of_int z) = true.
Proof.
  unfold Py.str_of_int, DecimalString.NilZero.string_of_int,
    DecimalString.NilZero.string_of_uint.
  destruct (Z.to_int z) as [d|d].
  - destruct d eqn:E; try done; rewrite <- E; apply dec_digits_dec_chars.
  - destruct d eqn:E; try done; rewrite <- E; cbn [string_forall];
      by rewrite dec_digits_dec_chars.
Qed.

Lemma dec_chars_no_0x s :
  string_forall is_dec_char s = true -> Py.startswith s "0x" = false.
Proof.
  unfold Py.startswith.
  destruct s as [|c [|c' s]]; cbn [String.prefix string_forall]; try done.
  - by destruct (ascii_dec "0" c).
  - intros [_ [Hc' _]%andb_true_iff]%andb_true_iff.
    destruct (ascii_dec "0" c); [|done].
    destruct (ascii_dec "x" c') as [<-|]; done.
Qed.

Lemma dec_chars_no_point s :
  string_forall is_dec_char s = true -> Py.contains_char "." s = false.
Proof.
  induction s as [|c s IH]; cbn [Py.contains_char string_forall]; [done|].
  intros [Hc Hs]%andb_true_iff. rewrite (IH Hs), orb_false_r.
  apply Ascii.eqb_neq. intros <-. discriminate Hc.
Qed.

(** A decimal integer attribute is read as that integer. *)
Lemma convert_decimal z :
  IndexXML._rle_convert_datum_or_stride (Py.str_of_int z) = Ok (Int z).
Proof.
  unfold IndexXML._rle_convert_datum_or_stride.
  pose proof (str_of_int_dec_chars z) as Hz.
  rewrite (dec_chars_no_0x _ Hz), (dec_chars_no_point _ Hz).
  by rewrite int_str_of_int.
Qed.

(** A [0x]-prefixed attribute is read as the non-negative integer it
    spells. *)
Lemma convert_hexadecimal z :
  0 <= z ->
  IndexXML._rle_convert_datum_or_stride ("0x" +:+ Py.hex_of_int z) = Ok (Int z).
Proof.
  intros Hz. unfold IndexXML._rle_convert_datum_or_stride.
  change ("0x" +:+ Py.hex_of_int z)
    with (String "0" (String "x" (Py.hex_of_int z))) at 1.
  replace (Py.startswith _ "0x") with true.
  2:{ unfold Py.startswith. cbn [String.prefix].
      destruct (ascii_dec "0" "0"); [|done].
      destruct (ascii_dec "x" "x"); [|done]. by destruct (Py.hex_of_int z). }
  by rewrite (int16_hex_of_int z Hz).
Qed.

(** The negative case of [f'0x{z:x}'] is refused by the reader. *)
Lemma convert_hexadecimal_negative z :
  z < 0 ->
  IndexXML._rle_convert_datum_or_stride ("0x" +:+ Py.hex_of_int z)
  = Raise ValueError.
Proof.
  intros Hz. unfold IndexXML._rle_convert_datum_or_stride.
  change ("0x" +:+ Py.hex_of_int z)
    with (String "0" (String "x" (Py.hex_of_int z))) at 1.
  replace (Py.startswith _ "0x") with true.
  2:{ unfold Py.startswith. cbn [String.prefix].
      destruct (ascii_dec "0" "0"); [|done].
      destruct (ascii_dec "x" "x"); [|done]. by destruct (Py.hex_of_int z). }
  by rewrite (int16_hex_of_negative z Hz).
Qed.

End ConvertText.

(** ** Writing an RLE block and reading it back *)

(** Looks an attribute up in a dictionary display. *)
Ltac lookup_attrib :=
  repeat first [ rewrite lookup_insert_eq
               | rewrite lookup_insert_ne by done
               | rewrite lookup_singleton_eq
               | rewrite lookup_singleton_ne by done
               | rewrite lookup_empty ].

Lemma mapR_cons {A B} (f : A -> result B) x l :
  mapR f (x :: l) = (y ← f x; ys ← mapR f l; mret (y :: ys)).
Proof. reflexivity. Qed.

Section RleXml.
Context `{PyFloat}.
Import xml.

Definition item_is_int (it : Rle.RLEItem) : bool :=
  is_Int (Rle.datum it) && is_Int (Rle.stride it) && is_Int (Rle.repeat it).

Definition number_nonneg (a : number) : bool :=
  match a with
  | Int z => 0 <=? z
  | Float _ => false
  end.

Definition item_hex_ok (it : Rle.RLEItem) : bool :=
  number_nonneg (Rle.datum it) && number_nonneg (Rle.stride it).

(** [element.attrib[key] = value] *)
Definition set_attrib (element : Element) (key value : string) : Element :=
  mkElement (tag element) (<[key := value]> (attrib element))
    (children element).

Lemma mapR_Ok_length {A B} (f : A -> result B) l l' :
  mapR f l = Ok l' -> length l' = length l.
Proof.
  revert l'. induction l as [|x l IH]; intros l'; simpl.
  - by intros [= <-].
  - destruct (f x); [|done]. simpl. destruct (mapR f l); [|done].
    simpl. intros [= <-]. simpl. f_equal. by apply IH.
Qed.

Lemma iterfind_children t name attrs es :
  Forall (fun e => tag e = t) es ->
  iterfind [t] (mkElement name attrs es) = es.
Proof.
  intros Hes. simpl. induction Hes as [|e es He Hes IH]; [done|].
  rewrite filter_cons_True by done. simpl. by rewrite IH.
Qed.

Lemma sum_int_items items a :
  forallb item_is_int items = true ->
  exists n, fold_left py_add (map Rle.item_num_values items) (Int a) = Int n.
Proof.
  revert a. induction items as [|it items IH]; intros a; simpl.
  - by exists a.
  - intros [Hit Hitems]%andb_true_iff.
    destruct it as [[d|d] [s|s] [r|r]]; try discriminate Hit.
    apply (IH _ Hitems).
Qed.

Lemma num_values_int rle :
  forallb item_is_int (Rle.rle_items rle) = true ->
  exists n, Rle.num_values rle = Int n.
Proof. apply sum_int_items. Qed.

Lemma item_from_attributes d s r a b c :
  IndexXML._rle_convert_datum_or_stride d = Ok a ->
  IndexXML._rle_convert_datum_or_stride s = Ok b ->
  IndexXML._rle_convert_datum_or_stride r = Ok c ->
  IndexXML.rle_item_from_XML
    (mkElement "RLE" {[ "datum" := d; "stride" := s; "repeat" := r ]} [])
  = Ok {| Rle.datum := a; Rle.stride := b; Rle.repeat := c |}.
Proof.
  intros Hd Hs Hr. unfold IndexXML.rle_item_from_XML, get.
  cbn [attrib]. lookup_attrib. cbn [mbind result_bind].
  rewrite Hd. cbn [mbind result_bind]. rewrite Hr. cbn [mbind result_bind].
  by rewrite Hs.
Qed.

Lemma item_write_read hex it :
  item_is_int it = true ->
  (hex = true -> item_hex_ok it = true) ->
  exists e, IndexXML.rle_item_to_XML hex it = Ok e /\ tag e = "RLE"
            /\ IndexXML.rle_item_from_XML e = Ok it.
Proof.
  destruct it as [[d|d] [s|s] [r|r]]; try (intros Hit; discriminate Hit).
  intros _ Hhex. unfold IndexXML.rle_item_to_XML.
  destruct hex; cbn [Rle.datum Rle.stride Rle.repeat format_0x format_d
                     format_number mbind result_bind mret result_ret].
  - pose proof (Hhex eq_refl) as Hh.
    apply andb_true_iff in Hh as [Hd Hs].
    apply Z.leb_le in Hd. apply Z.leb_le in Hs.
    eexists; split; [done|]. split; [done|].
    apply item_from_attributes;
      auto using convert_hexadecimal, convert_decimal.
  - eexists; split; [done|]. split; [done|].
    apply item_from_attributes; apply convert_decimal.
Qed.

Lemma items_write_read hex items :
  forallb item_is_int items = true ->
  (hex = true -> forallb item_hex_ok items = true) ->
  exists es, mapR (IndexXML.rle_item_to_XML hex) items = Ok es
             /\ Forall (fun e => tag e = "RLE") es
             /\ mapR IndexXML.rle_item_from_XML es = Ok items.
Proof.
  induction items as [|it items IH]; simpl.
  - intros _ _. by exists [].
  - intros [Hit Hitems]%andb_true_iff Hhex.
    destruct (item_write_read hex it Hit) as (e & -> & He & Hread).
    { intros Hh. specialize (Hhex Hh). simpl in Hhex.
      by apply andb_true_iff in Hhex as [? _]. }
    destruct (IH Hitems) as (es & -> & Hes & Hreads).
    { intros Hh. specialize (Hhex Hh). simpl in Hhex.
      by apply andb_true_iff in Hhex as [_ ?]. }
    exists (e :: es). simpl. split; [done|]. split; [by constructor|].
    by rewrite Hread, Hreads.
Qed.

Lemma child_read element_rle it :
  child_reads_as element_rle it -> IndexXML.rle_item_from_XML element_rle = Ok it.
Proof.
  intros (Hd & Hr & Hs). unfold IndexXML.rle_item_from_XML.
  rewrite Hd. cbn [mbind result_bind]. rewrite Hr. cbn [mbind result_bind].
  rewrite Hs. cbn [mbind result_bind mret result_ret]. by destruct it.
Qed.

Lemma children_read element_rles items :
  Forall2 child_reads_as element_rles items ->
  mapR IndexXML.rle_item_from_XML element_rles = Ok items.
Proof.
  induction 1 as [|e it es its He Hall IH]; [done|].
  rewrite mapR_cons, (child_read _ _ He). cbn [mbind result_bind].
  by rewrite IH.
Qed.

Lemma sum_int_repeats items repeats a :
  map Rle.repeat items = map Int repeats ->
  fold_left py_add (map Rle.item_num_values items) (Int a)
  = Int (a + sum_repeats repeats).
Proof.
  revert repeats a. induction items as [|it items IH];
    intros [|r repeats] a; try discriminate.
  - intros _. cbn. f_equal. lia.
  - cbn [map]. intros [= Hr Hrs]. cbn [fold_left].
    replace (py_add (Int a) (Rle.item_num_values it)) with (Int (a + (r + 1)))
      by (unfold Rle.item_num_values; by rewrite Hr).
    rewrite (IH _ _ Hrs). cbn [sum_repeats fold_right]. f_equal.
    fold (sum_repeats repeats). lia.
Qed.

End RleXml.

Section RleXmlClaims.
Context `{PyFloat}.
Import xml.

(** C5 (amended).  For every RLE whose items all have an integer datum,
    stride and repeat, and, when [hex_output] is set, a datum and a stride
    that are not negative, [xml_rle_read] parses the element emitted by
    [xml_rle_write] and yields the very same RLE: the same ordered items,
    hence the same [num_values()] and the same item count.  The reader takes
    the [datum], [stride] and [repeat] of an item in decimal form and, for a
    non-negative integer, in [0x]-prefixed hexadecimal form. *)
Theorem xml_rle_write_read rle element_name hex_output :
  forallb item_is_int (Rle.rle_items rle) = true ->
  (hex_output = true -> forallb item_hex_ok (Rle.rle_items rle) = true) ->
  (exists element,
     IndexXML.xml_rle_write rle element_name hex_output = Ok element
     /\ IndexXML.xml_rle_read element = Ok rle)
  /\ (forall z,
        IndexXML._rle_convert_datum_or_stride (Py.str_of_int z) = Ok (Int z))
  /\ (forall z, 0 <= z ->
        IndexXML._rle_convert_datum_or_stride ("0x" +:+ Py.hex_of_int z)
        = Ok (Int z)).
Proof.
  intros Hint Hhex.
  split; [|split; [apply convert_decimal|apply convert_hexadecimal]].
  destruct rle as [items]. cbn [Rle.rle_items] in *.
  destruct (num_values_int {| Rle.rle_items := items |} Hint) as [n Hn].
  destruct (items_write_read hex_output items Hint Hhex)
    as (es & Hwrite & Htags & Hread).
  unfold IndexXML.xml_rle_write. rewrite Hn.
  cbn [format_d mbind result_bind Rle.rle_items]. rewrite Hwrite.
  cbn [mbind result_bind mret result_ret].
  eexists. split; [reflexivity|].
  unfold IndexXML.xml_rle_read.
  rewrite (iterfind_children _ _ _ _ Htags), Hread.
  cbn [mbind result_bind]. unfold get. cbn [attrib]. lookup_attrib.
  cbn [mbind result_bind]. rewrite int_str_of_int.
  cbn [mbind result_bind]. rewrite Hn. cbn [py_eqb].
  rewrite Z.eqb_refl. cbn [negb]. lookup_attrib.
  cbn [mbind result_bind]. rewrite int_str_of_int.
  cbn [mbind result_bind]. unfold Rle.len. cbn [Rle.rle_items].
  by rewrite Z.eqb_refl.
Qed.

(** C3 (amended).  For an element whose [RLE] children each carry a
    [datum], a [repeat] and a [stride] attribute that convert to numbers,
    and whose [count] and [rle_len] attributes are integers in decimal,
    [xml_rle_read] fails with the count-mismatch error exactly when [count]
    differs from the sum of [repeat + 1] over the children or [rle_len]
    differs from the number of children; when both agree it returns the RLE
    whose items are the children's data, strides and repeat counts.
    Replacing the [count] attribute by a text that does not spell the
    number of values makes the read fail. *)
Theorem xml_rle_read_count_check element items count rle_len :
  Forall2 child_reads_as (iterfind ["RLE"] element) items ->
  (get element "count" ≫= Py.int) = Ok count ->
  (get element "rle_len" ≫= Py.int) = Ok rle_len ->
  let rle := {| Rle.rle_items := items |} in
  ((exists why,
      IndexXML.xml_rle_read element = Raise (ExceptionIndexXMLRead why))
   <-> (py_eqb (Int count) (Rle.num_values rle) = false
        \/ rle_len <> Z.of_nat (length (iterfind ["RLE"] element))))
  /\ (forall repeats,
        map Rle.repeat items = map Int repeats ->
        Rle.num_values rle = Int (sum_repeats repeats)
        /\ ((exists why,
               IndexXML.xml_rle_read element
               = Raise (ExceptionIndexXMLRead why))
            <-> (count <> sum_repeats repeats
                 \/ rle_len
                    <> Z.of_nat (length (iterfind ["RLE"] element)))))
  /\ (py_eqb (Int count) (Rle.num_values rle) = true ->
      rle_len = Z.of_nat (length (iterfind ["RLE"] element)) ->
      IndexXML.xml_rle_read element = Ok rle)
  /\ (forall s,
        (forall c, Py.int s = Ok c ->
                   py_eqb (Int c) (Rle.num_values rle) = false) ->
        raises (IndexXML.xml_rle_read (set_attrib element "count" s))).
Proof.
  intros Hchildren Hcount Hlen rle.
  pose proof (children_read _ _ Hchildren) as Hitems.
  assert (length (iterfind ["RLE"] element) = Rle.len rle) as Hnumber.
  { symmetry. exact (mapR_Ok_length _ _ _ Hitems). }
  rewrite Hnumber.
  assert (Hread : IndexXML.xml_rle_read element =
            if negb (py_eqb (Int count) (Rle.num_values rle)) then
              Raise (ExceptionIndexXMLRead (Expected_RLE_count count))
            else if negb (Z.eqb rle_len (Z.of_nat (Rle.len rle))) then
              Raise (ExceptionIndexXMLRead
                       (Expected_RLE_len rle_len (Rle.len rle)))
            else Ok rle).
  { unfold IndexXML.xml_rle_read. rewrite Hitems. cbn [mbind result_bind].
    rewrite Hcount. cbn [mbind result_bind].
    destruct (py_eqb (Int count) _); [|done].
    cbn [negb]. by rewrite Hlen. }
  assert (Hiff : (exists why,
                    IndexXML.xml_rle_read element
                    = Raise (ExceptionIndexXMLRead why))
                 <-> (py_eqb (Int count) (Rle.num_values rle) = false
                      \/ rle_len <> Z.of_nat (Rle.len rle))).
  { rewrite Hread. destruct (py_eqb (Int count) (Rle.num_values rle)).
    + cbn [negb]. destruct (Z.eqb_spec rle_len (Z.of_nat (Rle.len rle))).
      * cbn [negb]. split; [by intros [why [=]]|]. intros [?|?]; done.
      * cbn [negb]. split; [by right|]. intros _. by eexists.
    + cbn [negb]. split; [by left|]. intros _. by eexists. }
  split; [exact Hiff|]. split; [|split].
  - intros repeats Hrepeats.
    assert (Rle.num_values rle = Int (sum_repeats repeats)) as Hsum.
    { unfold Rle.num_values, rle. cbn [Rle.rle_items].
      by rewrite (sum_int_repeats _ _ 0 Hrepeats). }
    split; [exact Hsum|]. rewrite Hiff, Hsum. cbn [py_eqb].
    by rewrite Z.eqb_neq.
  - intros Heq ->. rewrite Hread, Heq. cbn [negb]. by rewrite Z.eqb_refl.
  - intros s Hs. unfold IndexXML.xml_rle_read, set_attrib.
    change (iterfind ["RLE"] (mkElement _ _ (children element)))
      with (iterfind ["RLE"] element).
    rewrite Hitems. cbn [mbind result_bind]. unfold get. cbn [attrib].
    rewrite lookup_insert_eq. cbn [mbind result_bind].
    destruct (Py.int s) as [c|e] eqn:Hc; [|by exists e].
    cbn [mbind result_bind]. fold rle. rewrite (Hs c eq_refl). cbn [negb].
    by eexists.
Qed.

End RleXmlClaims.

Lemma xml_rle_write_read_witness :
  forallb item_is_int (Rle.rle_items Examples.visible_records_rle) = true
  /\ forallb item_hex_ok (Rle.rle_items Examples.visible_records_rle) = true
  /\ exists element,
       IndexXML.xml_rle_write Examples.visible_records_rle
         "VisibleRecords" true = Ok element
       /\ IndexXML.xml_rle_read element = Ok Examples.visible_records_rle.
Proof.
  split; [reflexivity|]. split; [reflexivity|].
  apply (xml_rle_write_read Examples.visible_records_rle "VisibleRecords" true);
    [reflexivity | intros _; reflexivity].
Defined.

(** C5, as stated, fails: the hexadecimal form of a negative integer is
    written [0x-5] and the reader refuses it; and the [count] attribute of
    the block is read in decimal only. *)
Lemma xml_rle_write_read_counterexample :
  forallb item_is_int (Rle.rle_items Examples.negative_rle) = true
  /\ (IndexXML.xml_rle_write Examples.negative_rle "LRSH" true
      ≫= IndexXML.xml_rle_read) = Raise ValueError
  /\ IndexXML.xml_rle_read Examples.visible_records_node
     = Ok Examples.visible_records_rle
  /\ IndexXML.xml_rle_read Examples.visible_records_hex_count
     = Raise ValueError.
Proof.
  split; [reflexivity|]. split; [reflexivity|]. split; reflexivity.
Qed.

(** C3, as stated, fails: a block whose [count] is written [0x7] declares
    the seven values its child expands to and the one item it has, yet the
    read neither returns the RLE nor fails with the count-mismatch error:
    [int] refuses the prefix.  The same holds of the block whose [rle_len]
    is written [0x1]. *)
Lemma xml_rle_read_count_check_counterexample :
  (IndexXML.xml_integer_attribute_read Examples.visible_records_hex_count
     "count" = Ok 7
   /\ mapR IndexXML.rle_item_from_XML
        (xml.iterfind ["RLE"] Examples.visible_records_hex_count)
      = Ok (Rle.rle_items Examples.visible_records_rle)
   /\ Rle.num_values Examples.visible_records_rle = Int 7
   /\ IndexXML.xml_integer_attribute_read Examples.visible_records_hex_count
        "rle_len" = Ok 1
   /\ length (xml.iterfind ["RLE"] Examples.visible_records_hex_count)
      = 1%nat
   /\ IndexXML.xml_rle_read Examples.visible_records_hex_count
      = Raise ValueError)
  /\ (IndexXML.xml_integer_attribute_read Examples.visible_records_hex_len
        "count" = Ok 7
      /\ mapR IndexXML.rle_item_from_XML
           (xml.iterfind ["RLE"] Examples.visible_records_hex_len)
         = Ok (Rle.rle_items Examples.visible_records_rle)
      /\ IndexXML.xml_integer_attribute_read Examples.visible_records_hex_len
           "rle_len" = Ok 1
      /\ length (xml.iterfind ["RLE"] Examples.visible_records_hex_len)
         = 1%nat
      /\ IndexXML.xml_rle_read Examples.visible_records_hex_len
         = Raise ValueError).
Proof. repeat split; reflexivity. Qed.

Lemma xml_rle_read_count_check_witness :
  Forall2 child_reads_as
    (xml.iterfind ["RLE"] Examples.visible_records_node)
    (Rle.rle_items Examples.visible_records_rle)
  /\ (xml.get Examples.visible_records_node "count" ≫= Py.int) = Ok 7
  /\ (xml.get Examples.visible_records_node "rle_len" ≫= Py.int) = Ok 1
  /\ sum_repeats [6] = 7
  /\ IndexXML.xml_rle_read Examples.visible_records_node
     = Ok Examples.visible_records_rle
  /\ raises (IndexXML.xml_rle_read
               (set_attrib Examples.visible_records_node "count" "8")).
Proof.
  assert (H1 : Forall2 child_reads_as
                 (xml.iterfind ["RLE"] Examples.visible_records_node)
                 (Rle.rle_items Examples.visible_records_rle)).
  { constructor; [|constructor].
    split; [reflexivity|]. split; reflexivity. }
  assert (H2 : (xml.get Examples.visible_records_node "count" ≫= Py.int)
               = Ok 7) by reflexivity.
  assert (H3 : (xml.get Examples.visible_records_node "rle_len" ≫= Py.int)
               = Ok 1) by reflexivity.
  destruct (xml_rle_read_count_check Examples.visible_records_node
              _ 7 1 H1 H2 H3) as (_ & _ & Hok & Hmut).
  split; [exact H1|]. split; [exact H2|]. split; [exact H3|].
  split; [reflexivity|]. split.
  - exact (Hok eq_refl eq_refl).
  - apply Hmut. intros c Hc.
    change (Py.int "8") with (Ok 8) in Hc. injection Hc as <-.
    reflexivity.
Defined.

(** ** The IFLR side table read from a [FrameArray] element *)

Section IflrData.
Context `{PyFloat}.
Import xml.

(** The repeat count of the item is an integer that is not negative. *)
Definition item_repeat_ok (it : Rle.RLEItem) : bool :=
  number_nonneg (Rle.repeat it).

Lemma len_set_four c a b d :
  Nat.eqb (len_set [c; a; b; d]) 1 = py_eqb a c && py_eqb b c && py_eqb d c.
Proof.
  unfold len_set, set_add. cbn [fold_left existsb app].
  destruct (py_eqb a c); cbn [orb app existsb andb].
  - destruct (py_eqb b c); cbn [orb app existsb andb].
    + by destruct (py_eqb d c).
    + by destruct (py_eqb d c), (py_eqb d b).
  - destruct (py_eqb b c), (py_eqb b a); cbn [orb app existsb andb];
      destruct (py_eqb d c), (py_eqb d a); try done;
      cbn [orb app existsb andb length]; by destruct (py_eqb d b).
Qed.

Lemma run_length v step n : length (Rle.run v step n) = n.
Proof. revert v. induction n as [|n IH]; intros v; simpl; [done|]. by rewrite IH. Qed.

Lemma values_count_from items a :
  forallb item_repeat_ok items = true ->
  exists vss,
    mapR Rle.item_values items = Ok vss
    /\ fold_left py_add (map Rle.item_num_values items) (Int a)
       = Int (a + Z.of_nat (length (List.concat vss))).
Proof.
  revert a. induction items as [|it items IH]; intros a;
    cbn [forallb map fold_left mapR].
  - intros _. exists []. cbn. split; [done|]. f_equal. lia.
  - intros [Hit Hitems]%andb_true_iff.
    destruct it as [d s [r|r]]; [|discriminate Hit].
    apply Z.leb_le in Hit.
    destruct (IH (a + (r + 1)) Hitems) as (vss & Hvss & Hsum).
    change (Rle.item_values
              {| Rle.datum := d; Rle.stride := s; Rle.repeat := Int r |})
      with (Ok (Rle.run d s (Z.to_nat (r + 1)))).
    cbn [mbind result_bind]. rewrite Hvss.
    cbn [mbind result_bind mret result_ret].
    eexists. split; [reflexivity|].
    change (Rle.item_num_values
              {| Rle.datum := d; Rle.stride := s; Rle.repeat := Int r |})
      with (Int (r + 1)).
    cbn [py_add]. rewrite Hsum. f_equal. cbn [List.concat].
    rewrite length_app, run_length. lia.
Qed.

(** With repeat counts that are not negative, [values()] yields
    [num_values()] values. *)
Lemma values_count rle :
  forallb item_repeat_ok (Rle.rle_items rle) = true ->
  exists vs, Rle.values rle = Ok vs
             /\ Rle.num_values rle = Int (Z.of_nat (length vs)).
Proof.
  intros Hrle. destruct (values_count_from _ 0 Hrle) as (vss & Hvss & Hsum).
  unfold Rle.values, Rle.num_values. rewrite Hvss, Hsum.
  eexists. split; [reflexivity|]. f_equal.
Qed.

Lemma zip3_length {A B} (f : A -> A -> A -> B) a b c :
  length b = length a -> length c = length a ->
  length (zip3 f a b c) = length a.
Proof.
  revert b c. induction a as [|x a IH]; intros [|y b] [|z c]; simpl; try done.
  intros [= Hb] [= Hc]. by rewrite IH.
Qed.

Variable IFLRReference : Type.
Variable new_IFLRReference : number -> number -> number -> IFLRReference.

(** C4 (amended).  For an [IFLR] element whose three RLE blocks pass their
    own count checks and whose [count] attribute is an integer,
    [iflr_data_from_xml] fails with the mismatched-lengths error exactly
    when the [num_values()] of the three blocks and the declared [count] are
    not all equal.  When the four agree and no item has a negative or
    fractional repeat count, it returns a side table of exactly [count]
    entries. *)
Theorem iflr_data_from_xml_count_check frame_array_node iflr_node
    rle_lrsh rle_frames rle_xaxis count :
  IndexXML.xml_single_element frame_array_node ["IFLR"] = Ok iflr_node ->
  (IndexXML.xml_single_element iflr_node ["LRSH"] ≫= IndexXML.xml_rle_read)
  = Ok rle_lrsh ->
  (IndexXML.xml_single_element iflr_node ["FrameNumbers"]
     ≫= IndexXML.xml_rle_read) = Ok rle_frames ->
  (IndexXML.xml_single_element iflr_node ["Xaxis"] ≫= IndexXML.xml_rle_read)
  = Ok rle_xaxis ->
  (get iflr_node "count" ≫= Py.int) = Ok count ->
  let agree :=
    py_eqb (Rle.num_values rle_lrsh) (Int count)
    && py_eqb (Rle.num_values rle_frames) (Int count)
    && py_eqb (Rle.num_values rle_xaxis) (Int count) in
  (IndexXML.iflr_data_from_xml IFLRReference new_IFLRReference
     frame_array_node = Raise ExceptionFrameArrayInit
   <-> agree = false)
  /\ (agree = true ->
      forallb item_repeat_ok
        (Rle.rle_items rle_lrsh ++ Rle.rle_items rle_frames
         ++ Rle.rle_items rle_xaxis) = true ->
      exists iflr_data,
        IndexXML.iflr_data_from_xml IFLRReference new_IFLRReference
          frame_array_node = Ok (Ok iflr_data)
        /\ Z.of_nat (length iflr_data) = count).
Proof.
  intros Hiflr Hlrsh Hframes Hxaxis Hcount agree.
  unfold IndexXML.iflr_data_from_xml.
  rewrite Hiflr. cbn [mbind result_bind].
  rewrite Hlrsh. cbn [mbind result_bind].
  rewrite Hframes. cbn [mbind result_bind].
  rewrite Hxaxis. cbn [mbind result_bind].
  rewrite Hcount. cbn [mbind result_bind].
  rewrite len_set_four. fold agree. split.
  - destruct agree; cbn [negb]; split; done.
  - intros Hagree Hrepeat. rewrite Hagree. cbn [negb].
    rewrite !forallb_app in Hrepeat.
    apply andb_true_iff in Hrepeat as [Hr1 Hrepeat].
    apply andb_true_iff in Hrepeat as [Hr2 Hr3].
    destruct (values_count _ Hr1) as (v1 & Hv1 & Hn1).
    destruct (values_count _ Hr2) as (v2 & Hv2 & Hn2).
    destruct (values_count _ Hr3) as (v3 & Hv3 & Hn3).
    unfold agree in Hagree. rewrite Hn1, Hn2, Hn3 in Hagree.
    cbn [py_eqb] in Hagree.
    apply andb_true_iff in Hagree as [Hagree H3].
    apply andb_true_iff in Hagree as [H1 H2].
    apply Z.eqb_eq in H1. apply Z.eqb_eq in H2. apply Z.eqb_eq in H3.
    rewrite Hv1, Hv2, Hv3. cbn [mbind result_bind mret result_ret].
    eexists. split; [reflexivity|].
    rewrite zip3_length; lia.
Qed.

End IflrData.

Lemma iflr_data_from_xml_count_check_witness :
  IndexXML.xml_single_element ExampleNodes.frame_array_node ["IFLR"]
  = Ok ExampleNodes.iflr_node
  /\ exists iflr_data,
       IndexXML.iflr_data_from_xml
         LogPassXML.IFLRData LogPassXML.Build_IFLRData
         ExampleNodes.frame_array_node = Ok (Ok iflr_data)
       /\ Z.of_nat (length iflr_data) = 2.
Proof.
  split; [reflexivity|].
  refine (proj2 (iflr_data_from_xml_count_check
                   LogPassXML.IFLRData LogPassXML.Build_IFLRData
                   ExampleNodes.frame_array_node ExampleNodes.iflr_node
                   {| Rle.rle_items :=
                        [ {| Rle.datum := Int 5292; Rle.stride := Int 48;
                             Rle.repeat := Int 1 |} ] |}
                   {| Rle.rle_items :=
                        [ {| Rle.datum := Int 1; Rle.stride := Int 1;
                             Rle.repeat := Int 1 |} ] |}
                   {| Rle.rle_items :=
                        [ {| Rle.datum := Int 100; Rle.stride := Int 5;
                             Rle.repeat := Int 1 |} ] |}
                   2 _ _ _ _ _) _ _);
    reflexivity.
Defined.

(** C4, as stated, fails: three blocks that pass their own count checks
    with a [repeat] of [-2] each sum to [-1] value, the [IFLR] element
    declares [-1], so the four counts agree, and the side table returned has
    no entry. *)
Lemma iflr_data_from_xml_count_check_counterexample :
  let iflr :=
    xml.mkElement "IFLR" {[ "count" := "-1" ]}
      [ ExampleNodes.negative_block "FrameNumbers";
        ExampleNodes.negative_block "LRSH";
        ExampleNodes.negative_block "Xaxis" ] in
  IndexXML.xml_single_element ExampleNodes.negative_frame_array_node ["IFLR"]
  = Ok iflr
  /\ (Rle.num_values <$> IndexXML.xml_rle_read
                           (ExampleNodes.negative_block "LRSH")) = Ok (Int (-1))
  /\ (Rle.num_values <$> IndexXML.xml_rle_read
                           (ExampleNodes.negative_block "FrameNumbers"))
     = Ok (Int (-1))
  /\ (Rle.num_values <$> IndexXML.xml_rle_read
                           (ExampleNodes.negative_block "Xaxis"))
     = Ok (Int (-1))
  /\ (xml.get iflr "count" ≫= Py.int) = Ok (-1)
  /\ IndexXML.iflr_data_from_xml
       LogPassXML.IFLRData LogPassXML.Build_IFLRData
       ExampleNodes.negative_frame_array_node = Ok (Ok []).
Proof.
  split; [reflexivity|]. split; [reflexivity|]. split; [reflexivity|].
  split; [reflexivity|]. split; reflexivity.
Qed.

(** ** Frame arrays written and read back *)

(** C1 (code bug).  [LogPassXML.frame_array_from_XML] passes each tuple of
    [zip(LRSH, FrameNumbers, Xaxis)] to the positional constructor of
    [IFLRData], whose fields are [(frame_number, lrsh_position, x_axis)]:
    the side table [[IFLRData(frame_number=1, lrsh_position=0x14ac,
    x_axis=0)]] written by [frame_array_to_XML] is read back with
    [frame_number = 0x14ac] and [lrsh_position = 1]. *)
Theorem iflr_data_read_back_swapped :
  LogPassXML.frame_array_to_XML ExampleArrays.frame_array
    ExampleArrays.iflr_data = Ok WrittenNodes.logpass_frame_array_node
  /\ LogPassXML.frame_array_from_XML WrittenNodes.logpass_frame_array_node
     = Ok (WrittenNodes.frame_array_read_back,
           Ok [ {| LogPassXML.frame_number := Int 5292;
                   LogPassXML.lrsh_position := Int 1;
                   LogPassXML.x_axis := Int 0 |} ]).
Proof. split; reflexivity. Qed.

(** C2 (code bug).  [xml_object_name] puts the attribute strings ['11'] and
    ['0'] where the frame array written had the integers [11] and [0], and
    [frame_channel_from_XML] keeps only the [I] attribute, as a byte
    string, where the channel written had an [ObjectName]: neither identity
    read back equals the one written.  The long name, representation code,
    units and dimensions of the channel do come back unchanged. *)
Theorem frame_array_identity_not_read_back :
  IndexXML.frame_array_to_XML LogPassXML.IFLRData LogPassXML.frame_number
    (fun v => Ok (LogPassXML.lrsh_position v)) LogPassXML.x_axis
    ExampleArrays.frame_array ExampleArrays.iflr_data
  = Ok WrittenNodes.index_frame_array_node
  /\ (fst <$> IndexXML.frame_array_from_XML LogPassXML.IFLRData
                LogPassXML.Build_IFLRData WrittenNodes.index_frame_array_node)
     = Ok WrittenNodes.frame_array_read_back
  /\ LogPass.fa_ident WrittenNodes.frame_array_read_back
     <> LogPass.fa_ident ExampleArrays.frame_array
  /\ map LogPass.ident (LogPass.channels WrittenNodes.frame_array_read_back)
     <> map LogPass.ident (LogPass.channels ExampleArrays.frame_array)
  /\ map (fun c => (LogPass.long_name c, LogPass.rep_code c,
                    LogPass.units c, LogPass.dimensions c))
       (LogPass.channels WrittenNodes.frame_array_read_back)
     = map (fun c => (LogPass.long_name c, LogPass.rep_code c,
                      LogPass.units c, LogPass.dimensions c))
         (LogPass.channels ExampleArrays.frame_array).
Proof.
  split; [reflexivity|]. split; [reflexivity|].
  split; [discriminate|]. split; [discriminate|]. reflexivity.
Qed.

Section FrameArrayChannels.
Context `{PyFloat}.
Import xml.

Variable IFLRReference : Type.
Variable new_IFLRReference : number -> number -> number -> IFLRReference.
Variable ref_frame_number : IFLRReference -> number.
Variable ref_lrsh_position : IFLRReference -> result number.
Variable ref_x_axis : IFLRReference -> number.

(** C9.  [frame_array_to_XML] reads [channels[0]] whatever the frame array:
    for a frame array without channels it raises, and the exception is the
    [IndexError] of that access once the identifier and the description
    have been decoded.  [frame_array_from_XML] for its part accepts a
    [FrameArray] element that has no [Channel] child and returns a frame
    array without channels. *)
Theorem frame_array_to_XML_needs_a_channel :
  (forall frame_array iflr_data,
     LogPass.channels frame_array = [] ->
     raises (IndexXML.frame_array_to_XML IFLRReference ref_frame_number
               ref_lrsh_position ref_x_axis frame_array iflr_data)
     /\ (is_Ok (Py.decode_ascii (RepCode.I (LogPass.fa_ident frame_array)))
         = true ->
         is_Ok (Py.decode_ascii (LogPass.description frame_array)) = true ->
         IndexXML.frame_array_to_XML IFLRReference ref_frame_number
           ref_lrsh_position ref_x_axis frame_array iflr_data
         = Raise IndexError))
  /\ (forall frame_array_node ident description iflr_data,
        tag frame_array_node = "FrameArray" ->
        iterfind ["Channels"; "Channel"] frame_array_node = [] ->
        IndexXML.xml_object_name frame_array_node = Ok ident ->
        (get frame_array_node "description" ≫= Py.encode_ascii)
        = Ok description ->
        IndexXML.iflr_data_from_xml IFLRReference new_IFLRReference
          frame_array_node = Ok iflr_data ->
        IndexXML.frame_array_from_XML IFLRReference new_IFLRReference
          frame_array_node
        = Ok ({| LogPass.fa_ident := ident;
                 LogPass.description := description;
                 LogPass.channels := [] |}, iflr_data)).
Proof.
  split.
  - intros frame_array iflr_data Hchannels.
    unfold IndexXML.frame_array_to_XML, IndexXML.first_channel.
    rewrite Hchannels. cbn [lookup list_lookup].
    destruct (Py.decode_ascii (RepCode.I _)) as [I|e];
      cbn [mbind result_bind is_Ok]; [|split; [by exists e|done]].
    destruct (Py.decode_ascii (LogPass.description _)) as [d|e];
      cbn [mbind result_bind is_Ok]; [|split; [by exists e|done]].
    split; [by eexists|done].
  - intros node ident description iflr_data Htag Hchannels Hident Hdescr Hiflr.
    unfold IndexXML.frame_array_from_XML.
    rewrite Htag. cbn [String.eqb Ascii.eqb Bool.eqb negb].
    rewrite Hident. cbn [mbind result_bind].
    rewrite Hdescr. cbn [mbind result_bind].
    rewrite Hchannels. cbn [mapR mbind result_bind fold_left].
    rewrite Hiflr. done.
Qed.

End FrameArrayChannels.

Lemma frame_array_to_XML_needs_a_channel_witness :
  LogPass.channels ExampleArrays.empty_frame_array = []
  /\ IndexXML.frame_array_to_XML LogPassXML.IFLRData LogPassXML.frame_number
       (fun v => Ok (LogPassXML.lrsh_position v)) LogPassXML.x_axis
       ExampleArrays.empty_frame_array ExampleArrays.iflr_data
     = Raise IndexError
  /\ xml.tag ExampleNodes.frame_array_node = "FrameArray"
  /\ xml.iterfind ["Channels"; "Channel"] ExampleNodes.frame_array_node = []
  /\ exists frame_array iflr_data,
       IndexXML.frame_array_from_XML LogPassXML.IFLRData
         LogPassXML.Build_IFLRData ExampleNodes.frame_array_node
       = Ok (frame_array, iflr_data)
       /\ LogPass.channels frame_array = [].
Proof.
  pose proof (frame_array_to_XML_needs_a_channel
                LogPassXML.IFLRData LogPassXML.Build_IFLRData
                LogPassXML.frame_number
                (fun v => Ok (LogPassXML.lrsh_position v))
                LogPassXML.x_axis) as [Hwrite Hread].
  split; [reflexivity|]. split.
  - apply (Hwrite ExampleArrays.empty_frame_array ExampleArrays.iflr_data);
      reflexivity.
  - split; [reflexivity|]. split; [reflexivity|].
    do 2 eexists. split.
    + apply (Hread ExampleNodes.frame_array_node); reflexivity.
    + reflexivity.
Defined.

(** ** Reading the index back: calls of the environment *)

Lemma run_bind {A B} (m : io A) (f : A -> io B) t :
  run (m ≫= f) t
  = match run m t with
    | (Ok a, t') => run (f a) t'
    | (Raise e, t') => (Raise e, t')
    end.
Proof. reflexivity. Qed.

Lemma run_lift_bind {A B} (r : result A) (f : A -> io B) t :
  run (lift r ≫= f) t
  = match r with
    | Ok a => run (f a) t
    | Raise e => (Raise e, t)
    end.
Proof. rewrite run_bind. by destruct r. Qed.

(** A loop whose body leaves the calls as they are leaves them so. *)
Lemma for_each_silent {A B} (f : B -> A -> io B) l :
  (forall acc x t, (run (f acc x) t).2 = t) ->
  forall acc t, (run (for_each f l acc) t).2 = t.
Proof.
  intros Hf. induction l as [|x l IH]; intros acc t; [done|].
  cbn [for_each]. rewrite run_bind. specialize (Hf acc x t).
  destruct (run (f acc x) t) as [[acc'|e] t1]; cbn [snd] in Hf; subst t1;
    [apply IH|done].
Qed.

Lemma run_call_bind {A B} ev (outcome : list event -> result A)
    (f : A -> io B) t :
  run (call ev outcome ≫= f) t
  = match outcome t with
    | Ok a => run (f a) (t ++ [ev])%list
    | Raise e => (Raise e, (t ++ [ev])%list)
    end.
Proof. rewrite run_bind. cbn. by destruct (outcome t). Qed.

(** A loop that appends one result for each element it gets through
    returns, when it returns, one result for each element. *)
Lemma for_each_append_length {A B} (g : A -> io B) l :
  forall acc t r t',
    run (for_each (fun acc x => y ← g x; mret ((acc ++ [y])%list)) l acc) t
    = (Ok r, t') ->
    length r = (length acc + length l)%nat.
Proof.
  induction l as [|x l IH]; intros acc t r t'.
  - cbn. intros [= <- _]. lia.
  - cbn [for_each]. rewrite !run_bind.
    destruct (run (g x) t) as [[y|e] t1]; [|intros [=]].
    cbn [run mret io_ret]. intros Hrun%IH.
    rewrite Hrun, length_app. cbn. lia.
Qed.

(** A loop makes the calls its body makes. *)
Lemma for_each_events {A B} (P : event -> Prop) (f : B -> A -> io B) l :
  (forall acc x t r t',
     run (f acc x) t = (r, t') ->
     exists evs, t' = (t ++ evs)%list /\ Forall P evs) ->
  forall acc t r t',
    run (for_each f l acc) t = (r, t') ->
    exists evs, t' = (t ++ evs)%list /\ Forall P evs.
Proof.
  intros Hf. induction l as [|x l IH]; intros acc t r t'.
  - cbn. intros [= <- <-]. exists []. by rewrite app_nil_r.
  - cbn [for_each]. rewrite run_bind.
    destruct (run (f acc x) t) as [[acc'|e] t1] eqn:Hx;
      destruct (Hf _ _ _ _ _ Hx) as (evs1 & -> & Hevs1).
    + intros (evs2 & -> & Hevs2)%IH. exists (evs1 ++ evs2)%list.
      split; [by rewrite app_assoc|by apply Forall_app].
    + intros [= <- <-]. by exists evs1.
Qed.

Section ReadLogicalFile.
Context `{PyFloat}.
Import xml.

Variable IFLRReference : Type.
Variable new_IFLRReference : number -> number -> number -> IFLRReference.
Variable FileLogicalData : Type.
Variable file_logical_data : list event -> Z -> Z -> result FileLogicalData.
Variable EFLR : Type.
Variable ExplicitlyFormattedLogicalRecord : FileLogicalData -> result EFLR.
Variable LogicalFileState : Type.
Variable new_LogicalFile :
  FileLogicalData -> EFLR ->
  result (IndexXML.LogicalFile IFLRReference LogicalFileState).
Variable add_eflr :
  IndexXML.LogicalFile IFLRReference LogicalFileState ->
  FileLogicalData -> EFLR ->
  result (IndexXML.LogicalFile IFLRReference LogicalFileState).

Local Abbreviation read_logical_file_from_xml :=
  (IndexXML.read_logical_file_from_xml IFLRReference new_IFLRReference
     FileLogicalData file_logical_data EFLR ExplicitlyFormattedLogicalRecord
     LogicalFileState new_LogicalFile add_eflr).
Local Abbreviation read_eflr :=
  (IndexXML.read_eflr IFLRReference FileLogicalData file_logical_data EFLR
     ExplicitlyFormattedLogicalRecord LogicalFileState add_eflr).
Local Abbreviation read_frame_array :=
  (IndexXML.read_frame_array IFLRReference new_IFLRReference
     LogicalFileState).
Local Abbreviation get_file_logical_data :=
  (IndexXML.get_file_logical_data FileLogicalData file_logical_data).

Lemma run_get_file_logical_data eflr_node t :
  run (get_file_logical_data eflr_node) t
  = match eflr_position eflr_node with
    | Ok p => (file_logical_data t p.1 p.2, (t ++ [called_at p])%list)
    | Raise e => (Raise e, t)
    end.
Proof.
  unfold IndexXML.get_file_logical_data, eflr_position.
  rewrite run_lift_bind.
  destruct (IndexXML.xml_integer_attribute_read eflr_node "vr_position")
    as [vr|e]; [|done].
  rewrite run_lift_bind. cbn [mbind result_bind].
  by destruct (IndexXML.xml_integer_attribute_read eflr_node "lrsh_position").
Qed.

Lemma run_read_eflr logical_file eflr_node t :
  exists r,
    run (read_eflr logical_file eflr_node) t
    = match eflr_position eflr_node with
      | Ok p => (r, (t ++ [called_at p])%list)
      | Raise e => (Raise e, t)
      end.
Proof.
  unfold IndexXML.read_eflr. rewrite run_bind, run_get_file_logical_data.
  destruct (eflr_position eflr_node) as [p|e]; [|by exists (Raise e)].
  destruct (file_logical_data t p.1 p.2) as [fld|e]; [|by eexists].
  rewrite run_lift_bind.
  destruct (ExplicitlyFormattedLogicalRecord fld); by eexists.
Qed.

(** The loop over the [EFLR] elements calls [get_file_logical_data] at the
    positions of the elements it gets through, in their order. *)
Lemma run_read_eflrs eflr_nodes logical_file t r t' :
  run (for_each read_eflr eflr_nodes logical_file) t = (r, t') ->
  exists nodes_read rest positions,
    eflr_nodes = (nodes_read ++ rest)%list
    /\ mapR eflr_position nodes_read = Ok positions
    /\ t' = (t ++ map called_at positions)%list
    /\ (is_Ok r = true -> rest = []).
Proof.
  revert logical_file t.
  induction eflr_nodes as [|node nodes IH]; intros logical_file t.
  - cbn. intros [= <- <-]. exists [], [], [].
    split; [done|]. split; [done|]. split; [by rewrite app_nil_r|done].
  - cbn [for_each]. rewrite run_bind.
    destruct (run_read_eflr logical_file node t) as [r0 Hr0]. rewrite Hr0.
    destruct (eflr_position node) as [p|e] eqn:Hp.
    + destruct r0 as [logical_file'|e].
      * intros Hrun. destruct (IH _ _ Hrun)
          as (nodes_read & rest & ps & -> & Hps & -> & Hrest).
        exists (node :: nodes_read), rest, (p :: ps).
        split; [done|]. split; [cbn; by rewrite Hp, Hps|].
        split; [|done]. cbn. by rewrite <- app_assoc.
      * intros [= <- <-]. exists [node], nodes, [p].
        split; [done|]. split; [cbn; by rewrite Hp|]. by split.
    + intros [= <- <-]. exists [], (node :: nodes), [].
      split; [done|]. split; [done|]. split; [by rewrite app_nil_r|done].
Qed.

Lemma run_read_frame_array logical_file frame_array_node t :
  (run (read_frame_array logical_file frame_array_node) t).2 = t.
Proof.
  unfold IndexXML.read_frame_array. rewrite run_lift_bind.
  destruct (IndexXML.xml_object_name frame_array_node) as [name|e]; [|done].
  rewrite run_lift_bind.
  destruct (IndexXML.iflr_data_from_xml _ _ _) as [gen|e]; [|done].
  destruct (IndexXML.dict_in _ _); [done|].
  rewrite run_lift_bind. by destruct gen.
Qed.

(** The checks of [read_logical_file_from_xml] come before any call. *)
Lemma read_logical_file_refuses logical_file_node t :
  (length (iterfind ["EFLR"] logical_file_node) < 2)%nat
  \/ (exists eflr_node,
        iterfind ["EFLR"] logical_file_node !! 0%nat = Some eflr_node
        /\ get eflr_node "set_type" <> Ok "FILE-HEADER")
  \/ (exists eflr_node,
        iterfind ["EFLR"] logical_file_node !! 1%nat = Some eflr_node
        /\ get eflr_node "set_type" <> Ok "ORIGIN") ->
  exists e,
    run (read_logical_file_from_xml logical_file_node) t = (Raise e, t).
Proof.
  intros Hbad. unfold IndexXML.read_logical_file_from_xml.
  destruct (negb _); [by eexists|].
  destruct (iterfind ["EFLR"] logical_file_node) as [|e0 [|e1 nodes]];
    [by eexists|by eexists|].
  rewrite run_lift_bind.
  destruct (get e0 "set_type") as [s0|err] eqn:H0; [|by eexists].
  destruct (String.eqb_spec s0 "FILE-HEADER") as [->|Hs0];
    cbn [negb]; [|by eexists].
  rewrite run_lift_bind.
  destruct (get e1 "set_type") as [s1|err] eqn:H1; [|by eexists].
  destruct (String.eqb_spec s1 "ORIGIN") as [->|Hs1];
    cbn [negb]; [|by eexists].
  destruct Hbad as [Hlen|[(e & [= <-] & He)|(e & [= <-] & He)]].
  - cbn in Hlen. lia.
  - by rewrite H0 in He.
  - by rewrite H1 in He.
Qed.

(** X1.  [read_logical_file_from_xml] raises, without having called the
    binary file, when the element has fewer than two [EFLR] children, when
    the first of them does not carry [set_type="FILE-HEADER"] or the second
    not [set_type="ORIGIN"]. *)
Theorem read_logical_file_checks_before_reading logical_file_node t :
  (length (iterfind ["EFLR"] logical_file_node) < 2)%nat
  \/ (exists eflr_node,
        iterfind ["EFLR"] logical_file_node !! 0%nat = Some eflr_node
        /\ get eflr_node "set_type" <> Ok "FILE-HEADER")
  \/ (exists eflr_node,
        iterfind ["EFLR"] logical_file_node !! 1%nat = Some eflr_node
        /\ get eflr_node "set_type" <> Ok "ORIGIN") ->
  exists e,
    run (read_logical_file_from_xml logical_file_node) t = (Raise e, t).
Proof. apply read_logical_file_refuses. Qed.

(** The calls of [read_logical_file_from_xml] when it returns. *)
Lemma read_logical_file_calls logical_file_node t logical_file t' :
  run (read_logical_file_from_xml logical_file_node) t
  = (Ok logical_file, t') ->
  exists positions,
    mapR eflr_position (iterfind ["EFLR"] logical_file_node) = Ok positions
    /\ t' = (t ++ map called_at positions)%list.
Proof.
  unfold IndexXML.read_logical_file_from_xml.
  destruct (negb _); [done|].
  destruct (iterfind ["EFLR"] logical_file_node) as [|e0 [|e1 nodes]];
    [done|done|].
  rewrite run_lift_bind. destruct (get e0 "set_type") as [s0|]; [|done].
  destruct (negb _); [done|].
  rewrite run_lift_bind. destruct (get e1 "set_type") as [s1|]; [|done].
  destruct (negb _); [done|].
  rewrite run_bind, run_get_file_logical_data.
  destruct (eflr_position e0) as [p0|] eqn:Hp0; [|done].
  destruct (file_logical_data t p0.1 p0.2) as [fld|]; [|done].
  rewrite run_lift_bind.
  destruct (ExplicitlyFormattedLogicalRecord fld) as [eflr|]; [|done].
  rewrite run_lift_bind.
  destruct (new_LogicalFile fld eflr) as [lf0|]; [|done].
  rewrite run_bind.
  destruct (run (for_each read_eflr (e1 :: nodes) lf0) _)
    as [[lf1|] t1] eqn:Hloop; [|done].
  destruct (run_read_eflrs _ _ _ _ _ Hloop)
    as (nodes_read & rest & ps & Hnodes & Hps & -> & Hrest).
  rewrite (Hrest eq_refl), app_nil_r in Hnodes. subst nodes_read.
  intros Hframes.
  pose proof (for_each_silent read_frame_array
                (iterfind ["LogPass"; "FrameArray"] logical_file_node)
                run_read_frame_array lf1
                ((t ++ [called_at p0]) ++ map called_at ps)%list) as Ht.
  rewrite Hframes in Ht. cbn [snd] in Ht. subst t'.
  exists (p0 :: ps). split.
  - rewrite mapR_cons, Hp0. cbn [mbind result_bind].
    by rewrite Hps.
  - cbn [map]. by rewrite <- app_assoc.
Qed.

(** X2.  When [read_logical_file_from_xml] returns, it has called
    [get_file_logical_data] once for each [EFLR] child of the element, in
    document order, at the [vr_position] and [lrsh_position] the child
    records, and has made no other call. *)
Theorem read_logical_file_reads_each_eflr logical_file_node t logical_file t' :
  run (read_logical_file_from_xml logical_file_node) t
  = (Ok logical_file, t') ->
  exists positions,
    mapR eflr_position (iterfind ["EFLR"] logical_file_node) = Ok positions
    /\ t' = (t ++ map called_at positions)%list.
Proof. apply read_logical_file_calls. Qed.

Lemma dict_in_set {V} key key' (value : V) d :
  IndexXML.dict_in key (IndexXML.dict_set key' value d) = true
  <-> key = key' \/ IndexXML.dict_in key d = true.
Proof.
  induction d as [|[k v] d IH]; cbn [IndexXML.dict_set IndexXML.dict_in existsb].
  - rewrite orb_false_r, bool_decide_eq_true. cbn. split; [by left|].
    by intros [->|?].
  - case_bool_decide as Hk; cbn [existsb fst].
    + subst k. rewrite !orb_true_iff, !bool_decide_eq_true. cbn.
      intuition congruence.
    + unfold IndexXML.dict_in in IH. rewrite !orb_true_iff, IH.
      rewrite !bool_decide_eq_true. cbn. intuition congruence.
Qed.

(** The loop over the [FrameArray] elements gets through only if their
    identities are new to the dictionary and distinct, and it puts each of
    them into the dictionary. *)
Lemma run_read_frame_arrays frame_array_nodes logical_file t logical_file' t' :
  run (for_each read_frame_array frame_array_nodes logical_file) t
  = (Ok logical_file', t') ->
  exists names,
    mapR IndexXML.xml_object_name frame_array_nodes = Ok names
    /\ NoDup names
    /\ (forall name, name ∈ names ->
          IndexXML.dict_in name (IndexXML.iflr_position_map _ _ logical_file)
          = false)
    /\ (forall name,
          IndexXML.dict_in name (IndexXML.iflr_position_map _ _ logical_file')
          = true
          <-> name ∈ names
              \/ IndexXML.dict_in name
                   (IndexXML.iflr_position_map _ _ logical_file) = true).
Proof.
  revert logical_file t.
  induction frame_array_nodes as [|node nodes IH]; intros logical_file t.
  - cbn. intros [= <- <-]. exists []. split; [done|]. split; [constructor|].
    split; [by intros ? ?%elem_of_nil|]. intros name. split; [by right|].
    by intros [?%elem_of_nil|?].
  - cbn [for_each]. rewrite run_bind.
    unfold IndexXML.read_frame_array at 1. rewrite run_lift_bind.
    destruct (IndexXML.xml_object_name node) as [name|] eqn:Hname; [|done].
    rewrite run_lift_bind.
    destruct (IndexXML.iflr_data_from_xml _ _ _) as [gen|]; [|done].
    destruct (IndexXML.dict_in name _) eqn:Hin; [done|].
    rewrite run_lift_bind. destruct gen as [iflr_list|]; [|done].
    cbn [run mret io_ret]. intros Hrun.
    destruct (IH _ _ Hrun) as (names & Hnames & Hnodup & Hnew & Hmap).
    cbn [IndexXML.iflr_position_map] in Hnew, Hmap.
    exists (name :: names). split; [by rewrite mapR_cons, Hname, Hnames|].
    split; [|split].
    + constructor; [|done]. intros Hn. specialize (Hnew _ Hn).
      assert (IndexXML.dict_in name
                (IndexXML.dict_set name iflr_list
                   (IndexXML.iflr_position_map _ _ logical_file)) = true)
        by (apply dict_in_set; by left).
      congruence.
    + intros n [->|Hn]%elem_of_cons; [exact Hin|]. specialize (Hnew _ Hn).
      apply not_true_iff_false. intros Hd.
      rewrite (proj2 (dict_in_set n name iflr_list _) (or_intror Hd)) in Hnew.
      discriminate Hnew.
    + intros n. rewrite Hmap, dict_in_set, elem_of_cons. tauto.
Qed.

(** X3.  When [read_logical_file_from_xml] returns, the [FrameArray]
    elements of the log pass carry pairwise distinct identities, and each
    identity is a key of [iflr_position_map]. *)
Theorem read_logical_file_distinct_frame_arrays
    logical_file_node t logical_file t' :
  run (read_logical_file_from_xml logical_file_node) t
  = (Ok logical_file, t') ->
  exists names,
    mapR IndexXML.xml_object_name
      (iterfind ["LogPass"; "FrameArray"] logical_file_node) = Ok names
    /\ NoDup names
    /\ forall name, name ∈ names ->
         IndexXML.dict_in name
           (IndexXML.iflr_position_map _ _ logical_file) = true.
Proof.
  unfold IndexXML.read_logical_file_from_xml.
  destruct (negb _); [done|].
  destruct (iterfind ["EFLR"] logical_file_node) as [|e0 [|e1 nodes]];
    [done|done|].
  rewrite run_lift_bind. destruct (get e0 "set_type") as [s0|]; [|done].
  destruct (negb _); [done|].
  rewrite run_lift_bind. destruct (get e1 "set_type") as [s1|]; [|done].
  destruct (negb _); [done|].
  rewrite run_bind.
  destruct (run (get_file_logical_data e0) t) as [[fld|] t0]; [|done].
  rewrite run_lift_bind.
  destruct (ExplicitlyFormattedLogicalRecord fld) as [eflr|]; [|done].
  rewrite run_lift_bind.
  destruct (new_LogicalFile fld eflr) as [lf0|]; [|done].
  rewrite run_bind.
  destruct (run (for_each read_eflr (e1 :: nodes) lf0) _)
    as [[lf1|] t1]; [|done].
  intros Hframes.
  destruct (run_read_frame_arrays _ _ _ _ _ Hframes)
    as (names & Hnames & Hnodup & _ & Hmap).
  exists names. split; [done|]. split; [done|].
  intros name Hname. apply Hmap. by left.
Qed.

Lemma called_at_is_get_file_logical_data positions :
  Forall (fun ev => is_get_file_logical_data_called ev = true)
    (map called_at positions).
Proof. induction positions; by constructor. Qed.

(** Whatever its outcome, reading a logical file calls the environment for
    nothing but [get_file_logical_data]. *)
Lemma read_logical_file_events logical_file_node t r t' :
  run (read_logical_file_from_xml logical_file_node) t = (r, t') ->
  exists evs,
    t' = (t ++ evs)%list
    /\ Forall (fun ev => is_get_file_logical_data_called ev = true) evs.
Proof.
  assert (Hnone : exists evs, t = (t ++ evs)%list
              /\ Forall (fun ev => is_get_file_logical_data_called ev = true)
                   evs).
  { exists []. by rewrite app_nil_r. }
  unfold IndexXML.read_logical_file_from_xml.
  destruct (negb _); [intros [= <- <-]; exact Hnone|].
  destruct (iterfind ["EFLR"] logical_file_node) as [|node0 [|node1 nodes]];
    [intros [= <- <-]; exact Hnone..|].
  rewrite run_lift_bind.
  destruct (get node0 "set_type") as [set_type0|e];
    [|intros [= <- <-]; exact Hnone].
  destruct (negb _); [intros [= <- <-]; exact Hnone|].
  rewrite run_lift_bind.
  destruct (get node1 "set_type") as [set_type1|e];
    [|intros [= <- <-]; exact Hnone].
  destruct (negb _); [intros [= <- <-]; exact Hnone|].
  rewrite run_bind, run_get_file_logical_data.
  destruct (eflr_position node0) as [p0|e];
    [|intros [= <- <-]; exact Hnone].
  assert (Hone : exists evs, (t ++ [called_at p0])%list = (t ++ evs)%list
              /\ Forall (fun ev => is_get_file_logical_data_called ev = true)
                   evs).
  { exists [called_at p0]. split; [done|]. by repeat constructor. }
  destruct (file_logical_data t p0.1 p0.2) as [fld|e];
    [|intros [= <- <-]; exact Hone].
  rewrite run_lift_bind.
  destruct (ExplicitlyFormattedLogicalRecord fld) as [eflr|e];
    [|intros [= <- <-]; exact Hone].
  rewrite run_lift_bind.
  destruct (new_LogicalFile fld eflr) as [logical_file|e];
    [|intros [= <- <-]; exact Hone].
  rewrite run_bind.
  destruct (run (for_each read_eflr (node1 :: nodes) logical_file) _)
    as [r1 t1] eqn:Hloop.
  apply run_read_eflrs in Hloop
    as (nodes_read & rest & positions & _ & _ & -> & _).
  assert (Hall : exists evs,
            ((t ++ [called_at p0]) ++ map called_at positions)%list
            = (t ++ evs)%list
            /\ Forall (fun ev => is_get_file_logical_data_called ev = true)
                 evs).
  { exists (map called_at (p0 :: positions)). split.
    - by rewrite <- app_assoc.
    - apply called_at_is_get_file_logical_data. }
  destruct r1 as [logical_file'|e]; [|intros [= <- <-]; exact Hall].
  intros Hrun.
  pose proof (for_each_silent read_frame_array
                (iterfind ["LogPass"; "FrameArray"] logical_file_node)
                run_read_frame_array logical_file'
                ((t ++ [called_at p0]) ++ map called_at positions)%list)
    as Hsilent.
  rewrite Hrun in Hsilent. cbn [snd] in Hsilent. by subst t'.
Qed.

(** C6.  [read_logical_file_from_xml] raises whenever the element has
    fewer than two [EFLR] children, or the first of them does not carry
    [set_type="FILE-HEADER"], or the second not [set_type="ORIGIN"], and
    has then made no call to the binary file.  For a [LogicalFile] element
    the error is [ExceptionRP66V1IndexXMLRead], one for each of the three
    checks in this order, or the [KeyError] of a missing [set_type].
    Whatever the outcome, a call to the binary file has been made only for
    an element that passes the three checks. *)
Theorem read_logical_file_from_xml_ordering logical_file_node t :
  let eflr_nodes := iterfind ["EFLR"] logical_file_node in
  let first_is_file_header :=
    exists eflr_node,
      eflr_nodes !! 0%nat = Some eflr_node
      /\ get eflr_node "set_type" = Ok "FILE-HEADER" in
  let second_is_origin :=
    exists eflr_node,
      eflr_nodes !! 1%nat = Some eflr_node
      /\ get eflr_node "set_type" = Ok "ORIGIN" in
  (((length eflr_nodes < 2)%nat \/ ~ first_is_file_header
    \/ ~ second_is_origin) ->
   exists e, run (read_logical_file_from_xml logical_file_node) t
             = (Raise e, t))
  /\ (tag logical_file_node = "LogicalFile" ->
      ((length eflr_nodes < 2)%nat ->
       run (read_logical_file_from_xml logical_file_node) t
       = (Raise (ExceptionRP66V1IndexXMLRead Not_enough_EFLRs), t))
      /\ (forall eflr_node set_type,
            (2 <= length eflr_nodes)%nat ->
            eflr_nodes !! 0%nat = Some eflr_node ->
            get eflr_node "set_type" = Ok set_type ->
            set_type <> "FILE-HEADER" ->
            run (read_logical_file_from_xml logical_file_node) t
            = (Raise (ExceptionRP66V1IndexXMLRead First_EFLR_not_FILE_HEADER),
               t))
      /\ (forall eflr_node set_type,
            first_is_file_header ->
            eflr_nodes !! 1%nat = Some eflr_node ->
            get eflr_node "set_type" = Ok set_type ->
            set_type <> "ORIGIN" ->
            run (read_logical_file_from_xml logical_file_node) t
            = (Raise (ExceptionRP66V1IndexXMLRead Second_EFLR_not_ORIGIN),
               t)))
  /\ (forall r t',
        run (read_logical_file_from_xml logical_file_node) t = (r, t') ->
        t' <> t ->
        (2 <= length eflr_nodes)%nat
        /\ first_is_file_header /\ second_is_origin).
Proof.
  cbv zeta. unfold IndexXML.read_logical_file_from_xml.
  destruct (String.eqb_spec (tag logical_file_node) "LogicalFile")
    as [Htag|Htag]; cbn [negb].
  2:{ split; [by eexists|]. split; [done|]. by intros r t' [= _ <-]. }
  destruct (iterfind ["EFLR"] logical_file_node) as [|e0 [|e1 nodes]].
  { split; [by eexists|]. split.
    - intros _. split; [done|]. split.
      + intros ? ? Hlen. cbn in Hlen. lia.
      + by intros ? ? (? & [=] & _).
    - by intros r t' [= _ <-]. }
  { split; [by eexists|]. split.
    - intros _. split; [done|]. split.
      + intros ? ? Hlen. cbn in Hlen. lia.
      + by intros ? ? _ [=].
    - by intros r t' [= _ <-]. }
  rewrite run_lift_bind.
  destruct (get e0 "set_type") as [s0|err0] eqn:H0.
  2:{ split; [by eexists|]. split.
      - intros _. split; [cbn; lia|]. split.
        + intros ? ? _ [= <-]. by rewrite H0.
        + intros ? ? (? & [= <-] & Hget). by rewrite H0 in Hget.
      - by intros r t' [= _ <-]. }
  destruct (String.eqb_spec s0 "FILE-HEADER") as [->|Hs0]; cbn [negb].
  2:{ split; [by eexists|]. split.
      - intros _. split; [cbn; lia|]. split; [done|].
        intros ? ? (? & [= <-] & Hget). rewrite H0 in Hget.
        by injection Hget as ->.
      - by intros r t' [= _ <-]. }
  rewrite run_lift_bind.
  destruct (get e1 "set_type") as [s1|err1] eqn:H1.
  2:{ split; [by eexists|]. split.
      - intros _. split; [cbn; lia|]. split.
        + intros ? ? _ [= <-] Hget Hother. rewrite H0 in Hget.
          by injection Hget as <-.
        + intros ? ? _ [= <-]. by rewrite H1.
      - by intros r t' [= _ <-]. }
  destruct (String.eqb_spec s1 "ORIGIN") as [->|Hs1]; cbn [negb].
  2:{ split; [by eexists|]. split.
      - intros _. split; [cbn; lia|]. split.
        + intros ? ? _ [= <-] Hget Hother. rewrite H0 in Hget.
          by injection Hget as <-.
        + done.
      - by intros r t' [= _ <-]. }
  split; [|split].
  - intros [Hlen|[Hfirst|Hsecond]].
    + cbn in Hlen. lia.
    + destruct Hfirst. by exists e0.
    + destruct Hsecond. by exists e1.
  - intros _. split; [cbn; lia|]. split.
    + intros ? ? _ [= <-] Hget Hother. rewrite H0 in Hget.
      by injection Hget as <-.
    + intros ? ? _ [= <-] Hget Hother. rewrite H1 in Hget.
      by injection Hget as <-.
  - intros r t' _ _. split; [cbn; lia|]. split; [by exists e0|by exists e1].
Qed.

End ReadLogicalFile.

Lemma encode_ascii_Ok s b :
  Py.encode_ascii s = Ok b -> b = list_byte_of_string s.
Proof.
  unfold Py.encode_ascii. cbv zeta.
  destruct (forallb _ _); [|intros [=]]. by intros [= <-].
Qed.

Lemma list_byte_of_string_inj s1 s2 :
  list_byte_of_string s1 = list_byte_of_string s2 -> s1 = s2.
Proof.
  intros Heq%(f_equal string_of_list_byte).
  by rewrite !string_of_list_byte_of_string in Heq.
Qed.

Section ReadStorageUnitLabel.
Import xml.

Variable StorageUnitLabel : Type.
Variable create_storage_unit_label :
  Z -> list byte -> Z -> list byte -> result StorageUnitLabel.

Local Abbreviation read_storage_unit_label_from_xml :=
  (IndexXML.read_storage_unit_label_from_xml StorageUnitLabel
     create_storage_unit_label).

(** X4.  [read_storage_unit_label_from_xml] returns a label only for a
    root with exactly one [StorageUnitLabel] child whose [dlis_version] is
    [V1.00], whose [sequence_number] is a positive integer and whose
    [storage_unit_structure] is [RECORD]; the label is then what
    [create_storage_unit_label] makes of the sequence number, the version,
    the maximum record length and the storage set identifier of that
    child. *)
Theorem read_storage_unit_label_accepts_only_valid root label :
  read_storage_unit_label_from_xml root = Ok label ->
  exists sul_element sequence_number maximum_record_length
         storage_set_identifier,
    iterfind ["StorageUnitLabel"] root = [sul_element]
    /\ get sul_element "dlis_version" = Ok "V1.00"
    /\ (get sul_element "sequence_number" ≫= Py.int) = Ok sequence_number
    /\ 0 < sequence_number
    /\ get sul_element "storage_unit_structure" = Ok "RECORD"
    /\ (get sul_element "maximum_record_length" ≫= Py.int)
       = Ok maximum_record_length
    /\ (get sul_element "storage_set_identifier" ≫= Py.encode_ascii)
       = Ok storage_set_identifier
    /\ create_storage_unit_label sequence_number
         (list_byte_of_string "V1.00") maximum_record_length
         storage_set_identifier = Ok label.
Proof.
  unfold IndexXML.read_storage_unit_label_from_xml.
  destruct (IndexXML.xml_single_element root _) as [sul|] eqn:Hsul;
    cbn [mbind result_bind]; [|intros [=]].
  destruct (get sul "dlis_version") as [v|] eqn:Hv;
    cbn [mbind result_bind]; [|intros [=]].
  destruct (Py.encode_ascii v) as [dlis|] eqn:Hdlis;
    cbn [mbind result_bind]; [|intros [=]].
  case_bool_decide as Hv'; cbn [negb]; [|intros [=]].
  destruct (get sul "sequence_number" ≫= Py.int) as [n|] eqn:Hn;
    cbn [mbind result_bind]; [|intros [=]].
  destruct (Z.leb_spec n 0); [intros [=]|].
  destruct (get sul "maximum_record_length" ≫= Py.int) as [m|] eqn:Hm;
    cbn [mbind result_bind]; [|intros [=]].
  destruct (get sul "storage_unit_structure") as [s|] eqn:Hs;
    cbn [mbind result_bind]; [|intros [=]].
  destruct (Py.encode_ascii s) as [structure|] eqn:Hstructure;
    cbn [mbind result_bind]; [|intros [=]].
  case_bool_decide as Hs'; cbn [negb]; [|intros [=]].
  destruct (get sul "storage_set_identifier" ≫= Py.encode_ascii)
    as [ssi|] eqn:Hssi; cbn [mbind result_bind]; [|intros [=]].
  intros Hlabel. subst dlis structure.
  apply encode_ascii_Ok, list_byte_of_string_inj in Hdlis.
  apply encode_ascii_Ok, list_byte_of_string_inj in Hstructure.
  subst v s. exists sul, n, m, ssi.
  unfold IndexXML.xml_single_element in Hsul.
  destruct (iterfind _ root) as [|x [|??]]; try discriminate Hsul.
  injection Hsul as ->. auto 10.
Qed.

(** C7 (amended).  For a root with exactly one [StorageUnitLabel] child,
    [read_storage_unit_label_from_xml] raises whenever the [dlis_version]
    of the child is not [V1.00], or its [sequence_number] is not a positive
    integer, or its [storage_unit_structure] is not [RECORD]: with
    [ExceptionIndexXMLRead] for a version or, once the maximum record
    length is read, a structure that is some other ASCII text, and for a
    sequence number that is an integer below one.  When all three hold it
    raises what reading the [maximum_record_length] as an integer or the
    [storage_set_identifier] as ASCII raises; when these are read it is
    [create_storage_unit_label] applied to exactly the sequence number, the
    version, the maximum record length and the storage set identifier
    read. *)
Theorem read_storage_unit_label_from_xml_checks root sul_element :
  iterfind ["StorageUnitLabel"] root = [sul_element] ->
  let version_is_V1_00 := get sul_element "dlis_version" = Ok "V1.00" in
  let sequence_number_is n :=
    (get sul_element "sequence_number" ≫= Py.int) = Ok n in
  let structure_is_RECORD :=
    get sul_element "storage_unit_structure" = Ok "RECORD" in
  let maximum_record_length_is m :=
    (get sul_element "maximum_record_length" ≫= Py.int) = Ok m in
  (~ (version_is_V1_00
      /\ (exists n, sequence_number_is n /\ 0 < n)
      /\ structure_is_RECORD) ->
   exists e, read_storage_unit_label_from_xml root = Raise e)
  /\ (forall dlis_version,
        (get sul_element "dlis_version" ≫= Py.encode_ascii)
        = Ok dlis_version ->
        dlis_version <> list_byte_of_string "V1.00" ->
        read_storage_unit_label_from_xml root
        = Raise (ExceptionIndexXMLRead (Found_DLIS_version dlis_version)))
  /\ (forall n,
        version_is_V1_00 -> sequence_number_is n -> n <= 0 ->
        read_storage_unit_label_from_xml root
        = Raise (ExceptionIndexXMLRead (Sequence_number_not_positive n)))
  /\ (forall n e,
        version_is_V1_00 -> sequence_number_is n -> 0 < n ->
        (get sul_element "maximum_record_length" ≫= Py.int) = Raise e ->
        read_storage_unit_label_from_xml root = Raise e)
  /\ (forall n m storage_unit_structure,
        version_is_V1_00 -> sequence_number_is n -> 0 < n ->
        maximum_record_length_is m ->
        (get sul_element "storage_unit_structure" ≫= Py.encode_ascii)
        = Ok storage_unit_structure ->
        storage_unit_structure <> list_byte_of_string "RECORD" ->
        read_storage_unit_label_from_xml root
        = Raise (ExceptionIndexXMLRead
                   (Found_storage_unit_structure storage_unit_structure)))
  /\ (forall n m e,
        version_is_V1_00 -> sequence_number_is n -> 0 < n ->
        maximum_record_length_is m -> structure_is_RECORD ->
        (get sul_element "storage_set_identifier" ≫= Py.encode_ascii)
        = Raise e ->
        read_storage_unit_label_from_xml root = Raise e)
  /\ (forall n m storage_set_identifier,
        version_is_V1_00 -> sequence_number_is n -> 0 < n ->
        maximum_record_length_is m -> structure_is_RECORD ->
        (get sul_element "storage_set_identifier" ≫= Py.encode_ascii)
        = Ok storage_set_identifier ->
        read_storage_unit_label_from_xml root
        = create_storage_unit_label n (list_byte_of_string "V1.00") m
            storage_set_identifier).
Proof.
  intros Hsul. cbv zeta.
  unfold IndexXML.read_storage_unit_label_from_xml,
    IndexXML.xml_single_element.
  rewrite Hsul. cbn [mbind result_bind].
  assert (forall n,
            0 < n -> (n <=? 0) = false) as Hpositive.
  { intros n Hn. by destruct (Z.leb_spec n 0); [lia|]. }
  split; [|split; [|split; [|split; [|split; [|split]]]]].
  - intros Hinvalid.
    destruct (get sul_element "dlis_version") as [v|] eqn:Hv;
      cbn [mbind result_bind]; [|by eexists].
    destruct (Py.encode_ascii v) as [dlis|] eqn:Hdlis;
      cbn [mbind result_bind]; [|by eexists].
    case_bool_decide as Hv'; cbn [negb]; [|by eexists].
    destruct (get sul_element "sequence_number" ≫= Py.int) as [n|] eqn:Hn;
      cbn [mbind result_bind]; [|by eexists].
    destruct (Z.leb_spec n 0); [by eexists|].
    destruct (get sul_element "maximum_record_length" ≫= Py.int) as [m|];
      cbn [mbind result_bind]; [|by eexists].
    destruct (get sul_element "storage_unit_structure") as [s|] eqn:Hs;
      cbn [mbind result_bind]; [|by eexists].
    destruct (Py.encode_ascii s) as [structure|] eqn:Hstructure;
      cbn [mbind result_bind]; [|by eexists].
    case_bool_decide as Hs'; cbn [negb]; [|by eexists].
    destruct Hinvalid. subst dlis structure.
    apply encode_ascii_Ok, list_byte_of_string_inj in Hdlis.
    apply encode_ascii_Ok, list_byte_of_string_inj in Hstructure.
    subst v s. split; [done|]. split; [|done]. by exists n.
  - intros dlis_version -> Hother. cbn [mbind result_bind].
    by rewrite bool_decide_eq_false_2.
  - intros n -> -> Hn. cbn [mbind result_bind].
    change (Py.encode_ascii "V1.00") with (Ok (list_byte_of_string "V1.00")).
    cbn [mbind result_bind]. rewrite bool_decide_eq_true_2 by done.
    cbn [negb]. by destruct (Z.leb_spec n 0); [|lia].
  - intros n e -> -> Hn ->. cbn [mbind result_bind].
    change (Py.encode_ascii "V1.00") with (Ok (list_byte_of_string "V1.00")).
    cbn [mbind result_bind]. rewrite bool_decide_eq_true_2 by done.
    cbn [negb]. by rewrite Hpositive.
  - intros n m structure -> -> Hn -> -> Hother. cbn [mbind result_bind].
    change (Py.encode_ascii "V1.00") with (Ok (list_byte_of_string "V1.00")).
    cbn [mbind result_bind]. rewrite bool_decide_eq_true_2 by done.
    cbn [negb]. rewrite Hpositive by done.
    by rewrite bool_decide_eq_false_2.
  - intros n m e -> -> Hn -> -> ->. cbn [mbind result_bind].
    change (Py.encode_ascii "V1.00") with (Ok (list_byte_of_string "V1.00")).
    change (Py.encode_ascii "RECORD")
      with (Ok (list_byte_of_string "RECORD")).
    cbn [mbind result_bind]. rewrite bool_decide_eq_true_2 by done.
    cbn [negb]. rewrite Hpositive by done.
    by rewrite bool_decide_eq_true_2.
  - intros n m ssi -> -> Hn -> -> ->. cbn [mbind result_bind].
    change (Py.encode_ascii "V1.00") with (Ok (list_byte_of_string "V1.00")).
    change (Py.encode_ascii "RECORD")
      with (Ok (list_byte_of_string "RECORD")).
    cbn [mbind result_bind]. rewrite bool_decide_eq_true_2 by done.
    cbn [negb]. rewrite Hpositive by done.
    by rewrite bool_decide_eq_true_2.
Qed.

End ReadStorageUnitLabel.


(** ** Reading the index of a file *)

Section ReadLogicalIndex.
Context `{PyFloat}.
Import xml.

Variable IFLRReference : Type.
Variable new_IFLRReference : number -> number -> number -> IFLRReference.
Variable StorageUnitLabel : Type.
Variable create_storage_unit_label :
  Z -> list byte -> Z -> list byte -> result StorageUnitLabel.
Variable FileLogicalData : Type.
Variable file_logical_data : list event -> Z -> Z -> result FileLogicalData.
Variable EFLR : Type.
Variable ExplicitlyFormattedLogicalRecord : FileLogicalData -> result EFLR.
Variable LogicalFileState : Type.
Variable new_LogicalFile :
  FileLogicalData -> EFLR ->
  result (IndexXML.LogicalFile IFLRReference LogicalFileState).
Variable add_eflr :
  IndexXML.LogicalFile IFLRReference LogicalFileState ->
  FileLogicalData -> EFLR ->
  result (IndexXML.LogicalFile IFLRReference LogicalFileState).
Variable path_join : string -> string -> string.
Variable parsed_index : list event -> string -> result Element.
Variable isfile : list event -> string -> bool.
Variable binary_file_type : list event -> string -> result string.
Variable opened : list event -> string -> result unit.
Variable file_read : list event -> string -> result unit.
Variable VisibleRecordPositions : Type.
Variable new_VisibleRecordPositions :
  list number -> result VisibleRecordPositions.

Local Abbreviation read_logical_index_from_xml :=
  (IndexXML.read_logical_index_from_xml IFLRReference new_IFLRReference
     StorageUnitLabel create_storage_unit_label FileLogicalData
     file_logical_data EFLR ExplicitlyFormattedLogicalRecord LogicalFileState
     new_LogicalFile add_eflr path_join parsed_index isfile binary_file_type
     opened file_read VisibleRecordPositions new_VisibleRecordPositions).
Local Abbreviation read_storage_unit_label_from_xml :=
  (IndexXML.read_storage_unit_label_from_xml StorageUnitLabel
     create_storage_unit_label).
Local Abbreviation logical_files :=
  (IndexXML.logical_files IFLRReference StorageUnitLabel LogicalFileState
     VisibleRecordPositions).
Local Abbreviation storage_unit_label :=
  (IndexXML.storage_unit_label IFLRReference StorageUnitLabel
     LogicalFileState VisibleRecordPositions).
Local Abbreviation id :=
  (IndexXML.id IFLRReference StorageUnitLabel LogicalFileState
     VisibleRecordPositions).

(** X5.  A logical index that [read_logical_index_from_xml] returns has
    one logical file for each [LogicalFile] child of the single
    [LogicalFiles] element of the document, and that number is the integer
    of the element's [count] attribute; its storage unit label is the one
    read from the document and its path is the [path] attribute of the
    root joined to the archive root. *)
Theorem read_logical_index_counts_logical_files index_path archive_root t
    logical_index t' :
  run (read_logical_index_from_xml index_path archive_root) t
  = (Ok logical_index, t') ->
  exists root logical_files_node path sul,
    parsed_index t index_path = Ok root
    /\ get root "path" = Ok path
    /\ id logical_index = path_join archive_root path
    /\ read_storage_unit_label_from_xml root = Ok sul
    /\ storage_unit_label logical_index = Some sul
    /\ iterfind ["LogicalFiles"] root = [logical_files_node]
    /\ (get logical_files_node "count" ≫= Py.int)
       = Ok (Z.of_nat (length (logical_files logical_index)))
    /\ length (logical_files logical_index)
       = length (iterfind ["LogicalFile"] logical_files_node).
Proof.
  unfold IndexXML.read_logical_index_from_xml.
  rewrite run_call_bind.
  destruct (parsed_index t index_path) as [root|e]; [|intros [=]].
  destruct (negb (tag root =? _)%string); [intros [=]|].
  rewrite run_lift_bind.
  destruct (get root "schema_version") as [schema_version|e]; [|intros [=]].
  destruct (negb (schema_version =? _)%string); [intros [=]|].
  rewrite run_lift_bind.
  destruct (get root "path") as [path|e] eqn:Hpath; [|intros [=]].
  cbv zeta. rewrite run_call_bind.
  destruct (negb (isfile _ _)); [intros [=]|].
  rewrite run_call_bind.
  destruct (binary_file_type _ _) as [bin_file_type|e]; [|intros [=]].
  destruct (negb (bin_file_type =? _)%string); [intros [=]|].
  rewrite run_lift_bind.
  destruct (read_storage_unit_label_from_xml root) as [sul|e] eqn:Hsul;
    [|intros [=]].
  rewrite run_lift_bind.
  destruct (IndexXML.xml_single_element root ["LogicalFiles"])
    as [logical_files_node|e] eqn:Hnode; [|intros [=]].
  rewrite run_lift_bind.
  destruct (get logical_files_node "count" ≫= Py.int)
    as [logical_file_count|e] eqn:Hcount; [|intros [=]].
  rewrite run_call_bind.
  destruct (opened _ _) as [[]|e]; [|intros [=]].
  rewrite run_call_bind.
  destruct (file_read _ _) as [[]|e]; [|intros [=]].
  rewrite run_bind.
  destruct (run (for_each _ _ _) _) as [[files|e] t1] eqn:Hloop;
    [|intros [=]].
  apply for_each_append_length in Hloop. cbn [length Nat.add] in Hloop.
  destruct (Z.eqb_spec (Z.of_nat (length files)) logical_file_count)
    as [<-|]; cbn [negb]; [|intros [=]].
  rewrite run_lift_bind.
  destruct (IndexXML.xml_single_element root ["VisibleRecords"]
              ≫= IndexXML.xml_rle_read) as [rle_vr|e]; [|intros [=]].
  rewrite run_lift_bind.
  destruct (Rle.values rle_vr ≫= new_VisibleRecordPositions)
    as [positions|e]; [|intros [=]].
  cbn [run mret io_ret]. intros [= <- _].
  exists root, logical_files_node, path, sul.
  cbn [IndexXML.id IndexXML.storage_unit_label IndexXML.logical_files].
  unfold IndexXML.xml_single_element in Hnode.
  destruct (iterfind ["LogicalFiles"] root) as [|x [|??]];
    try discriminate Hnode.
  injection Hnode as ->. by split_and!.
Qed.

(** X6.  [read_logical_index_from_xml] opens a file other than the index
    only after every check of the root element has passed: whatever the
    outcome, if the binary file was opened then the root is a
    [RP66V1FileIndex] of the schema version of the code, the file opened is
    the [path] of the root under the archive root, opened for reading, it
    was found to be a file of type [RP66V1], and the storage unit label of
    the index was accepted. *)
Theorem read_logical_index_opens_after_checks index_path archive_root t r t' :
  run (read_logical_index_from_xml index_path archive_root) t = (r, t') ->
  exists evs,
    t' = (t ++ evs)%list
    /\ forall p mode,
         open_called p mode ∈ evs ->
         exists root path,
           parsed_index t index_path = Ok root
           /\ tag root = "RP66V1FileIndex"
           /\ get root "schema_version" = Ok IndexXML.XML_SCHEMA_VERSION
           /\ get root "path" = Ok path
           /\ p = path_join archive_root path
           /\ mode = "rb"
           /\ isfile (t ++ [parse_called index_path])%list p = true
           /\ binary_file_type
                (t ++ [parse_called index_path; isfile_called p])%list p
              = Ok "RP66V1"
           /\ is_Ok (read_storage_unit_label_from_xml root) = true.
Proof.
  match goal with |- _ -> ?concl => set (accepted := concl) end.
  assert (Hearly : forall evs : list event,
            (forall p mode, open_called p mode ∉ evs) ->
            forall r0, (r0, (t ++ evs)%list) = (r, t') ->
            accepted).
  { intros evs Hevs r0 [= <- <-]. exists evs. split; [done|].
    intros p mode Hin. by destruct (Hevs p mode). }
  unfold IndexXML.read_logical_index_from_xml.
  rewrite run_call_bind.
  destruct (parsed_index t index_path) as [root|e] eqn:Hroot;
    [|apply Hearly; intros ?? [[=]|[]%elem_of_nil]%elem_of_cons].
  destruct (tag root =? _)%string eqn:Htag; cbn [negb];
    [|apply Hearly; intros ?? [[=]|[]%elem_of_nil]%elem_of_cons].
  apply String.eqb_eq in Htag.
  rewrite run_lift_bind.
  destruct (get root "schema_version") as [schema_version|e] eqn:Hversion;
    [|apply Hearly; intros ?? [[=]|[]%elem_of_nil]%elem_of_cons].
  destruct (schema_version =? _)%string eqn:Hschema; cbn [negb];
    [|apply Hearly; intros ?? [[=]|[]%elem_of_nil]%elem_of_cons].
  apply String.eqb_eq in Hschema. subst schema_version.
  rewrite run_lift_bind.
  destruct (get root "path") as [path|e] eqn:Hpath;
    [|apply Hearly; intros ?? [[=]|[]%elem_of_nil]%elem_of_cons].
  cbv zeta. rewrite run_call_bind.
  destruct (isfile _ _) eqn:Hisfile; cbn [negb];
    [|rewrite <- app_assoc; apply Hearly;
      intros ?? [[=]|[[=]|[]%elem_of_nil]%elem_of_cons]%elem_of_cons].
  rewrite run_call_bind. rewrite <- !app_assoc. cbn [app].
  destruct (binary_file_type _ _) as [bin_file_type|e] eqn:Htype;
    [|apply Hearly;
      intros ?? [[=]|[[=]|[[=]|[]%elem_of_nil]%elem_of_cons]%elem_of_cons]
                   %elem_of_cons].
  destruct (bin_file_type =? _)%string eqn:Hbin; cbn [negb];
    [|apply Hearly;
      intros ?? [[=]|[[=]|[[=]|[]%elem_of_nil]%elem_of_cons]%elem_of_cons]
                   %elem_of_cons].
  apply String.eqb_eq in Hbin. subst bin_file_type.
  rewrite run_lift_bind.
  destruct (read_storage_unit_label_from_xml root) as [sul|e] eqn:Hsul;
    [|apply Hearly;
      intros ?? [[=]|[[=]|[[=]|[]%elem_of_nil]%elem_of_cons]%elem_of_cons]
                   %elem_of_cons].
  rewrite run_lift_bind.
  destruct (IndexXML.xml_single_element root ["LogicalFiles"])
    as [logical_files_node|e];
    [|apply Hearly;
      intros ?? [[=]|[[=]|[[=]|[]%elem_of_nil]%elem_of_cons]%elem_of_cons]
                   %elem_of_cons].
  rewrite run_lift_bind.
  destruct (get logical_files_node "count" ≫= Py.int)
    as [logical_file_count|e];
    [|apply Hearly;
      intros ?? [[=]|[[=]|[[=]|[]%elem_of_nil]%elem_of_cons]%elem_of_cons]
                   %elem_of_cons].
  clear Hearly.
  assert (Hlate : forall evs r0,
            (forall p mode, open_called p mode ∉ evs) ->
            (r0, (((t ++ [parse_called index_path;
                          isfile_called (path_join archive_root path);
                          binary_file_type_from_path_called
                            (path_join archive_root path)])
                     ++ [open_called (path_join archive_root path) "rb"])
                    ++ evs)%list) = (r, t') ->
            accepted).
  { intros evs r0 Hevs [= <- <-]. subst accepted. eexists. split.
    - rewrite <- !app_assoc. reflexivity.
    - intros p mode Hin. exists root, path.
      assert (p = path_join archive_root path /\ mode = "rb") as [-> ->].
      { cbn [app] in Hin.
        apply elem_of_cons in Hin as [[=]|Hin].
        apply elem_of_cons in Hin as [[=]|Hin].
        apply elem_of_cons in Hin as [[=]|Hin].
        apply elem_of_cons in Hin as [[= -> ->]|Hin]; [done|].
        by destruct (Hevs p mode). }
      rewrite Hsul. by split_and!. }
  clear Hroot Htag Hversion Hpath Hisfile Htype Hsul.
  rewrite run_call_bind.
  destruct (opened _ _) as [[]|e];
    [|rewrite <- (app_nil_r (_ ++ [open_called _ _]));
      apply Hlate; intros ?? []%elem_of_nil].
  rewrite run_call_bind.
  destruct (file_read _ _) as [[]|e];
    [|apply Hlate; intros ?? [[=]|[]%elem_of_nil]%elem_of_cons].
  rewrite run_bind.
  destruct (run (for_each _ _ _) _) as [r1 t1] eqn:Hloop.
  apply (for_each_events
           (fun ev => is_get_file_logical_data_called ev = true)) in Hloop
    as (evs & -> & Hevs).
  2:{ intros acc x t0 r0 t0'. rewrite run_bind.
      destruct (run (IndexXML.read_logical_file_from_xml _ _ _ _ _ _ _ _ _ x)
                  t0) as [r2 t2] eqn:Hfile.
      apply read_logical_file_events in Hfile as (evs & -> & Hevs).
      destruct r2; intros [= <- <-]; by exists evs. }
  assert (Hno : forall p mode,
            open_called p mode ∉ FileRead_called (path_join archive_root path)
                                   :: evs).
  { intros p mode [[=]|Hin]%elem_of_cons.
    rewrite Forall_forall in Hevs. by apply Hevs in Hin. }
  rewrite <- (app_assoc _ [_] evs). cbn [app].
  destruct r1 as [files|e]; [|by apply Hlate].
  destruct (negb _); [by apply Hlate|].
  rewrite run_lift_bind.
  destruct (_ ≫= IndexXML.xml_rle_read) as [rle_vr|e]; [|by apply Hlate].
  rewrite run_lift_bind.
  destruct (_ ≫= new_VisibleRecordPositions) as [positions|e];
    by apply Hlate.
Qed.

(** The loop of [read_logical_index_from_xml] over the [LogicalFile]
    elements. *)
Local Abbreviation read_logical_files logical_file_nodes :=
  (for_each
     (fun acc logical_file_node =>
        logical_file ←
          IndexXML.read_logical_file_from_xml IFLRReference
            new_IFLRReference FileLogicalData file_logical_data EFLR
            ExplicitlyFormattedLogicalRecord LogicalFileState
            new_LogicalFile add_eflr logical_file_node;
        mret ((acc ++ [logical_file])%list))
     logical_file_nodes []).


End ReadLogicalIndex.

(** ** The properties at the example index *)

Lemma read_logical_file_checks_before_reading_witness :
  (exists eflr_node,
     xml.iterfind ["EFLR"] ExampleIndex.origin_first_node !! 0%nat
     = Some eflr_node
     /\ xml.get eflr_node "set_type" <> Ok "FILE-HEADER")
  /\ exists e,
       run (ExampleIndex.read_logical_file_from_xml
              ExampleIndex.origin_first_node)
         ExampleIndex.calls
       = (Raise e, ExampleIndex.calls).
Proof.
  assert (exists eflr_node,
            xml.iterfind ["EFLR"] ExampleIndex.origin_first_node !! 0%nat
            = Some eflr_node
            /\ xml.get eflr_node "set_type" <> Ok "FILE-HEADER") as Hfirst.
  { eexists. split; [reflexivity|]. intros [=]. }
  split; [exact Hfirst|].
  apply (read_logical_file_checks_before_reading
           LogPassXML.IFLRData LogPassXML.Build_IFLRData
           ExampleIndex.FileLogicalData ExampleIndex.file_logical_data
           ExampleIndex.EFLR ExampleIndex.ExplicitlyFormattedLogicalRecord
           ExampleIndex.LogicalFileState ExampleIndex.new_LogicalFile
           ExampleIndex.add_eflr ExampleIndex.origin_first_node
           ExampleIndex.calls).
  right. left. exact Hfirst.
Defined.

Lemma read_logical_file_reads_each_eflr_witness :
  run (ExampleIndex.read_logical_file_from_xml ExampleIndex.logical_file_node)
    []
  = (Ok ExampleIndex.logical_file, ExampleIndex.calls)
  /\ exists positions,
       mapR eflr_position
         (xml.iterfind ["EFLR"] ExampleIndex.logical_file_node)
       = Ok positions
       /\ ExampleIndex.calls = ([] ++ map called_at positions)%list.
Proof.
  split; [reflexivity|].
  apply (read_logical_file_reads_each_eflr
           LogPassXML.IFLRData LogPassXML.Build_IFLRData
           ExampleIndex.FileLogicalData ExampleIndex.file_logical_data
           ExampleIndex.EFLR ExampleIndex.ExplicitlyFormattedLogicalRecord
           ExampleIndex.LogicalFileState ExampleIndex.new_LogicalFile
           ExampleIndex.add_eflr ExampleIndex.logical_file_node []
           ExampleIndex.logical_file ExampleIndex.calls).
  reflexivity.
Defined.

Lemma read_logical_file_distinct_frame_arrays_witness :
  run (ExampleIndex.read_logical_file_from_xml ExampleIndex.logical_file_node)
    []
  = (Ok ExampleIndex.logical_file, ExampleIndex.calls)
  /\ exists names,
       mapR IndexXML.xml_object_name
         (xml.iterfind ["LogPass"; "FrameArray"]
            ExampleIndex.logical_file_node)
       = Ok names
       /\ NoDup names
       /\ forall name,
            name ∈ names ->
            IndexXML.dict_in name
              (IndexXML.iflr_position_map _ _ ExampleIndex.logical_file)
            = true.
Proof.
  split; [reflexivity|].
  apply (read_logical_file_distinct_frame_arrays
           LogPassXML.IFLRData LogPassXML.Build_IFLRData
           ExampleIndex.FileLogicalData ExampleIndex.file_logical_data
           ExampleIndex.EFLR ExampleIndex.ExplicitlyFormattedLogicalRecord
           ExampleIndex.LogicalFileState ExampleIndex.new_LogicalFile
           ExampleIndex.add_eflr ExampleIndex.logical_file_node []
           ExampleIndex.logical_file ExampleIndex.calls).
  reflexivity.
Defined.

Lemma read_storage_unit_label_accepts_only_valid_witness :
  IndexXML.read_storage_unit_label_from_xml ExampleIndex.StorageUnitLabel
    ExampleIndex.create_storage_unit_label ExampleIndex.root
  = Ok ExampleIndex.storage_unit_label
  /\ exists sul_element sequence_number maximum_record_length
            storage_set_identifier,
       xml.iterfind ["StorageUnitLabel"] ExampleIndex.root = [sul_element]
       /\ xml.get sul_element "dlis_version" = Ok "V1.00"
       /\ (xml.get sul_element "sequence_number" ≫= Py.int)
          = Ok sequence_number
       /\ 0 < sequence_number
       /\ xml.get sul_element "storage_unit_structure" = Ok "RECORD"
       /\ (xml.get sul_element "maximum_record_length" ≫= Py.int)
          = Ok maximum_record_length
       /\ (xml.get sul_element "storage_set_identifier" ≫= Py.encode_ascii)
          = Ok storage_set_identifier
       /\ ExampleIndex.create_storage_unit_label sequence_number
            (list_byte_of_string "V1.00") maximum_record_length
            storage_set_identifier
          = Ok ExampleIndex.storage_unit_label.
Proof.
  split; [reflexivity|].
  apply (read_storage_unit_label_accepts_only_valid
           ExampleIndex.StorageUnitLabel
           ExampleIndex.create_storage_unit_label ExampleIndex.root
           ExampleIndex.storage_unit_label).
  reflexivity.
Defined.

Lemma read_logical_index_counts_logical_files_witness :
  run (ExampleIndex.read_logical_index_from_xml "index/a.dlis.xml" "archive")
    []
  = (Ok ExampleIndex.logical_index, ExampleIndex.index_calls)
  /\ exists root logical_files_node path sul,
       ExampleIndex.parsed_index [] "index/a.dlis.xml" = Ok root
       /\ xml.get root "path" = Ok path
       /\ IndexXML.id _ _ _ _ ExampleIndex.logical_index
          = ExampleIndex.path_join "archive" path
       /\ IndexXML.read_storage_unit_label_from_xml
            ExampleIndex.StorageUnitLabel
            ExampleIndex.create_storage_unit_label root = Ok sul
       /\ IndexXML.storage_unit_label _ _ _ _ ExampleIndex.logical_index
          = Some sul
       /\ xml.iterfind ["LogicalFiles"] root = [logical_files_node]
       /\ (xml.get logical_files_node "count" ≫= Py.int)
          = Ok (Z.of_nat
                  (length (IndexXML.logical_files _ _ _ _
                             ExampleIndex.logical_index)))
       /\ length (IndexXML.logical_files _ _ _ _ ExampleIndex.logical_index)
          = length (xml.iterfind ["LogicalFile"] logical_files_node).
Proof.
  split; [reflexivity|].
  apply (read_logical_index_counts_logical_files
           LogPassXML.IFLRData LogPassXML.Build_IFLRData
           ExampleIndex.StorageUnitLabel
           ExampleIndex.create_storage_unit_label
           ExampleIndex.FileLogicalData ExampleIndex.file_logical_data
           ExampleIndex.EFLR ExampleIndex.ExplicitlyFormattedLogicalRecord
           ExampleIndex.LogicalFileState ExampleIndex.new_LogicalFile
           ExampleIndex.add_eflr ExampleIndex.path_join
           ExampleIndex.parsed_index ExampleIndex.isfile
           ExampleIndex.binary_file_type ExampleIndex.opened
           ExampleIndex.file_read ExampleIndex.VisibleRecordPositions
           ExampleIndex.new_VisibleRecordPositions
           "index/a.dlis.xml" "archive" [] ExampleIndex.logical_index
           ExampleIndex.index_calls).
  reflexivity.
Defined.

Lemma read_logical_index_opens_after_checks_witness :
  run (ExampleIndex.read_logical_index_from_xml "index/a.dlis.xml" "archive")
    []
  = (Ok ExampleIndex.logical_index, ExampleIndex.index_calls)
  /\ exists evs,
       ExampleIndex.index_calls = ([] ++ evs)%list
       /\ forall p mode,
            open_called p mode ∈ evs ->
            exists root path,
              ExampleIndex.parsed_index [] "index/a.dlis.xml" = Ok root
              /\ xml.tag root = "RP66V1FileIndex"
              /\ xml.get root "schema_version"
                 = Ok IndexXML.XML_SCHEMA_VERSION
              /\ xml.get root "path" = Ok path
              /\ p = ExampleIndex.path_join "archive" path
              /\ mode = "rb"
              /\ ExampleIndex.isfile
                   ([] ++ [parse_called "index/a.dlis.xml"])%list p = true
              /\ ExampleIndex.binary_file_type
                   ([] ++ [parse_called "index/a.dlis.xml";
                           isfile_called p])%list p
                 = Ok "RP66V1"
              /\ is_Ok (IndexXML.read_storage_unit_label_from_xml
                          ExampleIndex.StorageUnitLabel
                          ExampleIndex.create_storage_unit_label root)
                 = true.
Proof.
  split; [reflexivity|].
  apply (read_logical_index_opens_after_checks
           LogPassXML.IFLRData LogPassXML.Build_IFLRData
           ExampleIndex.StorageUnitLabel
           ExampleIndex.create_storage_unit_label
           ExampleIndex.FileLogicalData ExampleIndex.file_logical_data
           ExampleIndex.EFLR ExampleIndex.ExplicitlyFormattedLogicalRecord
           ExampleIndex.LogicalFileState ExampleIndex.new_LogicalFile
           ExampleIndex.add_eflr ExampleIndex.path_join
           ExampleIndex.parsed_index ExampleIndex.isfile
           ExampleIndex.binary_file_type ExampleIndex.opened
           ExampleIndex.file_read ExampleIndex.VisibleRecordPositions
           ExampleIndex.new_VisibleRecordPositions
           "index/a.dlis.xml" "archive" []
           (Ok ExampleIndex.logical_index) ExampleIndex.index_calls).
  reflexivity.
Defined.

(** At [ExampleIndex.origin_first_node] the first check that fails is that
    of the first record. *)
Lemma read_logical_file_from_xml_ordering_witness :
  run (ExampleIndex.read_logical_file_from_xml ExampleIndex.origin_first_node)
    []
  = (Raise (ExceptionRP66V1IndexXMLRead First_EFLR_not_FILE_HEADER), []).
Proof.
  destruct (read_logical_file_from_xml_ordering
              LogPassXML.IFLRData LogPassXML.Build_IFLRData
              ExampleIndex.FileLogicalData ExampleIndex.file_logical_data
              ExampleIndex.EFLR ExampleIndex.ExplicitlyFormattedLogicalRecord
              ExampleIndex.LogicalFileState ExampleIndex.new_LogicalFile
              ExampleIndex.add_eflr ExampleIndex.origin_first_node [])
    as (_ & Hchecks & _).
  destruct (Hchecks eq_refl) as (_ & Hfirst & _).
  apply (Hfirst (ExampleIndex.eflr_node "ORIGIN" "0x50" "0xd0") "ORIGIN").
  - vm_compute. lia.
  - reflexivity.
  - reflexivity.
  - discriminate.
Defined.

Lemma read_storage_unit_label_from_xml_checks_witness :
  IndexXML.read_storage_unit_label_from_xml ExampleIndex.StorageUnitLabel
    ExampleIndex.create_storage_unit_label ExampleIndex.root
  = Ok ExampleIndex.storage_unit_label.
Proof.
  destruct (read_storage_unit_label_from_xml_checks
              ExampleIndex.StorageUnitLabel
              ExampleIndex.create_storage_unit_label ExampleIndex.root
              ExampleIndex.storage_unit_label_node eq_refl)
    as (_ & _ & _ & _ & _ & _ & Hvalid).
  apply (Hvalid 1 8192 (list_byte_of_string "Default Storage Set"));
    reflexivity.
Defined.

(** C7, as stated, fails: the label of [ExampleUnread.labelled_root] has
    the version [V1.00], the sequence number 1 and the structure [RECORD],
    and it is not read, for its maximum record length is not a number; nor
    is that of [ExampleUnread.latin_1_root], whose storage set identifier is
    not ASCII. *)
Lemma read_storage_unit_label_from_xml_checks_counterexample :
  (let sul_element := ExampleUnread.storage_unit_label_node in
   xml.iterfind ["StorageUnitLabel"] ExampleUnread.labelled_root
   = [sul_element]
   /\ xml.get sul_element "dlis_version" = Ok "V1.00"
   /\ (xml.get sul_element "sequence_number" ≫= Py.int) = Ok 1
   /\ xml.get sul_element "storage_unit_structure" = Ok "RECORD"
   /\ xml.get sul_element "maximum_record_length" = Ok "8K"
   /\ IndexXML.read_storage_unit_label_from_xml ExampleIndex.StorageUnitLabel
        ExampleIndex.create_storage_unit_label ExampleUnread.labelled_root
      = Raise ValueError)
  /\ (let sul_element := ExampleUnread.storage_unit_label_latin_1 in
      xml.iterfind ["StorageUnitLabel"] ExampleUnread.latin_1_root
      = [sul_element]
      /\ xml.get sul_element "dlis_version" = Ok "V1.00"
      /\ (xml.get sul_element "sequence_number" ≫= Py.int) = Ok 1
      /\ xml.get sul_element "storage_unit_structure" = Ok "RECORD"
      /\ (xml.get sul_element "maximum_record_length" ≫= Py.int) = Ok 8192
      /\ IndexXML.read_storage_unit_label_from_xml
           ExampleIndex.StorageUnitLabel
           ExampleIndex.create_storage_unit_label ExampleUnread.latin_1_root
         = Raise UnicodeError).
Proof. repeat split; reflexivity. Qed.



(** ** Indexing a file *)

Lemma run_try_except {A} (body : io A) caught handler t :
  run (try_except body caught handler) t
  = match run body t with
    | (Ok a, t') => (Ok a, t')
    | (Raise e, t') => if caught e then run (handler e) t' else (Raise e, t')
    end.
Proof. reflexivity. Qed.

Section IndexASingleFile.
Context `{PyFloat}.

Variable binary_file_type : list event -> string -> result string.
Variable opened : list event -> string -> result unit.
Variable file_read : list event -> string -> result unit.
Variable dirname : string -> string.
Variable path_exists : list event -> string -> result bool.
Variable makedirs : list event -> string -> result unit.
Variable getsize : list event -> string -> result Z.
Variable perf_counter : list event -> float.
Variable opened_to_write : list event -> string -> result unit.
Variable logical_index_of_file : list event -> string -> result unit.
Variable index_written : list event -> string -> bool -> result Z.
Variable printed : list event -> result unit.

Local Abbreviation index_a_single_file :=
  (IndexXML.index_a_single_file binary_file_type opened file_read dirname
     path_exists makedirs getsize perf_counter opened_to_write
     logical_index_of_file index_written printed).
Local Abbreviation index_a_single_file_body :=
  (IndexXML.index_a_single_file_body opened file_read getsize perf_counter
     opened_to_write logical_index_of_file index_written printed).
Local Abbreviation index_a_single_file_failed :=
  (IndexXML.index_a_single_file_failed getsize).

Lemma index_a_single_file_body_result path_in path_out private t result t' :
  run (index_a_single_file_body path_in path_out private) t
  = (Ok result, t') ->
  IndexXML.path_input result = path_in
  /\ IndexXML.exception result = false
  /\ IndexXML.ignored result = false.
Proof.
  unfold IndexXML.index_a_single_file_body.
  rewrite run_call_bind. destruct (opened _ _) as [[]|]; [|intros [=]].
  rewrite run_call_bind.
  rewrite run_call_bind. destruct (file_read _ _) as [[]|]; [|intros [=]].
  rewrite run_call_bind.
  destruct (logical_index_of_file _ _) as [[]|]; [|intros [=]].
  rewrite run_bind.
  destruct (run (if negb _ then _ else _) _) as [[index_size|] t1];
    [|intros [=]].
  rewrite run_call_bind. destruct (getsize _ _) as [size|]; [|intros [=]].
  rewrite run_call_bind. cbn [run mret io_ret].
  by intros [= <- _].
Qed.

Lemma index_a_single_file_failed_result path_in t result t' :
  run (index_a_single_file_failed path_in) t = (Ok result, t') ->
  result
  = {| IndexXML.path_input := path_in;
       IndexXML.size_input := IndexXML.size_input result;
       IndexXML.size_index := 0; IndexXML.time := IndexXML.float_zero;
       IndexXML.exception := true; IndexXML.ignored := false |}.
Proof.
  unfold IndexXML.index_a_single_file_failed. rewrite run_call_bind.
  destruct (getsize _ _) as [size|]; [|intros [=]].
  cbn [run mret io_ret]. by intros [= <- _].
Qed.

(** X7.  A result that [index_a_single_file] returns is for the path it was
    given and is of one of three kinds.  It is marked ignored exactly when
    the type found for the file is not [RP66V1]: nothing else was then
    asked of the environment, and the sizes, the time and the exception
    mark are zero and false.  It is marked as an exception only for a file
    of type [RP66V1], with an index size and a time of zero.  It is never
    marked both. *)
Theorem index_a_single_file_result path_in path_out private t result t' :
  run (index_a_single_file path_in path_out private) t = (Ok result, t') ->
  IndexXML.path_input result = path_in
  /\ (IndexXML.ignored result = true <->
      exists bin_file_type,
        binary_file_type t path_in = Ok bin_file_type
        /\ bin_file_type <> "RP66V1")
  /\ (IndexXML.ignored result = true ->
      t' = (t ++ [binary_file_type_from_path_called path_in])%list
      /\ result
         = {| IndexXML.path_input := path_in; IndexXML.size_input := 0;
              IndexXML.size_index := 0;
              IndexXML.time := IndexXML.float_zero;
              IndexXML.exception := false; IndexXML.ignored := true |})
  /\ (IndexXML.exception result = true ->
      IndexXML.ignored result = false
      /\ IndexXML.size_index result = 0
      /\ IndexXML.time result = IndexXML.float_zero).
Proof.
  unfold IndexXML.index_a_single_file. rewrite run_call_bind.
  destruct (binary_file_type t path_in) as [bin_file_type|]; [|intros [=]].
  destruct (String.eqb_spec bin_file_type "RP66V1") as [->|Hother].
  - rewrite run_bind.
    destruct (run (if negb _ then _ else _) _) as [[[]|] t1]; [|intros [=]].
    rewrite run_try_except.
    destruct (run (index_a_single_file_body _ _ _) t1) as [[res|e] t2]
      eqn:Hbody.
    + intros [= <- <-].
      apply index_a_single_file_body_result in Hbody as (Hp & He & Hi).
      rewrite He, Hi. split; [done|]. split; [|done].
      split; [done|]. by intros (? & [= <-] & ?).
    + assert (Hfailed : run (index_a_single_file_failed path_in) t2
                        = (Ok result, t') ->
              IndexXML.path_input result = path_in
              /\ (IndexXML.ignored result = true <->
                  exists bin_file_type : string,
                    Ok (A := string) "RP66V1" = Ok bin_file_type
                    /\ bin_file_type <> "RP66V1")
              /\ (IndexXML.ignored result = true ->
                  t' = (t ++ [binary_file_type_from_path_called path_in])%list
                  /\ result
                     = {| IndexXML.path_input := path_in;
                          IndexXML.size_input := 0;
                          IndexXML.size_index := 0;
                          IndexXML.time := IndexXML.float_zero;
                          IndexXML.exception := false;
                          IndexXML.ignored := true |})
              /\ (IndexXML.exception result = true ->
                  IndexXML.ignored result = false
                  /\ IndexXML.size_index result = 0
                  /\ IndexXML.time result = IndexXML.float_zero)).
      { intros ->%index_a_single_file_failed_result.
        cbn [IndexXML.path_input IndexXML.ignored IndexXML.exception
             IndexXML.size_index IndexXML.time].
        split; [done|]. split; [|done].
        split; [done|]. by intros (? & [= <-] & ?). }
      destruct (_ || _); [|intros [=]].
      by destruct (is_ExceptionTotalDepthRP66V1 e).
  - cbn [run mret io_ret]. intros [= <- <-].
    cbn [IndexXML.path_input IndexXML.ignored IndexXML.exception
         IndexXML.size_index IndexXML.time].
    split; [done|]. split; [|done].
    split; [|done]. intros _. by exists bin_file_type.
Qed.

Lemma index_a_single_file_raised path_in path_out private t e t' :
  run (index_a_single_file path_in path_out private) t = (Raise e, t') ->
  is_Exception e = false
  \/ exists t0,
       (t' = (t0 ++ [binary_file_type_from_path_called path_in])%list
        /\ binary_file_type t0 path_in = Raise e)
       \/ (t' = (t0 ++ [exists_called (dirname path_out)])%list
           /\ path_exists t0 (dirname path_out) = Raise e)
       \/ (t' = (t0 ++ [makedirs_called (dirname path_out)])%list
           /\ makedirs t0 (dirname path_out) = Raise e)
       \/ (t' = (t0 ++ [getsize_called path_in])%list
           /\ getsize t0 path_in = Raise e).
Proof.
  unfold IndexXML.index_a_single_file. rewrite run_call_bind.
  destruct (binary_file_type t path_in) as [bin_file_type|e0] eqn:Htype.
  2:{ intros [= <- <-]. right. exists t. by left. }
  destruct (bin_file_type =? "RP66V1")%string; [|intros [=]].
  rewrite run_bind.
  destruct (run (if negb _ then _ else _) _) as [[[]|e0] t1] eqn:Hdir.
  2:{ intros [= <- <-]. right. revert Hdir.
      destruct (negb _); [|intros [=]]. cbv zeta. rewrite run_call_bind.
      destruct (path_exists _ _) as [found|e1] eqn:Hfound.
      2:{ intros [= <- <-]. eexists. right. by left. }
      destruct (negb found); [|intros [=]].
      unfold call. cbn [run].
      destruct (makedirs _ _) as [[]|e1] eqn:Hmake; intros [= <- <-].
      eexists. right. right. by left. }
  rewrite run_try_except.
  destruct (run (index_a_single_file_body _ _ _) t1) as [[res|e1] t2];
    [intros [=]|].
  destruct (is_ExceptionTotalDepthRP66V1 e1 || is_Exception e1) eqn:Hcaught.
  - assert (Hfailed : run (index_a_single_file_failed path_in) t2
                      = (Raise e, t') ->
            t' = (t2 ++ [getsize_called path_in])%list
            /\ getsize t2 path_in = Raise e).
    { unfold IndexXML.index_a_single_file_failed. rewrite run_call_bind.
      destruct (getsize _ _) as [size|e2]; [intros [=]|].
      by intros [= <- <-]. }
    intros Hrun. right. exists t2. do 3 right.
    apply Hfailed. by destruct (is_ExceptionTotalDepthRP66V1 e1).
  - intros [= <- <-]. left.
    by apply orb_false_iff in Hcaught as [_ ?].
Qed.

(** X8.  An exception that [index_a_single_file] lets through is either
    not an [Exception] (a [KeyboardInterrupt], say) or the one raised by
    the last call made, and that call is [binary_file_type_from_path] on
    the input, [os.path.exists] or [os.makedirs] on the directory of the
    output, or [os.path.getsize] on the input: what opening, reading,
    building and writing the index raise is caught. *)
Theorem index_a_single_file_propagates path_in path_out private t e t' :
  run (index_a_single_file path_in path_out private) t = (Raise e, t') ->
  is_Exception e = false
  \/ exists t0,
       (t' = (t0 ++ [binary_file_type_from_path_called path_in])%list
        /\ binary_file_type t0 path_in = Raise e)
       \/ (t' = (t0 ++ [exists_called (dirname path_out)])%list
           /\ path_exists t0 (dirname path_out) = Raise e)
       \/ (t' = (t0 ++ [makedirs_called (dirname path_out)])%list
           /\ makedirs t0 (dirname path_out) = Raise e)
       \/ (t' = (t0 ++ [getsize_called path_in])%list
           /\ getsize t0 path_in = Raise e).
Proof. apply index_a_single_file_raised. Qed.

Variable isdir : list event -> string -> bool.
Variable dir_walk :
  list event -> string -> string -> bool
  -> list (string * string) * option exn.

Local Abbreviation index_dir_or_file :=
  (IndexXML.index_dir_or_file binary_file_type opened file_read dirname
     path_exists makedirs getsize perf_counter opened_to_write
     logical_index_of_file index_written printed isdir dir_walk).

(** The statements of [index_a_single_file] between finding the type of the
    file and the [try] statement. *)
Local Abbreviation make_out_dir path_out :=
  (if negb (String.eqb path_out "") then
     let out_dir := dirname path_out in
     found ← call (exists_called out_dir) (fun t => path_exists t out_dir);
     if negb found then
       call (makedirs_called out_dir) (fun t => makedirs t out_dir)
     else mret tt
   else mret tt).

(** The loop of [index_dir_or_file]. *)
Local Abbreviation index_files private :=
  (for_each
     (fun (ret : gmap string IndexXML.IndexResult)
          (file_in_out : string * string) =>
        result ← index_a_single_file file_in_out.1 file_in_out.2 private;
        mret (<[file_in_out.1 := result]> ret))).







End IndexASingleFile.

Lemma index_a_single_file_result_witness :
  let result :=
    {| IndexXML.path_input := "data/a.dlis"; IndexXML.size_input := 57432;
       IndexXML.size_index := 0; IndexXML.time := IndexXML.float_zero;
       IndexXML.exception := true; IndexXML.ignored := false |} in
  let calls :=
    [ binary_file_type_from_path_called "data/a.dlis";
      exists_called "index"; open_called "data/a.dlis" "rb";
      perf_counter_called; FileRead_called "data/a.dlis";
      LogicalIndex_called "data/a.dlis"; getsize_called "data/a.dlis" ] in
  run (ExampleIndexing.index_a_single_file "data/a.dlis" "index/a.dlis" false)
    []
  = (Ok result, calls)
  /\ IndexXML.path_input result = "data/a.dlis"
  /\ (IndexXML.ignored result = true <->
      exists bin_file_type,
        ExampleIndexing.binary_file_type [] "data/a.dlis" = Ok bin_file_type
        /\ bin_file_type <> "RP66V1")
  /\ (IndexXML.ignored result = true ->
      calls = ([] ++ [binary_file_type_from_path_called "data/a.dlis"])%list
      /\ result
         = {| IndexXML.path_input := "data/a.dlis";
              IndexXML.size_input := 0; IndexXML.size_index := 0;
              IndexXML.time := IndexXML.float_zero;
              IndexXML.exception := false; IndexXML.ignored := true |})
  /\ (IndexXML.exception result = true ->
      IndexXML.ignored result = false
      /\ IndexXML.size_index result = 0
      /\ IndexXML.time result = IndexXML.float_zero).
Proof.
  intros result calls. split; [reflexivity|].
  apply (index_a_single_file_result
           ExampleIndexing.binary_file_type ExampleIndexing.opened
           ExampleIndexing.file_read ExampleIndexing.dirname
           ExampleIndexing.path_exists ExampleIndexing.makedirs
           ExampleIndexing.getsize ExampleIndexing.perf_counter
           ExampleIndexing.opened ExampleIndexing.logical_index_of_file
           ExampleIndexing.index_written ExampleIndexing.printed
           "data/a.dlis" "index/a.dlis" false [] result calls).
  reflexivity.
Defined.

Lemma index_a_single_file_propagates_witness :
  run (ExampleIndexing.index_a_single_file "data/b.dlis" "index/b.dlis"
         false) []
  = (Raise OSError, [binary_file_type_from_path_called "data/b.dlis"])
  /\ (is_Exception OSError = false
      \/ exists t0,
           ([binary_file_type_from_path_called "data/b.dlis"]
            = (t0 ++ [binary_file_type_from_path_called "data/b.dlis"])%list
            /\ ExampleIndexing.binary_file_type t0 "data/b.dlis"
               = Raise OSError)
           \/ ([binary_file_type_from_path_called "data/b.dlis"]
               = (t0 ++ [exists_called
                           (ExampleIndexing.dirname "index/b.dlis")])%list
               /\ ExampleIndexing.path_exists t0
                    (ExampleIndexing.dirname "index/b.dlis") = Raise OSError)
           \/ ([binary_file_type_from_path_called "data/b.dlis"]
               = (t0 ++ [makedirs_called
                           (ExampleIndexing.dirname "index/b.dlis")])%list
               /\ ExampleIndexing.makedirs t0
                    (ExampleIndexing.dirname "index/b.dlis") = Raise OSError)
           \/ ([binary_file_type_from_path_called "data/b.dlis"]
               = (t0 ++ [getsize_called "data/b.dlis"])%list
               /\ ExampleIndexing.getsize t0 "data/b.dlis" = Raise OSError)).
Proof.
  split; [reflexivity|].
  apply (index_a_single_file_propagates
           ExampleIndexing.binary_file_type ExampleIndexing.opened
           ExampleIndexing.file_read ExampleIndexing.dirname
           ExampleIndexing.path_exists ExampleIndexing.makedirs
           ExampleIndexing.getsize ExampleIndexing.perf_counter
           ExampleIndexing.opened ExampleIndexing.logical_index_of_file
           ExampleIndexing.index_written ExampleIndexing.printed
           "data/b.dlis" "index/b.dlis" false [] OSError
           [binary_file_type_from_path_called "data/b.dlis"]).
  reflexivity.
Defined.



(** ** Text written and read back *)

Lemma decode_encode_ascii b s :
  Py.decode_ascii b = Ok s -> Py.encode_ascii s = Ok b.
Proof.
  unfold Py.decode_ascii, Py.encode_ascii. cbv zeta.
  destruct (forallb Py.is_ascii_byte b) eqn:Hb; [|intros [=]].
  intros [= <-]. by rewrite list_byte_of_string_of_list_byte, Hb.
Qed.

Lemma dec_digits_without c d :
  (nat_of_ascii c <? 48)%nat || (57 <? nat_of_ascii c)%nat = true ->
  Py.contains_char c (DecimalString.NilEmpty.string_of_uint d) = false.
Proof.
  intros Hc. induction d; cbn [DecimalString.NilEmpty.string_of_uint
                               Py.contains_char]; [done|..];
    rewrite IHd, orb_false_r; apply Ascii.eqb_neq; intros ->;
    by vm_compute in Hc.
Qed.

Lemma str_of_int_without c z :
  (nat_of_ascii c <? 45)%nat || (57 <? nat_of_ascii c)%nat = true ->
  Py.contains_char c (Py.str_of_int z) = false.
Proof.
  intros Hc.
  assert ((nat_of_ascii c <? 48)%nat || (57 <? nat_of_ascii c)%nat = true)
    as Hdigit.
  { apply orb_true_iff in Hc as [Hc%Nat.ltb_lt|Hc]; apply orb_true_iff;
      [left; apply Nat.ltb_lt; lia|by right]. }
  unfold Py.str_of_int, DecimalString.NilZero.string_of_int.
  assert (forall d, Py.contains_char c
                      (DecimalString.NilZero.string_of_uint d) = false)
    as Huint.
  { intros d. unfold DecimalString.NilZero.string_of_uint.
    destruct d; try apply (dec_digits_without c _ Hdigit).
    cbn. rewrite orb_false_r. apply Ascii.eqb_neq. intros ->.
    by vm_compute in Hc. }
  destruct (Z.to_int z) as [d|d]; [apply Huint|].
  cbn [Py.contains_char]. rewrite Huint, orb_false_r.
  apply Ascii.eqb_neq. intros ->. by vm_compute in Hc.
Qed.

Lemma split_word sep w :
  Py.contains_char sep w = false -> Py.split sep w = [w].
Proof.
  induction w as [|c w IH]; [done|]. cbn [Py.contains_char Py.split].
  intros [Hc Hw]%orb_false_iff. rewrite Ascii.eqb_sym, Hc, (IH Hw). done.
Qed.

Lemma split_word_sep sep w rest :
  Py.contains_char sep w = false ->
  Py.split sep (w +:+ String sep rest) = w :: Py.split sep rest.
Proof.
  induction w as [|c w IH].
  - intros _. change ("" +:+ String sep rest) with (String sep rest).
    cbn [Py.split]. by rewrite Ascii.eqb_refl.
  - cbn [Py.contains_char]. intros [Hc Hw]%orb_false_iff.
    change (String c w +:+ String sep rest)
      with (String c (w +:+ String sep rest)).
    cbn [Py.split]. by rewrite Ascii.eqb_sym, Hc, (IH Hw).
Qed.

(** [','.join(f'{v:d}' for v in l).split(',')] gives the texts of the
    integers back, but for no integers at all: then it is one empty text. *)
Lemma split_join_ints l :
  l <> [] ->
  Py.split "," (Py.join "," (map Py.str_of_int l)) = map Py.str_of_int l.
Proof.
  induction l as [|z l IH]; [done|]. intros _.
  assert (Py.contains_char "," (Py.str_of_int z) = false) as Hz
    by by apply str_of_int_without.
  destruct l as [|z' l]; [by apply split_word|].
  change (Py.join "," (map Py.str_of_int (z :: z' :: l)))
    with (Py.str_of_int z
          +:+ String "," (Py.join "," (map Py.str_of_int (z' :: l)))).
  rewrite (split_word_sep _ _ _ Hz), IH; done.
Qed.

Lemma mapR_int_str_of_int l : mapR Py.int (map Py.str_of_int l) = Ok l.
Proof.
  induction l as [|z l IH]; [done|]. cbn [map]. rewrite mapR_cons.
  rewrite int_str_of_int. cbn [mbind result_bind]. by rewrite IH.
Qed.

Lemma startswith_without c0 c s :
  Py.contains_char c s = false ->
  Py.startswith s (String c0 (String c EmptyString)) = false.
Proof.
  unfold Py.startswith. destruct s as [|a [|b s]]; cbn; [done|..].
  - by destruct (ascii_dec c0 a).
  - intros [_ [Hb _]%orb_false_iff]%orb_false_iff.
    destruct (ascii_dec c0 a); [|done].
    destruct (ascii_dec c b) as [->|]; [|done].
    by rewrite Ascii.eqb_refl in Hb.
Qed.

Lemma startswith_append p s : Py.startswith (p +:+ s) p = true.
Proof.
  unfold Py.startswith. induction p as [|a p IH]; [by destruct s|].
  change (String a p +:+ s) with (String a (p +:+ s)). cbn [String.prefix].
  by destruct (ascii_dec a a).
Qed.

Section TextReadBack.
Context `{PyFloat}.
Import xml.

(** X9.  [xml_integer_attribute_read] reads an attribute written with
    [f'{z:d}'] back to [z] for every integer [z]; it reads one written with
    [f'0x{z:x}'], the form of the record positions in the index, back to
    [z] when [z] is not negative and raises [ValueError] when it is. *)
Theorem xml_integer_attribute_read_written element attr z :
  (get element attr = Ok (Py.str_of_int z) ->
   IndexXML.xml_integer_attribute_read element attr = Ok z)
  /\ (get element attr = Ok ("0x" +:+ Py.hex_of_int z) ->
      IndexXML.xml_integer_attribute_read element attr
      = if 0 <=? z then Ok z else Raise ValueError).
Proof.
  unfold IndexXML.xml_integer_attribute_read. split; intros ->;
    cbn [mbind result_bind].
  - rewrite startswith_without by by apply str_of_int_without.
    apply int_str_of_int.
  - rewrite startswith_append. destruct (Z.leb_spec 0 z).
    + by apply int16_hex_of_int.
    + by apply int16_hex_of_negative.
Qed.

(** X10.  The attributes that [xml_object_name_attributes] makes of an
    object name are read by [xml_object_name] as the name whose [O] and [C]
    are the texts written and whose [I] is the original one: the name read
    is the name written exactly when its [O] and [C] were texts already, and
    never when they are integers. *)
Theorem xml_object_name_written object_name attributes tag children :
  IndexXML.xml_object_name_attributes object_name = Ok attributes ->
  let object_name_read :=
    {| RepCode.O :=
         RepCode.AStr (RepCode.format_atom (RepCode.O object_name));
       RepCode.C :=
         RepCode.AStr (RepCode.format_atom (RepCode.C object_name));
       RepCode.I := RepCode.I object_name |} in
  IndexXML.xml_object_name (mkElement tag attributes children)
  = Ok object_name_read
  /\ (object_name_read = object_name <->
      exists O C, RepCode.O object_name = RepCode.AStr O
                  /\ RepCode.C object_name = RepCode.AStr C).
Proof.
  unfold IndexXML.xml_object_name_attributes.
  destruct (Py.decode_ascii (RepCode.I object_name)) as [I|] eqn:HI;
    cbn [mbind result_bind mret result_ret]; [|intros [=]].
  intros [= <-]. cbv zeta. split.
  - unfold IndexXML.xml_object_name, get. cbn [attrib]. lookup_attrib.
    cbn [mbind result_bind]. lookup_attrib. cbn [mbind result_bind].
    lookup_attrib. cbn [mbind result_bind].
    by rewrite (decode_encode_ascii _ _ HI).
  - destruct object_name as [O C I']. cbn [RepCode.O RepCode.C RepCode.I].
    split.
    + intros [= HO HC]. destruct O, C; try discriminate HO;
        try discriminate HC. by eauto.
    + by intros (O' & C' & -> & ->).
Qed.

(** What [frame_channel_from_XML] makes of a [Channel] element that
    [frame_channel_to_XML] wrote. *)
Lemma frame_channel_read_back channel channel_node :
  IndexXML.frame_channel_to_XML channel = Ok channel_node ->
  tag channel_node = "Channel"
  /\ exists object_name,
    LogPass.ident channel = LogPass.ident_name object_name
    /\ IndexXML.frame_channel_from_XML channel_node
       = match LogPass.dimensions channel with
         | [] => Raise ValueError
         | _ =>
             Ok {| LogPass.ident :=
                     LogPass.ident_bytes (RepCode.I object_name);
                   LogPass.long_name := LogPass.long_name channel;
                   LogPass.rep_code := LogPass.rep_code channel;
                   LogPass.units := LogPass.units channel;
                   LogPass.dimensions := LogPass.dimensions channel |}
         end.
Proof.
  unfold IndexXML.frame_channel_to_XML, LogPass.ident_O, LogPass.ident_C,
    LogPass.ident_I.
  destruct (LogPass.ident channel) as [object_name|];
    cbn [mbind result_bind]; [|intros [=]].
  destruct (Py.decode_ascii (RepCode.I object_name)) as [I|] eqn:HI;
    cbn [mbind result_bind]; [|intros [=]].
  destruct (Py.decode_ascii (LogPass.long_name channel)) as [long_name|]
    eqn:Hlong_name; cbn [mbind result_bind]; [|intros [=]].
  destruct (Py.decode_ascii (LogPass.units channel)) as [units|] eqn:Hunits;
    cbn [mbind result_bind mret result_ret]; [|intros [=]].
  intros [= <-]. split; [done|]. exists object_name. split; [done|].
  unfold IndexXML.frame_channel_from_XML, get. cbn [tag attrib negb].
  change ("Channel" =? "Channel")%string with true. cbn [negb].
  lookup_attrib. cbn [mbind result_bind].
  rewrite (decode_encode_ascii _ _ HI). cbn [mbind result_bind].
  lookup_attrib. cbn [mbind result_bind].
  rewrite (decode_encode_ascii _ _ Hlong_name). cbn [mbind result_bind].
  lookup_attrib. cbn [mbind result_bind].
  rewrite int_str_of_int. cbn [mbind result_bind].
  lookup_attrib. cbn [mbind result_bind].
  rewrite (decode_encode_ascii _ _ Hunits). cbn [mbind result_bind].
  lookup_attrib. cbn [mbind result_bind].
  destruct (LogPass.dimensions channel) as [|v dimensions] eqn:Hdimensions;
    [reflexivity|].
  rewrite split_join_ints by done. rewrite mapR_int_str_of_int.
  reflexivity.
Qed.

(** X11.  A [Channel] element that [frame_channel_to_XML] writes for a
    channel that has a dimension is read by [frame_channel_from_XML] as the
    channel with the same long name, representation code, units and
    dimensions, and with the [I] of its object name as its whole identity.
    The element written for a channel without dimensions is not read:
    [int] raises [ValueError] on its empty [dimensions] attribute. *)
Theorem frame_channel_written channel channel_node :
  IndexXML.frame_channel_to_XML channel = Ok channel_node ->
  exists object_name,
    LogPass.ident channel = LogPass.ident_name object_name
    /\ IndexXML.frame_channel_from_XML channel_node
       = match LogPass.dimensions channel with
         | [] => Raise ValueError
         | _ =>
             Ok {| LogPass.ident :=
                     LogPass.ident_bytes (RepCode.I object_name);
                   LogPass.long_name := LogPass.long_name channel;
                   LogPass.rep_code := LogPass.rep_code channel;
                   LogPass.units := LogPass.units channel;
                   LogPass.dimensions := LogPass.dimensions channel |}
         end.
Proof.
  intros Hwritten. exact (proj2 (frame_channel_read_back _ _ Hwritten)).
Qed.

End TextReadBack.

Lemma xml_integer_attribute_read_written_witness :
  let eflr_node := ExampleIndex.eflr_node "FILE-HEADER" "0x50" "0x54" in
  xml.get eflr_node "vr_position" = Ok ("0x" +:+ Py.hex_of_int 80)
  /\ IndexXML.xml_integer_attribute_read eflr_node "vr_position" = Ok 80.
Proof.
  intros eflr_node. split; [reflexivity|].
  exact (proj2 (xml_integer_attribute_read_written eflr_node "vr_position" 80)
           eq_refl).
Defined.

Lemma xml_object_name_written_witness :
  let attributes : gmap string string :=
    {[ "O" := "11"; "C" := "0"; "I" := "0B" ]} in
  IndexXML.xml_object_name_attributes (ExampleArrays.name 11 0 "0B")
  = Ok attributes
  /\ IndexXML.xml_object_name (xml.mkElement "FrameArray" attributes [])
     = Ok {| RepCode.O := RepCode.AStr "11"; RepCode.C := RepCode.AStr "0";
             RepCode.I := list_byte_of_string "0B" |}.
Proof.
  intros attributes. split; [reflexivity|].
  exact (proj1 (xml_object_name_written (ExampleArrays.name 11 0 "0B")
                  attributes "FrameArray" [] eq_refl)).
Defined.

Lemma frame_channel_written_witness :
  let channel :=
    {| LogPass.ident := LogPass.ident_name (ExampleArrays.name 11 0 "DEPT");
       LogPass.long_name := list_byte_of_string "MWD Tool Measurement Depth";
       LogPass.rep_code := 2;
       LogPass.units := list_byte_of_string "0.1 in";
       LogPass.dimensions := [1] |} in
  IndexXML.frame_channel_to_XML channel = Ok WrittenNodes.channel_node
  /\ exists object_name,
       LogPass.ident channel = LogPass.ident_name object_name
       /\ IndexXML.frame_channel_from_XML WrittenNodes.channel_node
          = Ok {| LogPass.ident :=
                    LogPass.ident_bytes (RepCode.I object_name);
                  LogPass.long_name := LogPass.long_name channel;
                  LogPass.rep_code := LogPass.rep_code channel;
                  LogPass.units := LogPass.units channel;
                  LogPass.dimensions := LogPass.dimensions channel |}.
Proof.
  intros channel. split; [reflexivity|].
  exact (frame_channel_written channel WrittenNodes.channel_node eq_refl).
Defined.

(** ** Dumping positions *)

Section DumpPositions.
Import xml.

Lemma position_attributes_says positions i position :
  positions !! i = Some position ->
  exists attrs,
    LogPassXML.position_attributes positions i position = Ok attrs
    /\ says_position positions i position attrs.
Proof.
  intros Hi. unfold LogPassXML.position_attributes, says_position.
  destruct i as [|i'].
  - cbn [Nat.ltb Nat.leb]. eexists. split; [reflexivity|].
    lookup_attrib. done.
  - change (0 <? S i')%nat with true. cbv iota.
    unfold LogPassXML.position_at. rewrite Hi. cbn [mbind result_bind].
    replace (S i' - 1)%nat with i' by lia.
    destruct (positions !! i') as [before|] eqn:Hbefore.
    2:{ apply lookup_ge_None in Hbefore. apply lookup_lt_Some in Hi. lia. }
    cbn [mbind result_bind]. eexists. split; [reflexivity|].
    lookup_attrib. split; [done|]. split; [done|]. by exists before.
Qed.

Lemma xml_dump_positions_from_written positions limit element_name :
  forall rest pre,
    positions = (pre ++ rest)%list ->
    (length pre <= Z.to_nat limit)%nat ->
    exists elements,
      LogPassXML.xml_dump_positions_from positions limit element_name
        (length pre) rest
      = Ok (map LogPassXML.WElement elements
            ++ if (Z.to_nat limit - length pre <? length rest)%nat
               then [LogPassXML.WComment " TRACE: break "] else [])%list
      /\ length elements
         = Nat.min (length rest) (S (Z.to_nat limit - length pre))
      /\ forall k element,
           elements !! k = Some element ->
           tag element = element_name
           /\ children element = []
           /\ exists position,
                positions !! (length pre + k)%nat = Some position
                /\ says_position positions (length pre + k) position
                     (attrib element).
Proof.
  induction rest as [|position rest IH]; intros pre Hpositions Hpre.
  - exists []. cbn. split; [done|]. split; [done|]. intros k e [=].
  - cbn [LogPassXML.xml_dump_positions_from].
    assert (positions !! length pre = Some position) as Hposition.
    { subst positions. by rewrite lookup_app_r, Nat.sub_diag by lia. }
    destruct (position_attributes_says _ _ _ Hposition)
      as (attrs & -> & Hattrs).
    cbn [mbind result_bind].
    assert (forall k element,
              [mkElement element_name attrs []] !! k = Some element ->
              tag element = element_name
              /\ children element = []
              /\ exists position,
                   positions !! (length pre + k)%nat = Some position
                   /\ says_position positions (length pre + k) position
                        (attrib element)) as Hfirst.
    { intros [|k] element; [|intros [=]]. intros [= <-].
      rewrite Nat.add_0_r. split; [done|]. split; [done|].
      by exists position. }
    destruct (Z.leb_spec limit (Z.of_nat (length pre))) as [Hlimit|Hlimit].
    + exists [mkElement element_name attrs []].
      assert (Z.to_nat limit - length pre = 0)%nat as -> by lia.
      cbn [length]. split; [done|]. split; [by destruct (length rest)|].
      exact Hfirst.
    + destruct (IH (pre ++ [position])%list) as (elements & Hrun & Hlen & Hall).
      { by rewrite <- app_assoc. }
      { rewrite length_app. cbn. lia. }
      rewrite length_app in Hrun, Hlen, Hall. cbn [length] in Hrun, Hlen, Hall.
      replace (length pre + 1)%nat with (S (length pre)) in Hrun, Hlen, Hall
        by lia.
      rewrite Hrun. cbn [mbind result_bind].
      exists (mkElement element_name attrs [] :: elements).
      split; [|split].
      * cbn [map app length]. do 2 f_equal.
        destruct (Nat.ltb_spec (Z.to_nat limit - S (length pre))
                    (length rest));
          destruct (Nat.ltb_spec (Z.to_nat limit - length pre)
                      (S (length rest))); done || lia.
      * cbn [length]. rewrite Hlen. lia.
      * intros [|k] element.
        -- apply (Hfirst 0%nat).
        -- cbn. intros Hk. specialize (Hall _ _ Hk).
           by replace (length pre + S k)%nat with (S (length pre) + k)%nat
             by lia.
Qed.

(** X12.  [xml_dump_positions] never raises.  It writes one element for
    each of the first [limit + 1] positions (one, for a [limit] below
    zero) or for all of them when there are fewer, in order; the element
    for [positions[k]] carries the position in decimal and hexadecimal and,
    from the second on, its difference to the position before.  The comment
    is written after them exactly when there are more than [limit]
    positions, so also when every position has been written. *)
Theorem xml_dump_positions_written positions limit element_name :
  exists elements,
    LogPassXML.xml_dump_positions positions limit element_name
    = Ok (map LogPassXML.WElement elements
          ++ if (Z.to_nat limit <? length positions)%nat
             then [LogPassXML.WComment " TRACE: break "] else [])%list
    /\ length elements = Nat.min (length positions) (S (Z.to_nat limit))
    /\ forall k element,
         elements !! k = Some element ->
         tag element = element_name
         /\ children element = []
         /\ exists position,
              positions !! k = Some position
              /\ says_position positions k position (attrib element).
Proof.
  destruct (xml_dump_positions_from_written positions limit element_name
              positions [] eq_refl) as (elements & Hrun & Hlen & Hall).
  { cbn. lia. }
  cbn [length] in Hrun, Hlen, Hall. rewrite Nat.sub_0_r in Hrun, Hlen.
  exists elements. split; [exact Hrun|]. split; [exact Hlen|].
  intros k element Hk. exact (Hall k element Hk).
Qed.

End DumpPositions.

(** ** Runs made of integers *)

Section CreateRle.
Context `{PyFloat}.
Import xml.

Lemma run_snoc d s n :
  Rle.run (Int d) (Int s) (S n)
  = (Rle.run (Int d) (Int s) n ++ [Int (d + s * Z.of_nat n)])%list.
Proof.
  revert d. induction n as [|n IH]; intros d.
  - cbn. do 2 f_equal. lia.
  - change (Rle.run (Int d) (Int s) (S (S n)))
      with (Int d :: Rle.run (Int (d + s)) (Int s) (S n)).
    rewrite IH. cbn [Rle.run py_add app]. do 4 f_equal. lia.
Qed.

(** The items built from integers are made of integers and expand to the
    values they were built from. *)
Lemma build_values vs :
  forall d s r prev,
    0 <= r ->
    prev = d + s * r ->
    let items :=
      Rle.build {| Rle.datum := Int d; Rle.stride := Int s;
                   Rle.repeat := Int r |} (Int prev) (map Int vs) in
    forallb item_is_int items = true
    /\ forallb item_repeat_ok items = true
    /\ exists vss,
         mapR Rle.item_values items = Ok vss
         /\ List.concat vss
            = (Rle.run (Int d) (Int s) (Z.to_nat (r + 1)) ++ map Int vs)%list.
Proof.
  induction vs as [|v vs IH]; intros d s r prev Hr Hprev; cbv zeta.
  - cbn [map Rle.build forallb]. unfold item_is_int, item_repeat_ok.
    cbn [Rle.datum Rle.stride Rle.repeat is_Int number_nonneg andb].
    split; [done|]. split; [by rewrite andb_true_r; apply Z.leb_le|].
    eexists. split; [reflexivity|]. cbn [List.concat]. done.
  - cbn [map Rle.build Rle.repeat Rle.stride Rle.datum py_sub py_eqb py_add].
    destruct (Z.eqb_spec r 0) as [->|Hr0].
    + destruct (IH d (v - prev) 1 v ltac:(lia) ltac:(lia))
        as (Hint & Hrep & vss & Hvss & Hcat).
      split; [exact Hint|]. split; [exact Hrep|].
      exists vss. split; [exact Hvss|]. rewrite Hcat.
      change (Z.to_nat (1 + 1)) with 2%nat.
      change (Z.to_nat (0 + 1)) with 1%nat.
      cbn [Rle.run py_add app map]. do 3 f_equal. lia.
    + destruct (Z.eqb_spec (v - prev) s) as [Hstep|Hstep].
      * destruct (IH d s (r + 1) v ltac:(lia) ltac:(lia))
          as (Hint & Hrep & vss & Hvss & Hcat).
        split; [exact Hint|]. split; [exact Hrep|].
        exists vss. split; [exact Hvss|]. rewrite Hcat.
        replace (Z.to_nat (r + 1 + 1)) with (S (Z.to_nat (r + 1))) by lia.
        rewrite run_snoc, <- app_assoc. cbn [app map]. do 3 f_equal. lia.
      * unfold Rle.new_item.
        destruct (IH v 0 0 v ltac:(lia) ltac:(lia))
          as (Hint & Hrep & vss & Hvss & Hcat).
        cbn [forallb]. rewrite Hint, Hrep.
        unfold item_is_int at 1, item_repeat_ok at 1.
        cbn [Rle.datum Rle.stride Rle.repeat is_Int number_nonneg andb].
        split; [done|]. split; [by rewrite andb_true_r; apply Z.leb_le|].
        rewrite mapR_cons.
        change (Rle.item_values
                  {| Rle.datum := Int d; Rle.stride := Int s;
                     Rle.repeat := Int r |})
          with (Ok (Rle.run (Int d) (Int s) (Z.to_nat (r + 1)))).
        cbn [mbind result_bind]. rewrite Hvss.
        cbn [mbind result_bind mret result_ret].
        eexists. split; [reflexivity|]. cbn [List.concat]. rewrite Hcat.
        change (Z.to_nat (0 + 1)) with 1%nat. cbn [Rle.run app map].
        done.
Qed.

(** Built from positions that are not negative and do not decrease, the
    items have a datum and a stride that are not negative. *)
Lemma build_hex_ok vs :
  forall d s r prev,
    0 <= d -> 0 <= s -> 0 <= r ->
    prev = d + s * r ->
    nondecreasing_from prev vs = true ->
    forallb item_hex_ok
      (Rle.build {| Rle.datum := Int d; Rle.stride := Int s;
                    Rle.repeat := Int r |} (Int prev) (map Int vs))
    = true.
Proof.
  induction vs as [|v vs IH]; intros d s r prev Hd Hs Hr Hprev.
  - intros _. cbn [map Rle.build forallb]. unfold item_hex_ok.
    cbn [Rle.datum Rle.stride number_nonneg].
    rewrite andb_true_r. apply andb_true_iff. split; by apply Z.leb_le.
  - cbn [nondecreasing_from]. intros [Hv%Z.leb_le Hvs]%andb_true_iff.
    cbn [map Rle.build Rle.repeat Rle.stride Rle.datum py_sub py_eqb py_add].
    destruct (Z.eqb_spec r 0) as [->|Hr0].
    + apply IH; try lia. exact Hvs.
    + destruct (Z.eqb_spec (v - prev) s) as [Hstep|Hstep].
      * apply IH; try lia. exact Hvs.
      * unfold Rle.new_item. cbn [forallb].
        rewrite (IH v 0 0 v); try nia; [|exact Hvs].
        unfold item_hex_ok. cbn [Rle.datum Rle.stride number_nonneg].
        rewrite andb_true_r. apply andb_true_iff.
        split; by apply Z.leb_le.
Qed.

Lemma create_rle_ints vs :
  let rle := Rle.create_rle (map Int vs) in
  forallb item_is_int (Rle.rle_items rle) = true
  /\ forallb item_repeat_ok (Rle.rle_items rle) = true
  /\ Rle.values rle = Ok (map Int vs)
  /\ Rle.num_values rle = Int (Z.of_nat (length vs))
  /\ (nondecreasing_from 0 vs = true ->
      forallb item_hex_ok (Rle.rle_items rle) = true).
Proof.
  destruct vs as [|v vs]; cbv zeta; [by cbn|].
  cbn [map Rle.create_rle Rle.rle_items]. unfold Rle.new_item.
  destruct (build_values vs v 0 0 v ltac:(lia) ltac:(lia))
    as (Hint & Hrep & vss & Hvss & Hcat).
  split; [exact Hint|]. split; [exact Hrep|].
  assert (Rle.values
            {| Rle.rle_items :=
                 Rle.build {| Rle.datum := Int v; Rle.stride := Int 0;
                              Rle.repeat := Int 0 |} (Int v)
                   (map Int vs) |} = Ok (map Int (v :: vs))) as Hvalues.
  { unfold Rle.values. cbn [Rle.rle_items]. rewrite Hvss.
    cbn [mbind result_bind mret result_ret]. by rewrite Hcat. }
  split; [exact Hvalues|]. split.
  - destruct (values_count
                {| Rle.rle_items :=
                     Rle.build {| Rle.datum := Int v; Rle.stride := Int 0;
                                  Rle.repeat := Int 0 |} (Int v)
                       (map Int vs) |} Hrep) as (vs' & Hvs' & Hnum).
    rewrite Hvalues in Hvs'. injection Hvs' as <-.
    rewrite Hnum. cbn [length]. by rewrite length_map.
  - cbn [nondecreasing_from]. intros [Hv%Z.leb_le Hvs]%andb_true_iff.
    apply build_hex_ok; try lia. exact Hvs.
Qed.

(** An RLE whose items are made of integers, written and read. *)
Lemma rle_written_read rle element_name hex_output :
  forallb item_is_int (Rle.rle_items rle) = true ->
  (hex_output = true -> forallb item_hex_ok (Rle.rle_items rle) = true) ->
  exists attrs items,
    IndexXML.xml_rle_write rle element_name hex_output
    = Ok (mkElement element_name attrs items)
    /\ IndexXML.xml_rle_read (mkElement element_name attrs items) = Ok rle.
Proof.
  intros Hint Hhex.
  destruct rle as [items]. cbn [Rle.rle_items] in *.
  destruct (num_values_int {| Rle.rle_items := items |} Hint) as [n Hn].
  destruct (items_write_read hex_output items Hint Hhex)
    as (es & Hwrite & Htags & Hread).
  unfold IndexXML.xml_rle_write. rewrite Hn.
  cbn [format_d mbind result_bind Rle.rle_items]. rewrite Hwrite.
  cbn [mbind result_bind mret result_ret].
  do 2 eexists. split; [reflexivity|].
  unfold IndexXML.xml_rle_read.
  rewrite (iterfind_children _ _ _ _ Htags), Hread.
  cbn [mbind result_bind]. unfold get. cbn [attrib]. lookup_attrib.
  cbn [mbind result_bind]. rewrite int_str_of_int.
  cbn [mbind result_bind]. rewrite Hn. cbn [py_eqb].
  rewrite Z.eqb_refl. cbn [negb]. lookup_attrib.
  cbn [mbind result_bind]. rewrite int_str_of_int.
  cbn [mbind result_bind]. unfold Rle.len. cbn [Rle.rle_items].
  by rewrite Z.eqb_refl.
Qed.

End CreateRle.

(** ** The side table of a frame array, written and read *)

Section SideTable.
Context `{PyFloat}.
Import xml.

(** The [IFLR] element of a frame array whose three blocks hold integers
    is read as the triples of their values, the LRSH position first. *)
Lemma iflr_read_back {IFLRReference : Type}
    (new_IFLRReference : number -> number -> number -> IFLRReference)
    frames positions xs (count : nat) attrs channels_attrs channel_nodes
    frames_attrs frames_items lrsh_attrs lrsh_items xaxis_attrs xaxis_items :
  length frames = count -> length positions = count -> length xs = count ->
  IndexXML.xml_rle_read (mkElement "FrameNumbers" frames_attrs frames_items)
  = Ok (Rle.create_rle (map Int frames)) ->
  IndexXML.xml_rle_read (mkElement "LRSH" lrsh_attrs lrsh_items)
  = Ok (Rle.create_rle (map Int positions)) ->
  IndexXML.xml_rle_read (mkElement "Xaxis" xaxis_attrs xaxis_items)
  = Ok (Rle.create_rle (map Int xs)) ->
  IndexXML.iflr_data_from_xml IFLRReference new_IFLRReference
    (mkElement "FrameArray" attrs
       [ mkElement "Channels" channels_attrs channel_nodes;
         mkElement "IFLR" {[ "count" := Py.str_of_int (Z.of_nat count) ]}
           [ mkElement "FrameNumbers" frames_attrs frames_items;
             mkElement "LRSH" lrsh_attrs lrsh_items;
             mkElement "Xaxis" xaxis_attrs xaxis_items ] ])
  = Ok (Ok (zip3 new_IFLRReference (map Int positions) (map Int frames)
              (map Int xs))).
Proof.
  intros Hframes Hpositions Hxs Hread_frames Hread_lrsh Hread_xaxis.
  unfold IndexXML.iflr_data_from_xml.
  set (iflr_node :=
         mkElement "IFLR" {[ "count" := Py.str_of_int (Z.of_nat count) ]}
           [ mkElement "FrameNumbers" frames_attrs frames_items;
             mkElement "LRSH" lrsh_attrs lrsh_items;
             mkElement "Xaxis" xaxis_attrs xaxis_items ]).
  change (IndexXML.xml_single_element
            (mkElement "FrameArray" attrs
               [mkElement "Channels" channels_attrs channel_nodes; iflr_node])
            ["IFLR"]) with (Ok iflr_node).
  cbn [mbind result_bind].
  change (IndexXML.xml_single_element iflr_node ["LRSH"])
    with (Ok (mkElement "LRSH" lrsh_attrs lrsh_items)).
  cbn [mbind result_bind]. rewrite Hread_lrsh. cbn [mbind result_bind].
  change (IndexXML.xml_single_element iflr_node ["FrameNumbers"])
    with (Ok (mkElement "FrameNumbers" frames_attrs frames_items)).
  cbn [mbind result_bind]. rewrite Hread_frames. cbn [mbind result_bind].
  change (IndexXML.xml_single_element iflr_node ["Xaxis"])
    with (Ok (mkElement "Xaxis" xaxis_attrs xaxis_items)).
  cbn [mbind result_bind]. rewrite Hread_xaxis. cbn [mbind result_bind].
  unfold get, iflr_node. cbn [attrib]. lookup_attrib.
  cbn [mbind result_bind].
  rewrite int_str_of_int. cbn [mbind result_bind].
  rewrite len_set_four.
  destruct (create_rle_ints frames) as (_ & _ & -> & -> & _).
  destruct (create_rle_ints positions) as (_ & _ & -> & -> & _).
  destruct (create_rle_ints xs) as (_ & _ & -> & -> & _).
  rewrite Hframes, Hpositions, Hxs. cbn [py_eqb].
  rewrite Z.eqb_refl. reflexivity.
Qed.

Lemma zip3_map {A B} (f : number -> number -> number -> B)
    (a b c : A -> number) l :
  zip3 f (map a l) (map b l) (map c l) = map (fun v => f (a v) (b v) (c v)) l.
Proof. induction l as [|v l IH]; [done|]. cbn. by rewrite IH. Qed.

(** X13.  For a side table whose frame numbers, LRSH positions and X axis
    values are integers, with positions that are not negative and do not
    decrease, [iflr_data_from_xml] reads the element that
    [frame_array_to_XML] wrote as one reference for each entry, in order,
    built from the LRSH position, the frame number and the X axis value of
    the entry, in this order of arguments. *)
Theorem iflr_data_written_read {IFLRReference : Type}
    (new_IFLRReference : number -> number -> number -> IFLRReference)
    (ref_frame_number : IFLRReference -> number)
    (ref_lrsh_position : IFLRReference -> result number)
    (ref_x_axis : IFLRReference -> number)
    frame_array iflr_data frames positions xs frame_array_node :
  map ref_frame_number iflr_data = map Int frames ->
  mapR ref_lrsh_position iflr_data = Ok (map Int positions) ->
  nondecreasing_from 0 positions = true ->
  map ref_x_axis iflr_data = map Int xs ->
  IndexXML.frame_array_to_XML IFLRReference ref_frame_number
    ref_lrsh_position ref_x_axis frame_array iflr_data
  = Ok frame_array_node ->
  let iflr_data_read :=
    zip3 new_IFLRReference (map Int positions) (map ref_frame_number iflr_data)
      (map ref_x_axis iflr_data) in
  IndexXML.iflr_data_from_xml IFLRReference new_IFLRReference
    frame_array_node = Ok (Ok iflr_data_read)
  /\ length iflr_data_read = length iflr_data.
Proof.
  intros Hframes Hpositions Hsorted Hxs.
  assert (length frames = length iflr_data) as Hlen_frames.
  { apply (f_equal length) in Hframes. by rewrite !length_map in Hframes. }
  assert (length positions = length iflr_data) as Hlen_positions.
  { apply mapR_Ok_length in Hpositions. by rewrite length_map in Hpositions. }
  assert (length xs = length iflr_data) as Hlen_xs.
  { apply (f_equal length) in Hxs. by rewrite !length_map in Hxs. }
  unfold IndexXML.frame_array_to_XML.
  destruct (Py.decode_ascii (RepCode.I (LogPass.fa_ident frame_array)))
    as [I|]; cbn [mbind result_bind]; [|intros [=]].
  destruct (Py.decode_ascii (LogPass.description frame_array))
    as [description|]; cbn [mbind result_bind]; [|intros [=]].
  destruct (IndexXML.first_channel frame_array ≫= LogPass.ident_I)
    as [channel0_I|]; cbn [mbind result_bind]; [|intros [=]].
  destruct (Py.decode_ascii channel0_I) as [x_axis|];
    cbn [mbind result_bind]; [|intros [=]].
  destruct (IndexXML.first_channel frame_array ≫= _) as [x_units|];
    cbn [mbind result_bind]; [|intros [=]].
  destruct (mapR IndexXML.frame_channel_to_XML _) as [channel_nodes|];
    cbn [mbind result_bind]; [|intros [=]].
  rewrite Hframes, Hpositions, Hxs. cbn [mbind result_bind].
  destruct (create_rle_ints frames) as (Hint_frames & _).
  destruct (create_rle_ints positions) as (Hint_lrsh & _ & _ & _ & Hhex).
  destruct (create_rle_ints xs) as (Hint_xs & _).
  destruct (rle_written_read (Rle.create_rle (map Int frames)) "FrameNumbers"
              false Hint_frames) as (a1 & i1 & -> & Hread1); [done|].
  cbn [mbind result_bind].
  destruct (rle_written_read (Rle.create_rle (map Int positions)) "LRSH"
              true Hint_lrsh) as (a2 & i2 & -> & Hread2); [by auto|].
  cbn [mbind result_bind].
  destruct (rle_written_read (Rle.create_rle (map Int xs)) "Xaxis"
              false Hint_xs) as (a3 & i3 & -> & Hread3); [done|].
  cbn [mbind result_bind]. intros [= <-]. cbv zeta.
  rewrite (iflr_read_back new_IFLRReference frames positions xs
             (length iflr_data)) by done.
  split; [done|]. rewrite zip3_length; rewrite ?length_map; congruence.
Qed.

Lemma fold_left_append channels frame_array :
  fold_left LogPass.append channels frame_array
  = {| LogPass.fa_ident := LogPass.fa_ident frame_array;
       LogPass.description := LogPass.description frame_array;
       LogPass.channels :=
         (LogPass.channels frame_array ++ channels)%list |}.
Proof.
  revert frame_array. induction channels as [|c channels IH];
    intros frame_array; cbn [fold_left].
  - rewrite app_nil_r. by destruct frame_array.
  - rewrite IH. cbn. by rewrite <- app_assoc.
Qed.

Lemma frame_channels_read_back channels :
  forall channel_nodes,
    mapR IndexXML.frame_channel_to_XML channels = Ok channel_nodes ->
    Forall (fun channel => LogPass.dimensions channel <> []) channels ->
    Forall (fun e => tag e = "Channel") channel_nodes
    /\ exists channels_read,
         mapR IndexXML.frame_channel_from_XML channel_nodes = Ok channels_read
         /\ Forall2 channel_read_back channels channels_read.
Proof.
  induction channels as [|c channels IH]; intros channel_nodes.
  - intros [= <-] _. split; [done|]. exists []. by split.
  - rewrite mapR_cons.
    destruct (IndexXML.frame_channel_to_XML c) as [node|] eqn:Hnode;
      cbn [mbind result_bind]; [|intros [=]].
    destruct (mapR IndexXML.frame_channel_to_XML channels) as [nodes|];
      cbn [mbind result_bind mret result_ret]; [|intros [=]].
    intros [= <-] [Hc Hchannels]%Forall_cons.
    destruct (IH nodes eq_refl Hchannels) as (Htags & cs & Hcs & Hall).
    destruct (frame_channel_read_back c node Hnode)
      as (Htag & object_name & Hident & Hread).
    split; [by constructor|].
    destruct (LogPass.dimensions c) as [|d ds] eqn:Hd; [done|].
    eexists. split.
    + rewrite mapR_cons, Hread. cbn [mbind result_bind]. rewrite Hcs.
      reflexivity.
    + constructor; [|exact Hall]. exists object_name.
      split; [done|]. by rewrite Hd.
Qed.

(** X14.  For a frame array whose channels each have a dimension and a
    side table of integers, with LRSH positions that are not negative and
    do not decrease, [LogPassXML.frame_array_from_XML] reads the element
    that [LogPassXML.frame_array_to_XML] wrote as: the frame array with the
    same description, with the [O] and [C] of its name as texts, and with
    each channel identified by the [I] of its name alone; and the side
    table in which every entry has its frame number and its LRSH position
    exchanged.  The side table read is the one written only when every
    entry has a frame number equal to its LRSH position. *)
Theorem frame_array_written_read frame_array iflr_data frames positions xs
    frame_array_node :
  map LogPassXML.frame_number iflr_data = map Int frames ->
  map LogPassXML.lrsh_position iflr_data = map Int positions ->
  nondecreasing_from 0 positions = true ->
  map LogPassXML.x_axis iflr_data = map Int xs ->
  Forall (fun channel => LogPass.dimensions channel <> [])
    (LogPass.channels frame_array) ->
  LogPassXML.frame_array_to_XML frame_array iflr_data
  = Ok frame_array_node ->
  let iflr_data_read :=
    map (fun v =>
           {| LogPassXML.frame_number := LogPassXML.lrsh_position v;
              LogPassXML.lrsh_position := LogPassXML.frame_number v;
              LogPassXML.x_axis := LogPassXML.x_axis v |}) iflr_data in
  (exists channels_read,
     LogPassXML.frame_array_from_XML frame_array_node
     = Ok ({| LogPass.fa_ident :=
                {| RepCode.O :=
                     RepCode.AStr
                       (RepCode.format_atom
                          (RepCode.O (LogPass.fa_ident frame_array)));
                   RepCode.C :=
                     RepCode.AStr
                       (RepCode.format_atom
                          (RepCode.C (LogPass.fa_ident frame_array)));
                   RepCode.I := RepCode.I (LogPass.fa_ident frame_array) |};
              LogPass.description := LogPass.description frame_array;
              LogPass.channels := channels_read |},
           Ok iflr_data_read)
     /\ Forall2 channel_read_back (LogPass.channels frame_array)
          channels_read)
  /\ (iflr_data_read = iflr_data <->
      Forall (fun v => LogPassXML.frame_number v = LogPassXML.lrsh_position v)
        iflr_data).
Proof.
  intros Hframes Hpositions Hsorted Hxs Hdimensions.
  assert (length frames = length iflr_data) as Hlen_frames.
  { apply (f_equal length) in Hframes. by rewrite !length_map in Hframes. }
  assert (length positions = length iflr_data) as Hlen_positions.
  { apply (f_equal length) in Hpositions.
    by rewrite !length_map in Hpositions. }
  assert (length xs = length iflr_data) as Hlen_xs.
  { apply (f_equal length) in Hxs. by rewrite !length_map in Hxs. }
  intros Hwritten. cbv zeta. split.
  - revert Hwritten. unfold LogPassXML.frame_array_to_XML.
    destruct (Py.decode_ascii (RepCode.I (LogPass.fa_ident frame_array)))
      as [I|] eqn:HI; cbn [mbind result_bind]; [|intros [=]].
    destruct (Py.decode_ascii (LogPass.description frame_array))
      as [description|] eqn:Hdescription; cbn [mbind result_bind];
      [|intros [=]].
    unfold LogPassXML.frame_channel_to_XML, LogPassXML.xml_rle_write.
    destruct (mapR IndexXML.frame_channel_to_XML _) as [channel_nodes|]
      eqn:Hnodes; cbn [mbind result_bind]; [|intros [=]].
    rewrite Hframes, Hpositions, Hxs.
    destruct (create_rle_ints frames) as (Hint_frames & _ & Hv1 & Hn1 & _).
    destruct (create_rle_ints positions)
      as (Hint_lrsh & _ & Hv2 & Hn2 & Hhex).
    destruct (create_rle_ints xs) as (Hint_xs & _ & Hv3 & Hn3 & _).
    destruct (rle_written_read (Rle.create_rle (map Int frames))
                "FrameNumbers" false Hint_frames)
      as (a1 & i1 & -> & Hread1); [done|].
    cbn [mbind result_bind].
    destruct (rle_written_read (Rle.create_rle (map Int positions)) "LRSH"
                true Hint_lrsh) as (a2 & i2 & -> & Hread2); [by auto|].
    cbn [mbind result_bind].
    destruct (rle_written_read (Rle.create_rle (map Int xs)) "Xaxis"
                false Hint_xs) as (a3 & i3 & -> & Hread3); [done|].
    cbn [mbind result_bind]. intros [= <-].
    destruct (frame_channels_read_back _ _ Hnodes Hdimensions)
      as (Htags & channels_read & Hchannels & Hall).
    exists channels_read. split; [|exact Hall].
    unfold LogPassXML.frame_array_from_XML. cbn [tag].
    change ("FrameArray" =? "FrameArray")%string with true. cbn [negb].
    unfold LogPassXML.xml_object_name, IndexXML.xml_object_name, get.
    cbn [attrib]. lookup_attrib. cbn [mbind result_bind].
    lookup_attrib. cbn [mbind result_bind].
    lookup_attrib. cbn [mbind result_bind].
    rewrite (decode_encode_ascii _ _ HI). cbn [mbind result_bind].
    lookup_attrib. cbn [mbind result_bind].
    rewrite (decode_encode_ascii _ _ Hdescription). cbn [mbind result_bind].
    unfold LogPassXML.frame_channel_from_XML.
    set (iflr_node :=
           mkElement "IFLR"
             {[ "count" := Py.str_of_int (Z.of_nat (length iflr_data)) ]}
             [ mkElement "FrameNumbers" a1 i1; mkElement "LRSH" a2 i2;
               mkElement "Xaxis" a3 i3 ]).
    set (channels_node := mkElement "Channels" _ channel_nodes).
    replace (iterfind ["Channels"; "Channel"]
               (mkElement "FrameArray" _ [channels_node; iflr_node]))
      with channel_nodes.
    2:{ change (iterfind ["Channels"; "Channel"]
                  (mkElement "FrameArray" _ [channels_node; iflr_node]))
          with (iterfind ["Channel"] channels_node ++ [])%list.
        unfold channels_node.
        by rewrite (iterfind_children _ _ _ _ Htags), app_nil_r. }
    rewrite Hchannels. cbn [mbind result_bind].
    unfold LogPassXML.xml_single_element, LogPassXML.xml_rle_read.
    change (IndexXML.xml_single_element
              (mkElement "FrameArray" _ [channels_node; iflr_node]) ["IFLR"])
      with (Ok iflr_node).
    cbn [mbind result_bind].
    change (IndexXML.xml_single_element iflr_node ["LRSH"])
      with (Ok (mkElement "LRSH" a2 i2)).
    cbn [mbind result_bind]. rewrite Hread2. cbn [mbind result_bind].
    change (IndexXML.xml_single_element iflr_node ["FrameNumbers"])
      with (Ok (mkElement "FrameNumbers" a1 i1)).
    cbn [mbind result_bind]. rewrite Hread1. cbn [mbind result_bind].
    change (IndexXML.xml_single_element iflr_node ["Xaxis"])
      with (Ok (mkElement "Xaxis" a3 i3)).
    cbn [mbind result_bind]. rewrite Hread3. cbn [mbind result_bind].
    unfold get, iflr_node. cbn [attrib]. lookup_attrib.
    cbn [mbind result_bind]. rewrite int_str_of_int.
    cbn [mbind result_bind]. rewrite len_set_four.
    rewrite Hn1, Hn2, Hn3, Hv1, Hv2, Hv3.
    rewrite Hlen_frames, Hlen_positions, Hlen_xs. cbn [py_eqb].
    rewrite Z.eqb_refl. cbn [andb negb mbind result_bind mret result_ret].
    rewrite fold_left_append. cbn [LogPass.new LogPass.fa_ident
      LogPass.description LogPass.channels app].
    rewrite <- Hframes, <- Hpositions, <- Hxs, zip3_map. reflexivity.
  - clear. induction iflr_data as [|v l IH]; [by split|].
    cbn [map]. split.
    + intros [= Hv Hl]. constructor; [|by apply IH].
      destruct v. cbn in *. by injection Hv as -> _.
    + intros [Hv Hl]%Forall_cons. f_equal; [|by apply IH].
      destruct v. cbn in *. by subst.
Qed.

End SideTable.

Lemma iflr_data_written_read_witness :
  IndexXML.frame_array_to_XML LogPassXML.IFLRData LogPassXML.frame_number
    (fun v => Ok (LogPassXML.lrsh_position v)) LogPassXML.x_axis
    ExampleArrays.frame_array ExampleArrays.iflr_data
  = Ok WrittenNodes.index_frame_array_node
  /\ nondecreasing_from 0 [5292] = true
  /\ IndexXML.iflr_data_from_xml LogPassXML.IFLRData
       LogPassXML.Build_IFLRData WrittenNodes.index_frame_array_node
     = Ok (Ok [LogPassXML.Build_IFLRData (Int 5292) (Int 1) (Int 0)]).
Proof.
  split; [reflexivity|]. split; [reflexivity|].
  exact (proj1 (iflr_data_written_read LogPassXML.Build_IFLRData
                  LogPassXML.frame_number
                  (fun v => Ok (LogPassXML.lrsh_position v))
                  LogPassXML.x_axis ExampleArrays.frame_array
                  ExampleArrays.iflr_data [1] [5292] [0]
                  WrittenNodes.index_frame_array_node
                  eq_refl eq_refl eq_refl eq_refl eq_refl)).
Defined.

Lemma frame_array_written_read_witness :
  LogPassXML.frame_array_to_XML ExampleArrays.frame_array
    ExampleArrays.iflr_data
  = Ok WrittenNodes.logpass_frame_array_node
  /\ Forall (fun channel => LogPass.dimensions channel <> [])
       (LogPass.channels ExampleArrays.frame_array)
  /\ exists channels_read,
       LogPassXML.frame_array_from_XML WrittenNodes.logpass_frame_array_node
       = Ok ({| LogPass.fa_ident :=
                  {| RepCode.O := RepCode.AStr "11";
                     RepCode.C := RepCode.AStr "0";
                     RepCode.I := list_byte_of_string "0B" |};
                LogPass.description := [];
                LogPass.channels := channels_read |},
             Ok [LogPassXML.Build_IFLRData (Int 5292) (Int 1) (Int 0)])
       /\ Forall2 channel_read_back (LogPass.channels ExampleArrays.frame_array)
            channels_read.
Proof.
  assert (Forall (fun channel => LogPass.dimensions channel <> [])
            (LogPass.channels ExampleArrays.frame_array)) as Hdimensions.
  { repeat constructor. intros [=]. }
  split; [reflexivity|]. split; [exact Hdimensions|].
  exact (proj1 (frame_array_written_read ExampleArrays.frame_array
                  ExampleArrays.iflr_data [1] [5292] [0]
                  WrittenNodes.logpass_frame_array_node
                  eq_refl eq_refl eq_refl eq_refl Hdimensions eq_refl)).
Defined.

(** ** The index of a file, written *)

Lemma mapR_app_raise {A B} (f : A -> result B) before x after e :
  is_Ok (mapR f before) = true ->
  f x = Raise e ->
  mapR f (before ++ x :: after)%list = Raise e.
Proof.
  intros Hbefore Hx. induction before as [|b before IH]; cbn [app].
  - by rewrite mapR_cons, Hx.
  - rewrite mapR_cons in Hbefore |- *.
    destruct (f b); cbn [mbind result_bind] in Hbefore |- *; [|done].
    destruct (mapR f before); cbn [mbind result_bind] in Hbefore |- *;
      [|done].
    by rewrite (IH eq_refl).
Qed.

Lemma iterfind_filter t element :
  xml.iterfind [t] element
  = filter (fun c => xml.tag c = t) (xml.children element).
Proof.
  cbn [xml.iterfind]. induction (filter _ _) as [|e es IH]; [done|].
  cbn. by rewrite IH.
Qed.

Lemma filter_tag_all t es :
  Forall (fun e => xml.tag e = t) es ->
  filter (fun c => xml.tag c = t) es = es.
Proof.
  induction 1 as [|e es He Hes IH]; [done|].
  rewrite filter_cons_True by done. by rewrite IH.
Qed.

Lemma filter_tag_none t es :
  Forall (fun e => xml.tag e <> t) es ->
  filter (fun c => xml.tag c = t) es = [].
Proof.
  induction 1 as [|e es He Hes IH]; [done|].
  by rewrite filter_cons_False.
Qed.

Lemma integer_attribute_hex_read element attr z :
  xml.get element attr = Ok ("0x" +:+ Py.hex_of_int z) ->
  IndexXML.xml_integer_attribute_read element attr
  = if 0 <=? z then Ok z else Raise ValueError.
Proof.
  unfold IndexXML.xml_integer_attribute_read. intros ->.
  cbn [mbind result_bind]. rewrite startswith_append.
  destruct (Z.leb_spec 0 z).
  - by apply int16_hex_of_int.
  - by apply int16_hex_of_negative.
Qed.

Section WriteLogicalFile.
Context `{PyFloat}.
Import xml.

Variable IFLRReference : Type.
Variable ref_frame_number : IFLRReference -> number.
Variable ref_lrsh_position : IFLRReference -> result number.
Variable ref_x_axis : IFLRReference -> number.
Variable EFLR : Type.
Variable LogicalFileState : Type.
Variable REP_CODE_INT_TO_STR : Z -> option string.
Variable lr_type : EFLR -> Z.
Variable set_type : EFLR -> list byte.
Variable set_name : EFLR -> list byte.
Variable objects : EFLR -> list IndexXML.Object.
Variable eflrs :
  LogicalFileState -> list (IndexXML.LogicalRecordPosition * EFLR).
Variable log_pass : LogicalFileState -> option (list LogPass.FrameArray).
Variable is_public : Z -> bool.

Local Abbreviation write_eflr_to_xml :=
  (IndexXML.write_eflr_to_xml EFLR REP_CODE_INT_TO_STR lr_type set_type
     set_name objects is_public).
Local Abbreviation log_pass_to_XML :=
  (IndexXML.log_pass_to_XML IFLRReference ref_frame_number ref_lrsh_position
     ref_x_axis).
Local Abbreviation frame_array_to_XML :=
  (IndexXML.frame_array_to_XML IFLRReference ref_frame_number
     ref_lrsh_position ref_x_axis).
Local Abbreviation write_logical_file_to_xml :=
  (IndexXML.write_logical_file_to_xml IFLRReference ref_frame_number
     ref_lrsh_position ref_x_axis EFLR LogicalFileState REP_CODE_INT_TO_STR
     lr_type set_type set_name objects eflrs log_pass is_public).

Lemma eflr_written private position eflr eflr_node :
  write_eflr_to_xml private (position, eflr) = Ok eflr_node ->
  tag eflr_node = "EFLR"
  /\ eflr_written_as position (set_type eflr) eflr_node.
Proof.
  unfold IndexXML.write_eflr_to_xml.
  destruct (Py.decode_ascii (set_type eflr)) as [type|] eqn:Htype;
    cbn [mbind result_bind]; [|intros [=]].
  destruct (Py.decode_ascii (set_name eflr)) as [name|];
    cbn [mbind result_bind]; [|intros [=]].
  destruct (if private || _ then _ else _) as [object_nodes|];
    cbn [mbind result_bind]; [|intros [=]].
  intros [= <-]. split; [done|]. unfold eflr_written_as.
  split.
  - unfold get. cbn [attrib]. lookup_attrib. cbn [mbind result_bind].
    by apply decode_encode_ascii.
  - unfold eflr_position.
    rewrite (integer_attribute_hex_read _ "vr_position"
               (IndexXML.vr_position position))
      by (unfold get; cbn [attrib]; by lookup_attrib).
    rewrite (integer_attribute_hex_read _ "lrsh_position"
               (IndexXML.lrsh_position position))
      by (unfold get; cbn [attrib]; by lookup_attrib).
    destruct (0 <=? IndexXML.vr_position position); [|done].
    cbn [mbind result_bind].
    by destruct (0 <=? IndexXML.lrsh_position position).
Qed.

Lemma eflrs_written private position_eflrs :
  forall eflr_nodes,
    mapR (write_eflr_to_xml private) position_eflrs = Ok eflr_nodes ->
    Forall (fun e => tag e = "EFLR") eflr_nodes
    /\ Forall2 (fun position_eflr eflr_node =>
                  eflr_written_as position_eflr.1 (set_type position_eflr.2)
                    eflr_node)
         position_eflrs eflr_nodes.
Proof.
  induction position_eflrs as [|[position eflr] l IH]; intros eflr_nodes.
  - intros [= <-]. by split.
  - rewrite mapR_cons.
    destruct (write_eflr_to_xml private (position, eflr)) as [node|]
      eqn:Hnode; cbn [mbind result_bind]; [|intros [=]].
    destruct (mapR (write_eflr_to_xml private) l) as [nodes|];
      cbn [mbind result_bind mret result_ret]; [|intros [=]].
    intros [= <-]. destruct (IH nodes eq_refl) as [Htags Hall].
    destruct (eflr_written _ _ _ _ Hnode) as [Htag Hwritten].
    split; by constructor.
Qed.

(** The [EFLR] children of a [LogicalFile] element written. *)
Lemma logical_file_written logical_file_index logical_file
    private logical_file_node :
  write_logical_file_to_xml logical_file_index logical_file private
  = Ok logical_file_node ->
  tag logical_file_node = "LogicalFile"
  /\ Forall2 (fun position_eflr eflr_node =>
                eflr_written_as position_eflr.1 (set_type position_eflr.2)
                  eflr_node)
       (eflrs (IndexXML.lf_state _ _ logical_file))
       (iterfind ["EFLR"] logical_file_node).
Proof.
  unfold IndexXML.write_logical_file_to_xml.
  destruct (mapR (write_eflr_to_xml private) _) as [eflr_nodes|] eqn:Hnodes;
    cbn [mbind result_bind]; [|intros [=]].
  destruct (eflrs_written _ _ _ Hnodes) as [Htags Hall].
  assert (forall log_pass_nodes attrs,
            Forall (fun e => tag e = "LogPass") log_pass_nodes ->
            iterfind ["EFLR"]
              (mkElement "LogicalFile" attrs
                 (eflr_nodes ++ log_pass_nodes)%list) = eflr_nodes)
    as Hfind.
  { intros log_pass_nodes attrs Hlog_pass.
    rewrite iterfind_filter. cbn [children]. rewrite filter_app.
    rewrite (filter_tag_all _ _ Htags), filter_tag_none, app_nil_r; [done|].
    apply (Forall_impl _ _ _ Hlog_pass). by intros e ->. }
  destruct (log_pass _) as [frame_arrays|].
  - unfold IndexXML.log_pass_to_XML.
    destruct (mapR _ frame_arrays) as [frame_array_nodes|];
      cbn [mbind result_bind]; [|intros [=]].
    intros [= <-]. split; [done|]. rewrite Hfind; [done|].
    by repeat constructor.
  - cbn [mbind result_bind]. intros [= <-]. split; [done|].
    rewrite Hfind; done.
Qed.

(** X15.  The element that [write_logical_file_to_xml] writes is a
    [LogicalFile] with one [EFLR] child for each pair of
    [logical_file.eflrs], in order.  The child carries the set type of the
    record, and the reader of the index finds in it the two positions of
    the pair when neither is negative; it raises [ValueError] on the
    hexadecimal text of a negative position. *)
Theorem write_logical_file_to_xml_eflrs logical_file_index logical_file
    private logical_file_node :
  write_logical_file_to_xml logical_file_index logical_file private
  = Ok logical_file_node ->
  tag logical_file_node = "LogicalFile"
  /\ Forall2 (fun position_eflr eflr_node =>
                eflr_written_as position_eflr.1 (set_type position_eflr.2)
                  eflr_node)
       (eflrs (IndexXML.lf_state _ _ logical_file))
       (iterfind ["EFLR"] logical_file_node).
Proof. apply logical_file_written. Qed.

Lemma frame_array_to_XML_tag frame_array iflr_data frame_array_node :
  frame_array_to_XML frame_array iflr_data = Ok frame_array_node ->
  tag frame_array_node = "FrameArray".
Proof.
  unfold IndexXML.frame_array_to_XML.
  repeat match goal with
         | |- (?m ≫= _) = Ok _ -> _ =>
             destruct m; cbn [mbind result_bind]; [|intros [=]]
         end.
  by intros [= <-].
Qed.

(** The loop of [log_pass_to_XML] over the frame arrays. *)
Lemma frame_arrays_written iflr_data_map frame_arrays :
  forall frame_array_nodes,
    mapR (fun frame_array =>
            if negb (IndexXML.dict_in (LogPass.fa_ident frame_array)
                       iflr_data_map)
            then Raise ExceptionLogPassXML
            else
              iflr_data ← IndexXML.dict_get (LogPass.fa_ident frame_array)
                            iflr_data_map;
              frame_array_to_XML frame_array iflr_data)
      frame_arrays = Ok frame_array_nodes ->
    Forall (fun e => tag e = "FrameArray") frame_array_nodes
    /\ Forall (fun frame_array =>
                 IndexXML.dict_in (LogPass.fa_ident frame_array)
                   iflr_data_map = true) frame_arrays
    /\ Forall2 (fun frame_array frame_array_node =>
                  exists iflr_data,
                    IndexXML.dict_get (LogPass.fa_ident frame_array)
                      iflr_data_map = Ok iflr_data
                    /\ frame_array_to_XML frame_array iflr_data
                       = Ok frame_array_node)
         frame_arrays frame_array_nodes.
Proof.
  induction frame_arrays as [|frame_array l IH]; intros frame_array_nodes.
  - intros [= <-]. by split.
  - rewrite mapR_cons.
    destruct (IndexXML.dict_in _ _) eqn:Hin; cbn [negb mbind result_bind];
      [|intros [=]].
    destruct (IndexXML.dict_get _ _) as [iflr_data|] eqn:Hdata;
      cbn [mbind result_bind]; [|intros [=]].
    destruct (frame_array_to_XML frame_array iflr_data) as [node|]
      eqn:Hnode; cbn [mbind result_bind]; [|intros [=]].
    destruct (mapR _ l) as [nodes|];
      cbn [mbind result_bind mret result_ret]; [|intros [=]].
    intros [= <-]. destruct (IH nodes eq_refl) as (Htags & Hins & Hall).
    split; [|split]; constructor; eauto using frame_array_to_XML_tag.
Qed.

(** X16.  [log_pass_to_XML] writes a [LogPass] element only when the
    identity of every frame array of the log pass is a key of the side
    table map: its [count] is then the number of frame arrays and its
    [FrameArray] children are, in order, what [frame_array_to_XML] writes
    for each frame array with the side table found under its identity.
    When the frame arrays before one whose identity is missing can be
    written, it raises [ExceptionLogPassXML]. *)
Theorem log_pass_to_XML_needs_every_ident log_pass_ iflr_data_map :
  (forall log_pass_node,
     log_pass_to_XML log_pass_ iflr_data_map = Ok log_pass_node ->
     tag log_pass_node = "LogPass"
     /\ (get log_pass_node "count" ≫= Py.int)
        = Ok (Z.of_nat (length log_pass_))
     /\ Forall (fun frame_array =>
                  IndexXML.dict_in (LogPass.fa_ident frame_array)
                    iflr_data_map = true) log_pass_
     /\ Forall2 (fun frame_array frame_array_node =>
                   exists iflr_data,
                     IndexXML.dict_get (LogPass.fa_ident frame_array)
                       iflr_data_map = Ok iflr_data
                     /\ frame_array_to_XML frame_array iflr_data
                        = Ok frame_array_node)
          log_pass_ (iterfind ["FrameArray"] log_pass_node))
  /\ (forall before frame_array after,
        log_pass_ = (before ++ frame_array :: after)%list ->
        IndexXML.dict_in (LogPass.fa_ident frame_array) iflr_data_map
        = false ->
        is_Ok (log_pass_to_XML before iflr_data_map) = true ->
        log_pass_to_XML log_pass_ iflr_data_map = Raise ExceptionLogPassXML).
Proof.
  split.
  - intros log_pass_node. unfold IndexXML.log_pass_to_XML.
    destruct (mapR _ log_pass_) as [frame_array_nodes|] eqn:Hnodes;
      cbn [mbind result_bind]; [|intros [=]].
    intros [= <-]. destruct (frame_arrays_written _ _ _ Hnodes)
      as (Htags & Hins & Hall).
    split; [done|]. split.
    { unfold get. cbn [attrib]. lookup_attrib. cbn [mbind result_bind].
      apply int_str_of_int. }
    split; [exact Hins|].
    rewrite iterfind_filter. cbn [children].
    by rewrite (filter_tag_all _ _ Htags).
  - intros before frame_array after -> Hmissing.
    unfold IndexXML.log_pass_to_XML.
    destruct (mapR _ before) as [nodes|] eqn:Hbefore; [|intros [=]].
    intros _. rewrite (mapR_app_raise _ before frame_array after
                         ExceptionLogPassXML); [done|by rewrite Hbefore|].
    by rewrite Hmissing.
Qed.

End WriteLogicalFile.

(** ** A logical file, written and read *)

Section WriteReadLogicalFile.
Context `{PyFloat}.
Import xml.

Variable IFLRReference : Type.
Variable new_IFLRReference : number -> number -> number -> IFLRReference.
Variable ref_frame_number : IFLRReference -> number.
Variable ref_lrsh_position : IFLRReference -> result number.
Variable ref_x_axis : IFLRReference -> number.
Variable FileLogicalData : Type.
Variable file_logical_data : list event -> Z -> Z -> result FileLogicalData.
Variable EFLR : Type.
Variable ExplicitlyFormattedLogicalRecord : FileLogicalData -> result EFLR.
Variable LogicalFileState : Type.
Variable new_LogicalFile :
  FileLogicalData -> EFLR ->
  result (IndexXML.LogicalFile IFLRReference LogicalFileState).
Variable add_eflr :
  IndexXML.LogicalFile IFLRReference LogicalFileState ->
  FileLogicalData -> EFLR ->
  result (IndexXML.LogicalFile IFLRReference LogicalFileState).
Variable REP_CODE_INT_TO_STR : Z -> option string.
Variable lr_type : EFLR -> Z.
Variable set_type : EFLR -> list byte.
Variable set_name : EFLR -> list byte.
Variable objects : EFLR -> list IndexXML.Object.
Variable eflrs :
  LogicalFileState -> list (IndexXML.LogicalRecordPosition * EFLR).
Variable log_pass : LogicalFileState -> option (list LogPass.FrameArray).
Variable is_public : Z -> bool.

Local Abbreviation read_logical_file_from_xml :=
  (IndexXML.read_logical_file_from_xml IFLRReference new_IFLRReference
     FileLogicalData file_logical_data EFLR ExplicitlyFormattedLogicalRecord
     LogicalFileState new_LogicalFile add_eflr).
Local Abbreviation write_logical_file_to_xml :=
  (IndexXML.write_logical_file_to_xml IFLRReference ref_frame_number
     ref_lrsh_position ref_x_axis EFLR LogicalFileState REP_CODE_INT_TO_STR
     lr_type set_type set_name objects eflrs log_pass is_public).

Lemma written_positions_read position_eflrs eflr_nodes positions :
  Forall2 (fun position_eflr eflr_node =>
             eflr_written_as position_eflr.1 (set_type position_eflr.2)
               eflr_node) position_eflrs eflr_nodes ->
  mapR eflr_position eflr_nodes = Ok positions ->
  positions = map (fun position_eflr => position_pair position_eflr.1)
                position_eflrs
  /\ Forall (fun position_eflr =>
               0 <= IndexXML.vr_position position_eflr.1
               /\ 0 <= IndexXML.lrsh_position position_eflr.1)
       position_eflrs.
Proof.
  intros Hall. revert positions.
  induction Hall as [|[position eflr] node l nodes [_ Hnode] Hall IH];
    intros positions.
  - intros [= <-]. by split.
  - rewrite mapR_cons, Hnode. cbn [fst].
    destruct (Z.leb_spec 0 (IndexXML.vr_position position));
      cbn [andb mbind result_bind]; [|intros [=]].
    destruct (Z.leb_spec 0 (IndexXML.lrsh_position position));
      cbn [andb mbind result_bind]; [|intros [=]].
    destruct (mapR eflr_position nodes) as [ps|];
      cbn [mbind result_bind mret result_ret]; [|intros [=]].
    intros [= <-]. destruct (IH ps eq_refl) as [-> Hnonneg].
    split; [done|]. by constructor.
Qed.

(** X17.  For the element that [write_logical_file_to_xml] wrote for a
    logical file: [read_logical_file_from_xml] raises, with no call made to
    the binary file, unless the logical file has at least two records, the
    first of set type [FILE-HEADER] and the second of set type [ORIGIN],
    which the writer does not ask for; and when it returns, no position of
    a record is negative and it has called [get_file_logical_data] at the
    positions of the records of the logical file, in order, and made no
    other call. *)
Theorem written_logical_file_read logical_file_index logical_file private
    logical_file_node t r t' :
  write_logical_file_to_xml logical_file_index logical_file private
  = Ok logical_file_node ->
  run (read_logical_file_from_xml logical_file_node) t = (r, t') ->
  let position_eflrs := eflrs (IndexXML.lf_state _ _ logical_file) in
  let ordered :=
    exists position0 eflr0 position1 eflr1 rest,
      position_eflrs = (position0, eflr0) :: (position1, eflr1) :: rest
      /\ set_type eflr0 = list_byte_of_string "FILE-HEADER"
      /\ set_type eflr1 = list_byte_of_string "ORIGIN" in
  (~ ordered -> exists e, r = Raise e /\ t' = t)
  /\ (is_Ok r = true ->
      ordered
      /\ Forall (fun position_eflr =>
                   0 <= IndexXML.vr_position position_eflr.1
                   /\ 0 <= IndexXML.lrsh_position position_eflr.1)
           position_eflrs
      /\ t' = (t ++ map (fun position_eflr =>
                           called_at (position_pair position_eflr.1))
                      position_eflrs)%list).
Proof.
  intros Hwritten Hrun. cbv zeta.
  apply logical_file_written in Hwritten as [Htag Hall].
  generalize dependent (eflrs (IndexXML.lf_state _ _ logical_file)).
  intros position_eflrs Hall.
  assert ((exists position0 eflr0 position1 eflr1 rest,
             position_eflrs = (position0, eflr0) :: (position1, eflr1) :: rest
             /\ set_type eflr0 = list_byte_of_string "FILE-HEADER"
             /\ set_type eflr1 = list_byte_of_string "ORIGIN")
          \/ exists e,
               run (read_logical_file_from_xml logical_file_node) t
               = (Raise e, t)) as [Hordered|Hrefused].
  { clear Hrun.
    remember (iterfind ["EFLR"] logical_file_node) as nodes eqn:Hnodes.
    destruct Hall as [|[position0 eflr0] node0 ? ? Hnode0 Hall].
    { right. eapply read_logical_file_refuses. left.
      rewrite <- Hnodes. cbn. lia. }
    destruct Hall as [|[position1 eflr1] node1 rest nodes Hnode1 Hall].
    { right. eapply read_logical_file_refuses. left.
      rewrite <- Hnodes. cbn. lia. }
    cbn [fst snd] in Hnode0, Hnode1.
    destruct (get node0 "set_type") as [type0|] eqn:H0.
    2:{ right. eapply read_logical_file_refuses. right. left.
        exists node0. split; [by rewrite <- Hnodes|by rewrite H0]. }
    destruct (decide (type0 = "FILE-HEADER")) as [->|Hother0].
    2:{ right. eapply read_logical_file_refuses. right. left.
        exists node0. split; [by rewrite <- Hnodes|].
        rewrite H0. by intros [= ->]. }
    destruct (get node1 "set_type") as [type1|] eqn:H1.
    2:{ right. eapply read_logical_file_refuses. right. right.
        exists node1. split; [by rewrite <- Hnodes|by rewrite H1]. }
    destruct (decide (type1 = "ORIGIN")) as [->|Hother1].
    2:{ right. eapply read_logical_file_refuses. right. right.
        exists node1. split; [by rewrite <- Hnodes|].
        rewrite H1. by intros [= ->]. }
    left. exists position0, eflr0, position1, eflr1, rest.
    split; [done|].
    destruct Hnode0 as [Htype0 _]. destruct Hnode1 as [Htype1 _].
    rewrite H0 in Htype0. rewrite H1 in Htype1.
    cbn [mbind result_bind] in Htype0, Htype1.
    apply encode_ascii_Ok in Htype0, Htype1. by split. }
  - split; [by intros []|]. intros Hok.
    destruct r as [logical_file_read|]; [|discriminate Hok].
    apply read_logical_file_calls in Hrun as (positions & Hpositions & ->).
    destruct (written_positions_read _ _ _ Hall Hpositions)
      as [-> Hnonneg].
    split; [exact Hordered|]. split; [exact Hnonneg|].
    by rewrite map_map.
  - destruct Hrefused as [e He]. rewrite He in Hrun.
    injection Hrun as <- <-. split; [by eauto|]. intros [=].
Qed.

End WriteReadLogicalFile.

(** ** The index of a file, written and read *)

Lemma xml_rle_write_tag `{PyFloat} rle element_name hex_output element :
  IndexXML.xml_rle_write rle element_name hex_output = Ok element ->
  xml.tag element = element_name.
Proof.
  unfold IndexXML.xml_rle_write.
  destruct (format_d _); cbn [mbind result_bind]; [|intros [=]].
  destruct (mapR _ _); cbn [mbind result_bind mret result_ret];
    [|intros [=]].
  by intros [= <-].
Qed.

Section WriteLogicalIndex.
Context `{PyFloat}.
Import xml.

Variable IFLRReference : Type.
Variable ref_frame_number : IFLRReference -> number.
Variable ref_lrsh_position : IFLRReference -> result number.
Variable ref_x_axis : IFLRReference -> number.
Variable StorageUnitLabel : Type.
Variable create_storage_unit_label :
  Z -> list byte -> Z -> list byte -> result StorageUnitLabel.
Variable EFLR : Type.
Variable LogicalFileState : Type.
Variable VisibleRecordPositions : Type.
Variable getsize : list event -> string -> result Z.
Variable REP_CODE_INT_TO_STR : Z -> option string.
Variable lr_type : EFLR -> Z.
Variable set_type : EFLR -> list byte.
Variable set_name : EFLR -> list byte.
Variable objects : EFLR -> list IndexXML.Object.
Variable eflrs :
  LogicalFileState -> list (IndexXML.LogicalRecordPosition * EFLR).
Variable log_pass : LogicalFileState -> option (list LogPass.FrameArray).
Variable is_public : Z -> bool.
Variable storage_unit_sequence_number : StorageUnitLabel -> Z.
Variable dlis_version : StorageUnitLabel -> list byte.
Variable storage_unit_structure : StorageUnitLabel -> list byte.
Variable maximum_record_length : StorageUnitLabel -> Z.
Variable storage_set_identifier : StorageUnitLabel -> list byte.
Variable positions_of : VisibleRecordPositions -> list number.
Variable utc_file_mtime : list event -> string -> result string.
Variable utc_now : list event -> string.
Variable module_name : string.

Local Abbreviation write_logical_file_sequence_to_xml :=
  (IndexXML.write_logical_file_sequence_to_xml IFLRReference ref_frame_number
     ref_lrsh_position ref_x_axis StorageUnitLabel EFLR LogicalFileState
     VisibleRecordPositions getsize REP_CODE_INT_TO_STR lr_type set_type
     set_name objects eflrs log_pass is_public storage_unit_sequence_number
     dlis_version storage_unit_structure maximum_record_length
     storage_set_identifier positions_of utc_file_mtime utc_now module_name).
Local Abbreviation write_logical_file_to_xml :=
  (IndexXML.write_logical_file_to_xml IFLRReference ref_frame_number
     ref_lrsh_position ref_x_axis EFLR LogicalFileState REP_CODE_INT_TO_STR
     lr_type set_type set_name objects eflrs log_pass is_public).
Local Abbreviation read_storage_unit_label_from_xml :=
  (IndexXML.read_storage_unit_label_from_xml StorageUnitLabel
     create_storage_unit_label).
Local Abbreviation LogicalIndex :=
  (IndexXML.LogicalIndex IFLRReference StorageUnitLabel LogicalFileState
     VisibleRecordPositions).

Lemma logical_files_written private (numbered : list (Z * _)) :
  forall logical_file_nodes,
    mapR (fun '(lf, logical_file) =>
            write_logical_file_to_xml lf logical_file private) numbered
    = Ok logical_file_nodes ->
    Forall (fun e => tag e = "LogicalFile") logical_file_nodes.
Proof.
  induction numbered as [|[lf logical_file] l IH]; intros logical_file_nodes.
  - by intros [= <-].
  - rewrite mapR_cons.
    destruct (write_logical_file_to_xml lf logical_file private) as [node|]
      eqn:Hnode; cbn [mbind result_bind]; [|intros [=]].
    destruct (mapR _ l) as [nodes|];
      cbn [mbind result_bind mret result_ret]; [|intros [=]].
    intros [= <-]. apply logical_file_written in Hnode as [Htag _].
    constructor; [done|by apply IH].
Qed.

(** X18.  The document that [write_logical_file_sequence_to_xml] writes,
    having asked for the size and the modification time of the file and for
    the time, passes the checks that [read_logical_index_from_xml] makes of
    the root: its tag is [RP66V1FileIndex], its [schema_version] is the one
    of the code, its [path] is the path of the index written, and its one
    [LogicalFiles] element has a [count] equal to the number of its
    [LogicalFile] children, one for each logical file.  Its storage unit
    label is read back through [create_storage_unit_label] from the four
    fields of the label written when this one has version [V1.00], a
    positive sequence number and structure [RECORD], and is refused
    otherwise: the writer does not check what the reader requires. *)
Theorem written_index_read (logical_file_sequence : LogicalIndex) private
    t root t' :
  run (write_logical_file_sequence_to_xml logical_file_sequence private) t
  = (Ok root, t') ->
  let path := IndexXML.id _ _ _ _ logical_file_sequence in
  let logical_files := IndexXML.logical_files _ _ _ _ logical_file_sequence in
  t' = (t ++ [getsize_called path; stat_called path; utcnow_called])%list
  /\ tag root = "RP66V1FileIndex"
  /\ get root "schema_version" = Ok IndexXML.XML_SCHEMA_VERSION
  /\ get root "path" = Ok path
  /\ (exists logical_files_node,
        IndexXML.xml_single_element root ["LogicalFiles"]
        = Ok logical_files_node
        /\ (get logical_files_node "count" ≫= Py.int)
           = Ok (Z.of_nat (length logical_files))
        /\ length (iterfind ["LogicalFile"] logical_files_node)
           = length logical_files)
  /\ is_Ok (IndexXML.xml_single_element root ["VisibleRecords"]) = true
  /\ exists sul,
       IndexXML.storage_unit_label _ _ _ _ logical_file_sequence = Some sul
       /\ read_storage_unit_label_from_xml root
          = if negb (bool_decide
                       (dlis_version sul = list_byte_of_string "V1.00"))
            then
              Raise (ExceptionIndexXMLRead
                       (Found_DLIS_version (dlis_version sul)))
            else if storage_unit_sequence_number sul <=? 0 then
              Raise (ExceptionIndexXMLRead
                       (Sequence_number_not_positive
                          (storage_unit_sequence_number sul)))
            else if negb (bool_decide
                            (storage_unit_structure sul
                             = list_byte_of_string "RECORD"))
            then
              Raise (ExceptionIndexXMLRead
                       (Found_storage_unit_structure
                          (storage_unit_structure sul)))
            else
              create_storage_unit_label (storage_unit_sequence_number sul)
                (dlis_version sul) (maximum_record_length sul)
                (storage_set_identifier sul).
Proof.
  unfold IndexXML.write_logical_file_sequence_to_xml.
  rewrite run_call_bind.
  destruct (getsize t _) as [size|]; [|intros [=]].
  rewrite run_call_bind.
  destruct (utc_file_mtime _ _) as [mtime|]; [|intros [=]].
  rewrite run_call_bind, run_lift_bind.
  unfold IndexXML.write_storage_unit_label_to_xml, IndexXML.not_None.
  destruct (IndexXML.storage_unit_label _ _ _ _ logical_file_sequence)
    as [sul|]; cbn [mbind result_bind]; [|intros [=]].
  destruct (Py.decode_ascii (dlis_version sul)) as [version|] eqn:Hversion;
    cbn [mbind result_bind]; [|intros [=]].
  destruct (Py.decode_ascii (storage_unit_structure sul)) as [structure|]
    eqn:Hstructure; cbn [mbind result_bind]; [|intros [=]].
  destruct (Py.decode_ascii (storage_set_identifier sul)) as [identifier|]
    eqn:Hidentifier; cbn [mbind result_bind]; [|intros [=]].
  rewrite run_lift_bind.
  destruct (mapR _ (IndexXML.enumerate _)) as [logical_file_nodes|]
    eqn:Hnodes; [|intros [=]].
  rewrite run_lift_bind.
  destruct (IndexXML.visible_record_positions _ _ _ _ logical_file_sequence)
    as [positions|]; [|intros [=]].
  destruct (IndexXML.xml_rle_write _ _ _) as [visible_records|] eqn:Hrle;
    [|intros [=]].
  apply xml_rle_write_tag in Hrle.
  destruct visible_records as [vr_tag vr_attrs vr_children].
  cbn [tag] in Hrle. subst vr_tag.
  cbn [run mret io_ret]. intros [= <- <-]. cbv zeta.
  split; [by rewrite <- !app_assoc|].
  split; [done|].
  split; [unfold get; cbn [attrib]; by lookup_attrib|].
  split; [unfold get; cbn [attrib]; by lookup_attrib|].
  split.
  { eexists. split; [reflexivity|]. split.
    - unfold get. cbn [attrib]. lookup_attrib. cbn [mbind result_bind].
      apply int_str_of_int.
    - rewrite iterfind_filter. cbn [children].
      rewrite (filter_tag_all _ _ (logical_files_written _ _ _ Hnodes)).
      apply mapR_Ok_length in Hnodes. rewrite Hnodes.
      unfold IndexXML.enumerate. by rewrite length_imap. }
  split; [reflexivity|].
  exists sul. split; [done|].
  unfold IndexXML.read_storage_unit_label_from_xml.
  set (sul_node := mkElement "StorageUnitLabel" _ []).
  change (IndexXML.xml_single_element (mkElement "RP66V1FileIndex" _ _)
            ["StorageUnitLabel"]) with (Ok sul_node).
  cbn [mbind result_bind]. unfold get, sul_node. cbn [attrib].
  repeat first [ progress lookup_attrib
               | progress cbn [mbind result_bind]
               | rewrite int_str_of_int
               | rewrite (decode_encode_ascii _ _ Hversion)
               | rewrite (decode_encode_ascii _ _ Hstructure)
               | rewrite (decode_encode_ascii _ _ Hidentifier) ].
  case_bool_decide as Hv; cbn [negb]; [|done].
  repeat first [ progress lookup_attrib
               | progress cbn [mbind result_bind]
               | rewrite int_str_of_int
               | rewrite (decode_encode_ascii _ _ Hstructure)
               | rewrite (decode_encode_ascii _ _ Hidentifier) ].
  destruct (storage_unit_sequence_number sul <=? 0); [done|].
  repeat first [ progress lookup_attrib
               | progress cbn [mbind result_bind]
               | rewrite int_str_of_int
               | rewrite (decode_encode_ascii _ _ Hstructure)
               | rewrite (decode_encode_ascii _ _ Hidentifier) ].
  case_bool_decide as Hs; cbn [negb]; [|done].
  repeat first [ progress lookup_attrib
               | progress cbn [mbind result_bind]
               | rewrite (decode_encode_ascii _ _ Hidentifier) ].
  by rewrite Hv.
Qed.

End WriteLogicalIndex.

(** ** The properties at the example written *)

Lemma write_logical_file_to_xml_eflrs_witness :
  ExampleWriting.write_logical_file_to_xml 0 ExampleWriting.logical_file false
  = Ok ExampleWriting.logical_file_node
  /\ xml.tag ExampleWriting.logical_file_node = "LogicalFile"
  /\ Forall2 (fun position_eflr eflr_node =>
                eflr_written_as position_eflr.1
                  (ExampleWriting.set_type position_eflr.2) eflr_node)
       (ExampleWriting.eflrs
          (IndexXML.lf_state _ _ ExampleWriting.logical_file))
       (xml.iterfind ["EFLR"] ExampleWriting.logical_file_node).
Proof.
  split; [reflexivity|].
  exact (write_logical_file_to_xml_eflrs LogPassXML.IFLRData
           LogPassXML.frame_number (fun v => Ok (LogPassXML.lrsh_position v))
           LogPassXML.x_axis ExampleIndex.EFLR ExampleIndex.LogicalFileState
           ExampleWriting.REP_CODE_INT_TO_STR ExampleWriting.lr_type
           ExampleWriting.set_type ExampleWriting.set_name
           ExampleWriting.objects ExampleWriting.eflrs
           ExampleWriting.log_pass ExampleWriting.is_public
           0 ExampleWriting.logical_file false
           ExampleWriting.logical_file_node eq_refl).
Defined.

Lemma written_logical_file_read_witness :
  ExampleWriting.write_logical_file_to_xml 0 ExampleWriting.logical_file false
  = Ok ExampleWriting.logical_file_node
  /\ run (ExampleIndex.read_logical_file_from_xml
            ExampleWriting.logical_file_node) []
     = (Ok ExampleIndex.logical_file, ExampleIndex.calls)
  /\ ExampleIndex.calls
     = ([] ++ map (fun position_eflr =>
                     called_at (position_pair position_eflr.1))
                (ExampleWriting.eflrs
                   (IndexXML.lf_state _ _ ExampleWriting.logical_file)))%list.
Proof.
  split; [reflexivity|]. split; [reflexivity|].
  exact (proj2 (proj2 (proj2
           (written_logical_file_read LogPassXML.IFLRData
              LogPassXML.Build_IFLRData LogPassXML.frame_number
              (fun v => Ok (LogPassXML.lrsh_position v)) LogPassXML.x_axis
              ExampleIndex.FileLogicalData ExampleIndex.file_logical_data
              ExampleIndex.EFLR ExampleIndex.ExplicitlyFormattedLogicalRecord
              ExampleIndex.LogicalFileState ExampleIndex.new_LogicalFile
              ExampleIndex.add_eflr ExampleWriting.REP_CODE_INT_TO_STR
              ExampleWriting.lr_type ExampleWriting.set_type
              ExampleWriting.set_name ExampleWriting.objects
              ExampleWriting.eflrs ExampleWriting.log_pass
              ExampleWriting.is_public 0 ExampleWriting.logical_file false
              ExampleWriting.logical_file_node []
              (Ok ExampleIndex.logical_file) ExampleIndex.calls
              eq_refl eq_refl) eq_refl))).
Defined.

Lemma written_index_read_witness :
  run (ExampleWriting.write_logical_file_sequence_to_xml
         ExampleWriting.logical_index false) []
  = (Ok ExampleWriting.root,
     [ getsize_called "data/a.dlis"; stat_called "data/a.dlis";
       utcnow_called ])
  /\ xml.get ExampleWriting.root "schema_version"
     = Ok IndexXML.XML_SCHEMA_VERSION
  /\ IndexXML.read_storage_unit_label_from_xml ExampleIndex.StorageUnitLabel
       ExampleIndex.create_storage_unit_label ExampleWriting.root
     = Ok ExampleIndex.storage_unit_label.
Proof.
  split; [reflexivity|].
  destruct (written_index_read LogPassXML.IFLRData
              LogPassXML.frame_number
              (fun v => Ok (LogPassXML.lrsh_position v)) LogPassXML.x_axis
              ExampleIndex.StorageUnitLabel
              ExampleIndex.create_storage_unit_label ExampleIndex.EFLR
              ExampleIndex.LogicalFileState
              ExampleIndex.VisibleRecordPositions ExampleWriting.getsize
              ExampleWriting.REP_CODE_INT_TO_STR ExampleWriting.lr_type
              ExampleWriting.set_type ExampleWriting.set_name
              ExampleWriting.objects ExampleWriting.eflrs
              ExampleWriting.log_pass ExampleWriting.is_public
              ExampleWriting.storage_unit_sequence_number
              ExampleWriting.dlis_version
              ExampleWriting.storage_unit_structure
              ExampleWriting.maximum_record_length
              ExampleWriting.storage_set_identifier
              ExampleWriting.positions_of ExampleWriting.utc_file_mtime
              ExampleWriting.utc_now ExampleWriting.module_name
              ExampleWriting.logical_index false [] ExampleWriting.root
              [ getsize_called "data/a.dlis"; stat_called "data/a.dlis";
                utcnow_called ] eq_refl)
    as (_ & _ & Hversion & _ & _ & _ & sul & [= <-] & Hlabel).
  split; [exact Hversion|exact Hlabel].
Defined.
